(** * The Walking Dead -- Survival OS: the simulation engine of [app.py]

    A shallow embedding of the engine part of [app.py] (domain classes,
    derived metrics, the event table, the day loop and the verdict) and the
    properties of it that the specification states.

    Python numbers are modelled as they are at run time: an [int] is an
    unbounded integer ([Z]); a [float] is an IEEE 754 binary64 value
    ([spec_float] with 53 bits of precision), with round-to-nearest-even
    arithmetic.  The literal data of the program are all [int]s; floats
    appear through the literals [0.5], [0.3], ... and through true
    division.

    As shipped, [app.py] has an unmatched closing parenthesis after its
    style block (line 83), so the module does not load.  The definitions
    below follow the functions and statements as they are written, and the
    properties are properties of those. *)

From Stdlib Require Import ZArith Lia List String Ascii Bool SpecFloat.
From Stdlib Require Import DecimalString.
From stdpp Require Import base option gmap strings.

Local Open Scope Z_scope.

(** ** Python numbers *)

Module Py.

(** The exceptions the modelled code can raise. *)
Inductive exn : Type :=
| ZeroDivisionError
| OverflowError
| ValueError
| KeyError.

(** The outcome of evaluating an expression: a value or a raised
    exception. *)
Inductive res (A : Type) : Type :=
| Ok (a : A)
| Raise (e : exn).
Arguments Ok {A} a.
Arguments Raise {A} e.

Definition res_bind {A B : Type} (f : A -> res B) (r : res A) : res B :=
  match r with
  | Ok a => f a
  | Raise e => Raise e
  end.

#[export] Instance res_ret : MRet res := fun A a => Ok a.
#[export] Instance res_mbind : MBind res := fun A B f r => res_bind f r.

(** *** binary64 *)

Definition prec : Z := 53.
Definition emax : Z := 1024.

Definition fadd : spec_float -> spec_float -> spec_float := SFadd prec emax.
Definition fsub : spec_float -> spec_float -> spec_float := SFsub prec emax.
Definition fmul : spec_float -> spec_float -> spec_float := SFmul prec emax.
Definition fdiv : spec_float -> spec_float -> spec_float := SFdiv prec emax.

(** The quotient [n / d] of two integers ([d <> 0]), rounded once to the
    nearest binary64 (ties to even).  This is what a decimal literal such
    as [0.8] denotes ([ratio 8 10]), and what [int / int] computes. *)
Definition ratio (n d : Z) : spec_float :=
  match n, d with
  | Z0, _ => S754_zero false
  | Zpos p, Zpos q => fdiv (S754_finite false p 0) (S754_finite false q 0)
  | Zneg p, Zpos q => fdiv (S754_finite true p 0) (S754_finite false q 0)
  | Zpos p, Zneg q => fdiv (S754_finite false p 0) (S754_finite true q 0)
  | Zneg p, Zneg q => fdiv (S754_finite true p 0) (S754_finite true q 0)
  | _, Z0 => S754_nan
  end.

Definition is_infinite (x : spec_float) : bool :=
  match x with
  | S754_infinity _ => true
  | _ => false
  end.

Definition is_zero (x : spec_float) : bool :=
  match x with
  | S754_zero _ => true
  | _ => false
  end.

(** The integer [n] rounded to the nearest binary64 (ties to even);
    infinite when it does not fit. *)
Definition nearest_int (n : Z) : spec_float :=
  binary_normalize prec emax n 0 false.

(** [float(n)] for an int [n]: correctly rounded; OverflowError when the
    rounded value does not fit ("int too large to convert to float"). *)
Definition float_of_int (n : Z) : res spec_float :=
  let x := nearest_int n in
  if is_infinite x then Raise OverflowError else Ok x.

(** A Python number as the engine sees it: dynamically an int or a
    float. *)
Inductive num : Type :=
| Int (n : Z)
| Float (x : spec_float).

Definition to_float (a : num) : res spec_float :=
  match a with
  | Int n => float_of_int n
  | Float x => Ok x
  end.

(** [a + b], [a - b], [a * b]: int arithmetic on two ints, otherwise both
    operands are converted to float. *)
Definition add (a b : num) : res num :=
  match a, b with
  | Int m, Int n => Ok (Int (m + n))
  | _, _ => x ← to_float a; y ← to_float b; Ok (Float (fadd x y))
  end.

Definition sub (a b : num) : res num :=
  match a, b with
  | Int m, Int n => Ok (Int (m - n))
  | _, _ => x ← to_float a; y ← to_float b; Ok (Float (fsub x y))
  end.

Definition mul (a b : num) : res num :=
  match a, b with
  | Int m, Int n => Ok (Int (m * n))
  | _, _ => x ← to_float a; y ← to_float b; Ok (Float (fmul x y))
  end.

(** [a / b] (true division).  On two ints the exact quotient is rounded
    once; a zero divisor raises ZeroDivisionError, a quotient too large
    for a float raises OverflowError. *)
Definition int_truediv (m n : Z) : res spec_float :=
  if n =? 0 then Raise ZeroDivisionError
  else
    match m with
    | Z0 => Ok (S754_zero (n <? 0))
    | _ => let x := ratio m n in
           if is_infinite x then Raise OverflowError else Ok x
    end.

Definition truediv (a b : num) : res num :=
  match a, b with
  | Int m, Int n => x ← int_truediv m n; Ok (Float x)
  | _, _ =>
      x ← to_float a; y ← to_float b;
      if is_zero y then Raise ZeroDivisionError else Ok (Float (fdiv x y))
  end.

(** *** Comparisons

    Python compares a float with an int by their exact mathematical
    values.  [None] is the unordered case (NaN). *)
Definition signed (s : bool) (m : positive) : Z :=
  if s then Zneg m else Zpos m.

Definition float_cmp_int (x : spec_float) (n : Z) : option comparison :=
  match x with
  | S754_nan => None
  | S754_infinity s => Some (if s then Lt else Gt)
  | S754_zero _ => Some (0 ?= n)
  | S754_finite s m e =>
      if 0 <=? e then Some (signed s m * 2 ^ e ?= n)
      else Some (signed s m ?= n * 2 ^ (- e))
  end.

Definition cmp (a b : num) : option comparison :=
  match a, b with
  | Int m, Int n => Some (m ?= n)
  | Float x, Int n => float_cmp_int x n
  | Int m, Float y => CompOpp <$> float_cmp_int y m
  | Float x, Float y => SFcompare x y
  end.

Definition lt (a b : num) : bool :=
  match cmp a b with Some Lt => true | _ => false end.
Definition le (a b : num) : bool :=
  match cmp a b with Some (Lt | Eq) => true | _ => false end.
Definition gt (a b : num) : bool :=
  match cmp a b with Some Gt => true | _ => false end.

(** [max(a, b)]: the first argument unless the second is greater. *)
Definition max (a b : num) : num := if gt b a then b else a.

(** *** round(x, ndigits), for [ndigits >= 0]

    An int is returned unchanged.  A finite float is rounded, as an exact
    value, to the nearest multiple of [10^-ndigits] (ties to even) and
    that decimal is converted back to the nearest float. *)
Definition div_half_even (n d : Z) : Z :=
  let (k, r) := Z.div_eucl n d in
  match 2 * r ?= d with
  | Lt => k
  | Gt => k + 1
  | Eq => if Z.even k then k else k + 1
  end.

Definition NDIGITS_MAX : Z := 323.

Definition float_round (x : spec_float) (ndigits : nat) : spec_float :=
  match x with
  | S754_finite s m e =>
      if NDIGITS_MAX <? Z.of_nat ndigits then x
      else
        let scale := 10 ^ Z.of_nat ndigits in
        let n := Zpos m * scale in
        let q := if 0 <=? e then n * 2 ^ e
                 else div_half_even n (2 ^ (- e)) in
        match q with
        | Zpos p => ratio (signed s p) scale
        | _ => S754_zero s
        end
  | _ => x
  end.

Definition round (a : num) (ndigits : nat) : num :=
  match a with
  | Int n => Int n
  | Float x => Float (float_round x ndigits)
  end.

(** [isinstance(a, int)] *)
Definition is_int (a : num) : bool :=
  match a with
  | Int _ => true
  | Float _ => false
  end.

(** *** Float literals of the program *)
Definition lit_0_2 : spec_float := Eval vm_compute in ratio 2 10.
Definition lit_0_3 : spec_float := Eval vm_compute in ratio 3 10.
Definition lit_0_4 : spec_float := Eval vm_compute in ratio 4 10.
Definition lit_0_5 : spec_float := Eval vm_compute in ratio 5 10.
Definition lit_0_6 : spec_float := Eval vm_compute in ratio 6 10.
Definition lit_0_8 : spec_float := Eval vm_compute in ratio 8 10.

(** The decimal string of a non-negative int, as in an f-string. *)
Definition str_of_nat (n : nat) : string :=
  NilEmpty.string_of_uint (Nat.to_uint n).

End Py.
Export Py (res_ret, res_mbind).

Import Py.
Local Open Scope string_scope.
Local Open Scope Z_scope.

(** ** Core domain models *)

Module Survivor.
Record t : Type := mk {
  name : string;
  strength : Z;
  intelligence : Z;
  stamina : Z;
  morale : Z;
  role : string;
  alive : bool
}.

(** [Survivor.__init__]: [alive] is always set to [True]. *)
Definition init (name : string) (strength intelligence stamina morale : Z)
    (role : string) : t :=
  mk name strength intelligence stamina morale role true.

(** [round((self.strength * 0.5 + self.stamina * 0.3 + self.morale * 0.2), 2)] *)
Definition combat_power (self : t) : res num :=
  a ← mul (Int (strength self)) (Float lit_0_5);
  b ← mul (Int (stamina self)) (Float lit_0_3);
  ab ← add a b;
  c ← mul (Int (morale self)) (Float lit_0_2);
  abc ← add ab c;
  Ok (round abc 2).

(** [round((self.intelligence + self.stamina) / 2, 2)] *)
Definition efficiency (self : t) : res num :=
  s ← add (Int (intelligence self)) (Int (stamina self));
  q ← truediv s (Int 2);
  Ok (round q 2).
End Survivor.

Module Base.
Record t : Type := mk {
  name : string;
  defense : Z;
  food : Z;
  medicine : Z;
  population : Z
}.

(** [round((self.defense + self.population) / 2, 2)] *)
Definition safety_score (self : t) : res num :=
  s ← add (Int (defense self)) (Int (population self));
  q ← truediv s (Int 2);
  Ok (round q 2).

(** The in-place update [self.defense = v]. *)
Definition set_defense (v : Z) (self : t) : t :=
  mk (name self) v (food self) (medicine self) (population self).
End Base.

Module Threat.
Record t : Type := mk {
  name : string;
  danger : Z;
  frequency : Z
}.
End Threat.

(** ** Transport and expedition system *)

Module Transport.
Record t : Type := mk {
  name : string;
  noise : Z;
  capacity : Z;
  speed : Z
}.

(** [round((self.noise * 0.6 + (10 - self.speed) * 0.4), 2)] *)
Definition risk (self : t) : res num :=
  a ← mul (Int (noise self)) (Float lit_0_6);
  d ← sub (Int 10) (Int (speed self));
  b ← mul d (Float lit_0_4);
  ab ← add a b;
  Ok (round ab 2).

(** The four subclasses only fix the constructor arguments.  (String
    literals are kept byte for byte, in UTF-8.) *)
Definition OnFoot : t := mk "🚶 On Foot" 2 3 4.
Definition Horse : t := mk "🐎 Horse" 3 2 6.
Definition Car : t := mk "🚗 Car" 8 5 9.
Definition Truck : t := mk "🚚 Truck" 9 8 7.
End Transport.

(** ** Data: survivors, bases, threats *)

Definition SURVIVORS : list Survivor.t := [
  Survivor.init "Rick" 9 7 8 9 "Leader";
  Survivor.init "Daryl" 10 6 9 8 "Hunter";
  Survivor.init "Michonne" 9 8 8 8 "Warrior";
  Survivor.init "Carol" 7 9 7 9 "Strategist";
  Survivor.init "Glenn" 6 8 8 8 "Scout"
].

Definition Prison : Base.t := Base.mk "Prison" 9 70 50 30.
Definition Alexandria : Base.t := Base.mk "Alexandria" 7 80 60 45.
Definition Hilltop : Base.t := Base.mk "Hilltop" 6 90 40 50.

Definition BASES : gmap string Base.t :=
  <["Prison" := Prison]> (<["Alexandria" := Alexandria]>
    (<["Hilltop" := Hilltop]> ∅)).

Definition THREATS : list Threat.t := [
  Threat.mk "Walkers" 6 8;
  Threat.mk "Raiders" 8 4;
  Threat.mk "Disease" 7 5
].

(** ** The random source

    The generator of the [random] module is modelled as an arbitrary
    infinite sequence of integers with a cursor.  [randint(a, b)] consumes
    the next integer and reduces it into the inclusive range [[a, b]]; an
    empty range raises ValueError.  Nothing is assumed on the sequence, so
    every value of the range can come out. *)

Module Rng.
Record t : Type := mk {
  tape : nat -> Z;
  pos : nat
}.

Definition next (g : t) : Z * t :=
  (tape g (pos g), mk (tape g) (S (pos g))).

(** A generator that replays a finite list of draws, then zeros. *)
Definition of_list (l : list Z) : t :=
  mk (fun i => nth i l 0) 0%nat.
End Rng.

(** ** The program state

    The module-level objects the engine touches: the [BASES] dict (the
    selected [base] is an alias of one of its values, so it is accessed
    through its key), the [SURVIVORS] list and the random generator. *)

Record World : Type := mkWorld {
  bases : gmap string Base.t;
  survivors : list Survivor.t;
  rng : Rng.t
}.

(** Computations over the world that may raise. *)
Definition M (A : Type) : Type := World -> res (A * World).

#[export] Instance M_ret : MRet M := fun A a w => Ok (a, w).
#[export] Instance M_bind : MBind M := fun A B f m w =>
  match m w with
  | Ok (a, w') => f a w'
  | Raise e => Raise e
  end.

Definition lift {A : Type} (r : res A) : M A := fun w =>
  match r with
  | Ok a => Ok (a, w)
  | Raise e => Raise e
  end.

Definition gets {A : Type} (f : World -> A) : M A := fun w => Ok (f w, w).

(** [BASES[key]] *)
Definition read_base (key : string) : M Base.t := fun w =>
  match bases w !! key with
  | Some b => Ok (b, w)
  | None => Raise KeyError
  end.

(** The world with the base [b] under [key] updated to defense [v]. *)
Definition with_defense (key : string) (v : Z) (b : Base.t) (w : World)
    : World :=
  mkWorld (<[key := Base.set_defense v b]> (bases w)) (survivors w) (rng w).

(** [BASES[key].defense = v] *)
Definition write_defense (key : string) (v : Z) : M unit := fun w =>
  match bases w !! key with
  | Some b => Ok (tt, with_defense key v b w)
  | None => Raise KeyError
  end.

(** The world once one draw has been consumed. *)
Definition advance (w : World) : World :=
  mkWorld (bases w) (survivors w) (snd (Rng.next (rng w))).

(** [random.randint(a, b)] *)
Definition randint (a b : Z) : M Z := fun w =>
  if b <? a then Raise ValueError
  else Ok (a + fst (Rng.next (rng w)) mod (b - a + 1), advance w).

(** ** Game / simulation engines *)

Definition daily_food_consumption (population : Z) : res num :=
  mul (Int population) (Float lit_0_8).

(** [sum(s.morale for s in survivors) / len(survivors)] *)
Definition average_morale (survivors : list Survivor.t) : res num :=
  truediv (Int (fold_left Z.add (map Survivor.morale survivors) 0))
          (Int (Z.of_nat (length survivors))).

Definition morale_change (base : Base.t) (survivors : list Survivor.t)
    : res Z :=
  avg_morale ← average_morale survivors;
  if Base.food base <? 20 then Ok (-2)
  else if gt avg_morale (Int 8) then Ok 1
  else Ok 0.

Definition random_event : M string :=
  roll ← randint 1 100;
  if roll <? 30 then mret "Walker attack"
  else if roll <? 45 then mret "Illness outbreak"
  else if roll <? 60 then mret "Internal conflict"
  else if roll <? 75 then mret "Successful scavenging"
  else mret "Quiet day".

(** The five event names. *)
Definition event_names : list string :=
  ["Walker attack"; "Illness outbreak"; "Internal conflict";
   "Successful scavenging"; "Quiet day"].

(** ** The simulation script *)

(** The local variables of the day loop. *)
Record Locals : Type := mkLocals {
  food : num;
  medicine : Z;
  morale : num;
  log : list string
}.

(** The f-string ["Day {d+1}: {event}"]. *)
Definition log_line (d : nat) (event : string) : string :=
  "Day " +:+ str_of_nat (d + 1) +:+ ": " +:+ event.

(** One iteration of [for d in range(days)], for the base selected by
    [choice]. *)
Definition day (choice : string) (d : nat) (l : Locals) : M Locals :=
  event ← random_event;
  base ← read_base choice;
  eaten ← lift (daily_food_consumption (Base.population base));
  food1 ← lift (sub (food l) eaten);
  roster ← gets survivors;
  delta ← lift (morale_change base roster);
  morale1 ← lift (add (morale l) (Int delta));
  l1 ← (if String.eqb event "Walker attack" then
          hit ← randint 0 2;
          _ ← write_defense choice (Base.defense base - hit);
          morale2 ← lift (sub morale1 (Int 1));
          mret (mkLocals food1 (medicine l) morale2 (log l))
        else if String.eqb event "Illness outbreak" then
          used ← randint 2 6;
          morale2 ← lift (sub morale1 (Int 2));
          mret (mkLocals food1 (medicine l - used) morale2 (log l))
        else if String.eqb event "Successful scavenging" then
          found ← randint 10 25;
          food2 ← lift (add food1 (Int found));
          morale2 ← lift (add morale1 (Int 2));
          mret (mkLocals food2 (medicine l) morale2 (log l))
        else
          mret (mkLocals food1 (medicine l) morale1 (log l)));
  mret (mkLocals (food l1) (medicine l1) (morale l1)
          (log l1 ++ [log_line d event])).

(** [for d in range(start, start + days)]. *)
Fixpoint day_loop (choice : string) (start days : nat) (l : Locals)
    : M Locals :=
  match days with
  | O => mret l
  | S days' => l' ← day choice start l; day_loop choice (S start) days' l'
  end.

(** The state seeding before the loop. *)
Definition seed (choice : string) : M Locals :=
  base ← read_base choice;
  roster ← gets survivors;
  morale0 ← lift (average_morale roster);
  mret (mkLocals (Int (Base.food base)) (Base.medicine base) morale0 []).

(** The three branches of the final verdict: [st.error] ("Colony collapse
    imminent"), [st.success] ("Colony stable and thriving") and
    [st.warning] ("Colony surviving but fragile"). *)
Inductive Verdict : Type :=
| Collapse
| Thriving
| Fragile.

(** [food <= 0 or morale < 3 or base.defense < 3] *)
Definition collapse_condition (food morale : num) (defense : Z) : bool :=
  le food (Int 0) || lt morale (Int 3) || (defense <? 3).

(** [morale > 7 and food > 30] *)
Definition thriving_condition (food morale : num) : bool :=
  gt morale (Int 7) && gt food (Int 30).

Definition verdict (food morale : num) (defense : Z) : Verdict :=
  if collapse_condition food morale defense then Collapse
  else if thriving_condition food morale then Thriving
  else Fragile.

(** What the results section shows. *)
Record Results : Type := mkResults {
  final_food : num;
  final_medicine : num;
  avg_morale : num;
  event_log : list string;
  outcome : Verdict
}.

Definition results (choice : string) (l : Locals) : M Results :=
  base ← read_base choice;
  mret (mkResults (max (food l) (Int 0))
                  (max (Int (medicine l)) (Int 0))
                  (round (morale l) 2)
                  (log l)
                  (verdict (food l) (morale l) (Base.defense base))).

Definition simulation (choice : string) (days : nat) : M Results :=
  l0 ← seed choice;
  l ← day_loop choice 0 days l0;
  results choice l.

(** The world at process start, given a random generator. *)
Definition initial_world (g : Rng.t) : World := mkWorld BASES SURVIVORS g.

(** ** Forgetting the medicine

    Two states hold the same data apart from medicine when they are equal
    once every medicine value (the field of each base, the local) is reset
    to 0. *)

Definition forget_base (b : Base.t) : Base.t :=
  Base.mk (Base.name b) (Base.defense b) (Base.food b) 0 (Base.population b).

Definition forget_world (w : World) : World :=
  mkWorld (forget_base <$> bases w) (survivors w) (rng w).

Definition forget_locals (l : Locals) : Locals :=
  mkLocals (food l) 0 (morale l) (log l).

(** ** Sample inputs

    Generators replaying fixed draws.  A raw draw [r] gives the roll
    [1 + r mod 100] in [random_event]. *)

(** Five quiet days (every roll is 100). *)
Definition quiet_draws : Rng.t := Rng.of_list [99; 99; 99; 99; 99].

(** Day 1: roll 1 (Walker attack) with 2 defense lost; day 2: roll 31
    (Illness outbreak) with 6 medicine used; day 3: roll 66 (Successful
    scavenging) with 25 food found. *)
Definition eventful_draws : Rng.t := Rng.of_list [0; 2; 30; 4; 65; 15].

(** The locals and the world of Prison before its first day. *)
Definition prison_start : Locals :=
  mkLocals (Int 70) 50 (Float (ratio 42 5)) [].

Definition eventful_world : World := initial_world eventful_draws.

(** The eventful world with Prison's medicine lowered from 50 to 5. *)
Definition scarce_world : World :=
  mkWorld (<["Prison" := Base.mk "Prison" 9 70 5 30]> BASES) SURVIVORS
          eventful_draws.

(** ** The metrics in exact arithmetic

    The specification states the derived metrics as formulas over the
    reals.  On int attributes each value is a multiple of 1/10 or 1/2, so
    rounding to two decimals leaves it unchanged; the expected result is
    the float nearest to the exact value, given here as a fraction. *)

Definition exact_combat_power (s : Survivor.t) : Z * Z :=
  (5 * Survivor.strength s + 3 * Survivor.stamina s + 2 * Survivor.morale s,
   10).

Definition exact_efficiency (s : Survivor.t) : Z * Z :=
  (Survivor.intelligence s + Survivor.stamina s, 2).

Definition exact_safety_score (b : Base.t) : Z * Z :=
  (Base.defense b + Base.population b, 2).

Definition exact_risk (t : Transport.t) : Z * Z :=
  (6 * Transport.noise t + 4 * (10 - Transport.speed t), 10).

(** Python's [==] on two floats. *)
Definition float_eq (x y : spec_float) : bool :=
  match SFcompare x y with
  | Some Eq => true
  | _ => false
  end.

(** The metric returned a float equal to the float nearest to the exact
    fraction. *)
Definition agrees (r : res num) (exact : Z * Z) : bool :=
  match r with
  | Ok (Float x) => float_eq x (ratio (fst exact) (snd exact))
  | _ => false
  end.

(** The integers [lo, lo + 1, ..., lo + len - 1]. *)
Definition Zrange (lo : Z) (len : nat) : list Z :=
  map (fun i => lo + Z.of_nat i) (seq 0 len).

Definition survivor_of (strength intelligence stamina morale : Z)
    : Survivor.t :=
  Survivor.init "" strength intelligence stamina morale "".

(** The checks of the four metrics at given attribute values. *)
Definition combat_power_ok (strength stamina morale : Z) : bool :=
  agrees (Survivor.combat_power (survivor_of strength 0 stamina morale))
         (exact_combat_power (survivor_of strength 0 stamina morale)).

Definition efficiency_ok (intelligence stamina : Z) : bool :=
  agrees (Survivor.efficiency (survivor_of 0 intelligence stamina 0))
         (exact_efficiency (survivor_of 0 intelligence stamina 0)).

Definition safety_score_ok (defense population : Z) : bool :=
  agrees (Base.safety_score (Base.mk "" defense 0 0 population))
         (exact_safety_score (Base.mk "" defense 0 0 population)).

Definition risk_ok (noise speed : Z) : bool :=
  agrees (Transport.risk (Transport.mk "" noise 0 speed))
         (exact_risk (Transport.mk "" noise 0 speed)).

(** A check holds on all pairs, resp. triples, of a list. *)
Definition all2 (P : Z -> Z -> bool) (r : list Z) : bool :=
  forallb (fun a => forallb (fun b => P a b) r) r.

Definition all3 (P : Z -> Z -> Z -> bool) (r : list Z) : bool :=
  forallb (fun a => forallb (fun b => forallb (fun c => P a b c) r) r) r.

(** ** Integer-valued food

    The checks behind the exactness of the food arithmetic of the three
    predefined bases: on integers of the range a run of 30 days can reach,
    subtracting a daily consumption (24, 36 or 40) and adding a scavenging
    find (10 to 25) are exact in binary64. *)

(** Structural equality of two floats. *)
Definition same_float (x y : spec_float) : bool :=
  match x, y with
  | S754_zero a, S754_zero b => Bool.eqb a b
  | S754_infinity a, S754_infinity b => Bool.eqb a b
  | S754_finite a m e, S754_finite b n f =>
      Bool.eqb a b && Pos.eqb m n && Z.eqb e f
  | _, _ => false
  end.

Definition food_range : list Z := Zrange (-1300) 1500.

Definition converts_ok (z : Z) : bool :=
  match float_of_int z with
  | Ok x => same_float x (nearest_int z)
  | Raise _ => false
  end.

Definition consumption_ok (z : Z) : bool :=
  forallb (fun c => same_float (fsub (nearest_int z) (nearest_int c))
                               (nearest_int (z - c)))
          [24; 36; 40].

Definition find_ok (z f : Z) : bool :=
  same_float (fadd (nearest_int z) (nearest_int f)) (nearest_int (z + f)).

Definition above_30_ok (z : Z) : bool :=
  Bool.eqb (gt (Float (nearest_int z)) (Int 30)) (30 <? z).

(** The invariant of the loop after [k] days from a base with food [F0],
    defense [D0], population [P0] and integer daily consumption [c]: the
    local food is an integer [z] (as an int before the first day, as a
    float after), at most [F0 + (25 - c) k]; defense has lost at most 2 per
    day; and every two points of defense lost were paid with a day that
    found no food. *)
Definition food_invariant (choice : string) (F0 D0 P0 c : Z) (k : nat)
    (l : Locals) (w : World) : Prop :=
  exists (z : Z) (b : Base.t),
    (food l = Int z \/ food l = Float (nearest_int z)) /\
    bases w !! choice = Some b /\
    Base.population b = P0 /\
    F0 - c * Z.of_nat k <= z <= F0 + Z.of_nat k /\
    D0 - 2 * Z.of_nat k <= Base.defense b /\
    2 * z + 25 * (D0 - Base.defense b)
    <= 2 * F0 + 2 * (25 - c) * Z.of_nat k.

(** ** The metrics on all attribute values

    The attributes are ints in the data of the program, but the methods
    accept any number.  These are the same expressions as functions of
    the attribute values they read, ints or floats. *)

Definition combat_power_at (strength stamina morale : num) : res num :=
  a ← mul strength (Float lit_0_5);
  b ← mul stamina (Float lit_0_3);
  ab ← add a b;
  c ← mul morale (Float lit_0_2);
  abc ← add ab c;
  Ok (round abc 2).

Definition efficiency_at (intelligence stamina : num) : res num :=
  s ← add intelligence stamina;
  q ← truediv s (Int 2);
  Ok (round q 2).

Definition safety_score_at (defense population : num) : res num :=
  s ← add defense population;
  q ← truediv s (Int 2);
  Ok (round q 2).

Definition risk_at (noise speed : num) : res num :=
  a ← mul noise (Float lit_0_6);
  d ← sub (Int 10) speed;
  b ← mul d (Float lit_0_4);
  ab ← add a b;
  Ok (round ab 2).

(** ** The average morale and the consumption in exact terms *)

(** [sum(s.morale for s in roster)] *)
Definition morale_sum (roster : list Survivor.t) : Z :=
  fold_left Z.add (map Survivor.morale roster) 0.

(** [q] is within half a unit in the last place of [total / count], in
    exact arithmetic: |q * count - total| * 2^53 <= |total|. *)
Definition is_average (q : spec_float) (total count : Z) : bool :=
  match q with
  | S754_zero _ => total =? 0
  | S754_finite s m e =>
      if 0 <=? e then
        Z.abs (signed s m * 2 ^ e * count - total) * 2 ^ 53 <=? Z.abs total
      else
        Z.abs (signed s m * count - total * 2 ^ (- e)) * 2 ^ 53
        <=? Z.abs total * 2 ^ (- e)
  | _ => false
  end.

(** The check of the average of [count] morale values that sum to
    [total]: the quotient is the exact one rounded, and it is above 8
    exactly when the exact one is. *)
Definition average_ok (count total : Z) : bool :=
  match int_truediv total count with
  | Ok q => is_average q total count &&
            Bool.eqb (gt (Float q) (Int 8)) (8 * count <? total)
  | Raise _ => false
  end.

(** The check that a population of [5 k] eats exactly [4 k]. *)
Definition eaten_ok (k : Z) : bool :=
  match daily_food_consumption (5 * k) with
  | Ok (Float y) => same_float y (nearest_int (4 * k))
  | _ => false
  end.

(** ** Rounding to two decimals, as the specification words it *)

(** [k / 100] is the multiple of 1/100 nearest to [m * 2^e], the even [k]
    when two are equally near. *)
Definition nearest_hundredth (m : positive) (e k : Z) : Prop :=
  if 0 <=? e then k = 100 * Zpos m * 2 ^ e
  else 2 * Z.abs (100 * Zpos m - k * 2 ^ (- e)) <= 2 ^ (- e) /\
       (2 * Z.abs (100 * Zpos m - k * 2 ^ (- e)) = 2 ^ (- e) ->
        Z.even k = true).

(** ** The metrics on halves *)

(** The attribute value [h / 2]: an int when [h] is even, else a float. *)
Definition half (h : Z) : num :=
  if Z.even h then Int (h / 2) else Float (ratio h 2).

Definition combat_power_half_ok (strength stamina morale : Z) : bool :=
  agrees (combat_power_at (half strength) (half stamina) (half morale))
         (5 * strength + 3 * stamina + 2 * morale, 20).

Definition efficiency_half_ok (intelligence stamina : Z) : bool :=
  agrees (efficiency_at (half intelligence) (half stamina))
         (intelligence + stamina, 4).

Definition safety_score_half_ok (defense population : Z) : bool :=
  agrees (safety_score_at (half defense) (half population))
         (defense + population, 4).

Definition risk_half_ok (noise speed : Z) : bool :=
  agrees (risk_at (half noise) (half speed))
         (6 * noise + 4 * (20 - speed), 20).

(** * Further definitions: the rest of the script *)

(** The world of the program with an empty survivor list. *)
Definition deserted_world : World := mkWorld BASES [] eventful_draws.

(** The test [food <= 0] on an integer-valued float. *)
Definition at_most_0_ok (z : Z) : bool :=
  Bool.eqb (le (Float (nearest_int z)) (Int 0)) (z <=? 0).

(** A generator under which every day is a Successful scavenging (roll 66)
    that finds 25 food. *)
Definition lucky_draws : Rng.t :=
  Rng.mk (fun i => if Nat.even i then 65 else 15) 0.

(** ** The metrics as weighted means *)

(** [lo <= r <= hi] for a metric that returned [r]. *)
Definition within (r : res num) (lo hi : Z) : bool :=
  match r with
  | Ok v => le (Int lo) v && le v (Int hi)
  | Raise _ => false
  end.

Definition combat_power_within (strength stamina morale : Z) : bool :=
  within (Survivor.combat_power (survivor_of strength 0 stamina morale))
         (Z.min strength (Z.min stamina morale))
         (Z.max strength (Z.max stamina morale)).

Definition efficiency_within (intelligence stamina : Z) : bool :=
  within (Survivor.efficiency (survivor_of 0 intelligence stamina 0))
         (Z.min intelligence stamina) (Z.max intelligence stamina).

Definition safety_score_within (defense population : Z) : bool :=
  within (Base.safety_score (Base.mk "" defense 0 0 population))
         (Z.min defense population) (Z.max defense population).

Definition risk_within (noise speed : Z) : bool :=
  within (Transport.risk (Transport.mk "" noise 0 speed))
         (Z.min noise (10 - speed)) (Z.max noise (10 - speed)).

(** [r1 < r2] for two metric results. *)
Definition below (r1 r2 : res num) : bool :=
  match r1, r2 with
  | Ok v1, Ok v2 => lt v1 v2
  | _, _ => false
  end.

(** One more point of noise raises the risk, one more of speed lowers
    it. *)
Definition risk_steps (noise speed : Z) : bool :=
  below (Transport.risk (Transport.mk "" noise 0 speed))
        (Transport.risk (Transport.mk "" (noise + 1) 0 speed)) &&
  below (Transport.risk (Transport.mk "" noise 0 (speed + 1)))
        (Transport.risk (Transport.mk "" noise 0 speed)).

(** ** The roster cards *)

(** A roster card: the survivor and the combat power shown with it. *)
Definition Card : Type := Survivor.t * num.

(** [for i, s in enumerate(roster): with cols[i % 3]: st.markdown(card)],
    from index [i] on.  A column is the list of the cards written into it;
    [i % 3] is below the number of columns, so the index is in range. *)
Fixpoint roster_cards (i : nat) (roster : list Survivor.t)
    (cols : list (list Card)) : res (list (list Card)) :=
  match roster with
  | [] => Ok cols
  | s :: rest =>
      power ← Survivor.combat_power s;
      roster_cards (S i) rest
        (alter (fun col : list Card => (col ++ [(s, power)])%list)
           (i mod 3)%nat cols)
  end.

(** [st.columns(3)]: three empty columns. *)
Definition columns3 : list (list Card) := [[]; []; []].

(** The locals of Hilltop before its first day. *)
Definition hilltop_start : Locals :=
  mkLocals (Int 90) 40 (Float (ratio 42 5)) [].

(** * Properties *)

(** ** Reasoning about the monads *)

Lemma res_bind_Ok {A B : Type} (f : A -> res B) (r : res A) (b : B) :
  r ≫= f = Ok b <-> exists a, r = Ok a /\ f a = Ok b.
Proof.
  destruct r as [a|e]; cbn; split.
  - intros H. exists a. auto.
  - intros (a' & [= <-] & H). exact H.
  - discriminate.
  - intros (a' & H & _). discriminate.
Qed.

Lemma bind_Ok {A B : Type} (f : A -> M B) (m : M A) (w : World)
    (r : B * World) :
  (m ≫= f) w = Ok r <-> exists a w1, m w = Ok (a, w1) /\ f a w1 = Ok r.
Proof.
  unfold mbind, M_bind. destruct (m w) as [[a w1]|e]; split.
  - intros H. exists a, w1. auto.
  - intros (a' & w1' & [= <- <-] & H). exact H.
  - discriminate.
  - intros (a' & w1' & H & _). discriminate.
Qed.

Lemma bind_step {A B : Type} (f : A -> M B) (m : M A) (w w1 : World) (a : A) :
  m w = Ok (a, w1) -> (m ≫= f) w = f a w1.
Proof. intros H. unfold mbind, M_bind. rewrite H. reflexivity. Qed.

Lemma lift_Ok {A : Type} (r : res A) (w : World) (a : A) (w1 : World) :
  lift r w = Ok (a, w1) <-> r = Ok a /\ w1 = w.
Proof.
  unfold lift. destruct r as [a'|e]; split.
  - intros [= <- <-]. auto.
  - intros [[= <-] ->]. reflexivity.
  - discriminate.
  - intros [H _]. discriminate.
Qed.

Lemma lift_step {A : Type} (r : res A) (w : World) (a : A) :
  r = Ok a -> lift r w = Ok (a, w).
Proof. intros ->. reflexivity. Qed.

Lemma mret_Ok {A : Type} (a b : A) (w w1 : World) :
  (mret a : M A) w = Ok (b, w1) <-> b = a /\ w1 = w.
Proof.
  unfold mret, M_ret. split.
  - intros [= <- <-]. auto.
  - intros [-> ->]. reflexivity.
Qed.

(** Peel the binds of a successful monadic run in hypothesis [H]. *)
Ltac run_inv H :=
  repeat match type of H with
  | (_ ≫= _) _ = Ok _ =>
      let a := fresh "a" in let w := fresh "w" in
      let E := fresh "E" in
      apply bind_Ok in H; destruct H as (a & w & E & H)
  end.

(** ** The random source *)

Lemma randint_Ok (a b : Z) (w : World) (r : Z) (w1 : World) :
  a <= b ->
  randint a b w = Ok (r, w1) ->
  a <= r <= b /\ w1 = advance w.
Proof.
  intros Hab. unfold randint.
  destruct (Z.ltb_spec b a) as [?|_]; [lia|].
  cbn. intros [= <- <-]. split; [|reflexivity].
  pose proof (Z.mod_pos_bound (Rng.tape (rng w) (Rng.pos (rng w))) (b - a + 1)).
  lia.
Qed.

Lemma randint_total (a b : Z) (w : World) :
  a <= b -> exists r, randint a b w = Ok (r, advance w) /\ a <= r <= b.
Proof.
  intros Hab. destruct (randint a b w) as [[r w1]|e] eqn:E.
  - destruct (randint_Ok a b w r w1 Hab E) as [Hr ->]. eauto.
  - unfold randint in E. destruct (Z.ltb_spec b a); [lia|]. discriminate.
Qed.

(** Every value of the range is the outcome of [randint] for some
    generator. *)
Lemma randint_onto (a b r : Z) (bs : gmap string Base.t)
    (ss : list Survivor.t) :
  a <= r <= b ->
  exists g, randint a b (mkWorld bs ss g)
            = Ok (r, advance (mkWorld bs ss g)).
Proof.
  intros Hr. exists (Rng.of_list [r - a]).
  unfold randint. destruct (Z.ltb_spec b a); [lia|]. cbn.
  rewrite Z.mod_small by lia. do 2 f_equal. lia.
Qed.

(** ** The event table *)

(** C2. Whenever the draw of [random_event] is [roll], [roll] lies in
    [[1,100]] and the call returns one event name, which is "Walker attack"
    exactly for rolls 1-29, "Illness outbreak" exactly for 30-44, "Internal
    conflict" exactly for 45-59, "Successful scavenging" exactly for 60-74
    and "Quiet day" exactly for 75-100; the buckets cover [[1,100]] and do
    not overlap. *)
Theorem random_event_table (w w1 : World) (roll : Z) :
  randint 1 100 w = Ok (roll, w1) ->
  1 <= roll <= 100 /\
  exists event,
    random_event w = Ok (event, w1) /\
    (event = "Walker attack" <-> 1 <= roll <= 29) /\
    (event = "Illness outbreak" <-> 30 <= roll <= 44) /\
    (event = "Internal conflict" <-> 45 <= roll <= 59) /\
    (event = "Successful scavenging" <-> 60 <= roll <= 74) /\
    (event = "Quiet day" <-> 75 <= roll <= 100).
Proof.
  intros E.
  destruct (randint_Ok 1 100 w roll w1 ltac:(lia) E) as [Hr _].
  split; [exact Hr|].
  unfold random_event. rewrite (bind_step _ _ _ _ _ E).
  destruct (Z.ltb_spec roll 30);
    [|destruct (Z.ltb_spec roll 45);
      [|destruct (Z.ltb_spec roll 60);
        [|destruct (Z.ltb_spec roll 75)]]];
    eexists; (split; [reflexivity|]);
    repeat split; intros; try lia; try discriminate.
Qed.

Lemma random_event_table_witness :
  1 <= 30 <= 100 /\
  exists event,
    random_event (initial_world (Rng.of_list [29]))
      = Ok (event, advance (initial_world (Rng.of_list [29]))) /\
    (event = "Walker attack" <-> 1 <= 30 <= 29) /\
    (event = "Illness outbreak" <-> 30 <= 30 <= 44) /\
    (event = "Internal conflict" <-> 45 <= 30 <= 59) /\
    (event = "Successful scavenging" <-> 60 <= 30 <= 74) /\
    (event = "Quiet day" <-> 75 <= 30 <= 100).
Proof.
  apply (random_event_table (initial_world (Rng.of_list [29]))).
  reflexivity.
Defined.

(** ** Comparisons with int literals *)

Lemma float_cmp_int_mono (x : spec_float) (a b : Z) (c : comparison) :
  a <= b ->
  float_cmp_int x a = Some c -> c <> Gt ->
  float_cmp_int x b <> Some Gt.
Proof.
  intros Hab. destruct x as [s|s| |s m e]; unfold float_cmp_int.
  - intros [= <-] Hc [= Hb].
    apply (proj1 (Z.compare_le_iff 0 a)) in Hc.
    apply (proj1 (Z.compare_gt_iff 0 b)) in Hb. lia.
  - destruct s; intros [= <-] Hc; congruence.
  - discriminate.
  - destruct (Z.leb_spec 0 e) as [He|He].
    + intros [= <-] Hc [= Hb].
      apply (proj1 (Z.compare_le_iff _ a)) in Hc.
      apply (proj1 (Z.compare_gt_iff _ b)) in Hb. lia.
    + assert (Hp : 0 < 2 ^ (- e)) by (apply Z.pow_pos_nonneg; lia).
      intros [= <-] Hc [= Hb].
      apply (proj1 (Z.compare_le_iff _ _)) in Hc.
      apply (proj1 (Z.compare_gt_iff _ _)) in Hb. nia.
Qed.

(** A number at most [a] is not greater than any [b >= a]. *)
Lemma le_not_gt (x : num) (a b : Z) :
  a <= b -> le x (Int a) = true -> gt x (Int b) = false.
Proof.
  intros Hab. unfold le, gt. destruct x as [n|x]; cbn.
  - destruct (Z.compare_spec n a), (Z.compare_spec n b);
      try reflexivity; try discriminate; lia.
  - destruct (float_cmp_int x a) as [c|] eqn:Ea; [|discriminate].
    intros Hc.
    pose proof (float_cmp_int_mono x a b c Hab Ea) as Hb.
    destruct (float_cmp_int x b) as [[]|]; try reflexivity.
    exfalso. apply Hb; [|reflexivity]. destruct c; congruence.
Qed.

Lemma lt_le (x y : num) : lt x y = true -> le x y = true.
Proof. unfold lt, le. destruct (cmp x y) as [[]|]; congruence. Qed.

Lemma lt_not_gt (x : num) (a b : Z) :
  a <= b -> lt x (Int a) = true -> gt x (Int b) = false.
Proof. intros Hab H. apply (le_not_gt x a b Hab), lt_le, H. Qed.

(** [0 > x] is [x < 0]. *)
Lemma gt_int_lt (x : num) (n : Z) : gt (Int n) x = lt x (Int n).
Proof.
  unfold gt, lt. destruct x as [m|x]; cbn.
  - rewrite (Z.compare_antisym m n). destruct (m ?= n); reflexivity.
  - destruct (float_cmp_int x n) as [[]|]; reflexivity.
Qed.

(** On two ints [max] is the integer maximum. *)
Lemma max_int (a b : Z) : max (Int a) (Int b) = Int (Z.max a b).
Proof.
  unfold max, gt, cmp. rewrite (Z.compare_antisym a b).
  unfold Z.max. destruct (a ?= b); reflexivity.
Qed.

(** ** The verdict *)

Lemma collapse_condition_true (f m : num) (d : Z) :
  collapse_condition f m d = true <->
  le f (Int 0) = true \/ lt m (Int 3) = true \/ d < 3.
Proof.
  unfold collapse_condition.
  rewrite !orb_true_iff, Z.ltb_lt. tauto.
Qed.

Lemma thriving_condition_true (f m : num) :
  thriving_condition f m = true <->
  gt m (Int 7) = true /\ gt f (Int 30) = true.
Proof. unfold thriving_condition. apply andb_true_iff. Qed.

Lemma verdict_Collapse (f m : num) (d : Z) :
  verdict f m d = Collapse <->
  le f (Int 0) = true \/ lt m (Int 3) = true \/ d < 3.
Proof.
  rewrite <- collapse_condition_true. unfold verdict.
  destruct (collapse_condition f m d), (thriving_condition f m);
    split; congruence.
Qed.

Lemma verdict_Thriving (f m : num) (d : Z) :
  verdict f m d = Thriving <->
  ~ (le f (Int 0) = true \/ lt m (Int 3) = true \/ d < 3) /\
  gt m (Int 7) = true /\ gt f (Int 30) = true.
Proof.
  rewrite <- collapse_condition_true, <- thriving_condition_true.
  unfold verdict.
  destruct (collapse_condition f m d), (thriving_condition f m);
    split; try congruence; try (intros [? ?]; congruence);
    intros _; split; congruence.
Qed.

Lemma verdict_Fragile (f m : num) (d : Z) :
  verdict f m d = Fragile <->
  ~ (le f (Int 0) = true \/ lt m (Int 3) = true \/ d < 3) /\
  ~ (gt m (Int 7) = true /\ gt f (Int 30) = true).
Proof.
  rewrite <- collapse_condition_true, <- thriving_condition_true.
  unfold verdict.
  destruct (collapse_condition f m d), (thriving_condition f m);
    split; try congruence; try (intros [? ?]; congruence);
    intros _; split; congruence.
Qed.

Lemma read_base_Ok (key : string) (w w1 : World) (b : Base.t) :
  read_base key w = Ok (b, w1) <-> bases w !! key = Some b /\ w1 = w.
Proof.
  unfold read_base. destruct (bases w !! key) as [b'|]; split.
  - intros [= <- <-]. auto.
  - intros [[= <-] ->]. reflexivity.
  - discriminate.
  - intros [H _]. discriminate.
Qed.

(** C1. When the script completes, its verdict is the three-way
    classification of the loop's final local food and morale and of the
    defense field of the selected base as the loop left it: Collapse when
    food <= 0 or morale < 3 or defense < 3, else Thriving when morale > 7
    and food > 30, else Fragile.  The verdict reads the unclamped food;
    the displayed food and medicine are [max(., 0)] of the final values, so
    a negative value is shown as 0. *)
Theorem verdict_after_loop (choice : string) (days : nat) (w w' : World)
    (r : Results) :
  simulation choice days w = Ok (r, w') ->
  exists (l0 l : Locals) (w0 : World) (base : Base.t),
    seed choice w = Ok (l0, w0) /\
    day_loop choice 0 days l0 w0 = Ok (l, w') /\
    bases w' !! choice = Some base /\
    outcome r = verdict (food l) (morale l) (Base.defense base) /\
    (outcome r = Collapse <->
       le (food l) (Int 0) = true \/ lt (morale l) (Int 3) = true \/
       Base.defense base < 3) /\
    (outcome r = Thriving <->
       ~ (le (food l) (Int 0) = true \/ lt (morale l) (Int 3) = true \/
          Base.defense base < 3) /\
       gt (morale l) (Int 7) = true /\ gt (food l) (Int 30) = true) /\
    (outcome r = Fragile <->
       ~ (le (food l) (Int 0) = true \/ lt (morale l) (Int 3) = true \/
          Base.defense base < 3) /\
       ~ (gt (morale l) (Int 7) = true /\ gt (food l) (Int 30) = true)) /\
    final_food r = max (food l) (Int 0) /\
    final_medicine r = max (Int (medicine l)) (Int 0) /\
    (lt (food l) (Int 0) = true ->
       final_food r = Int 0 /\ outcome r = Collapse) /\
    (lt (food l) (Int 0) = false -> final_food r = food l) /\
    (medicine l < 0 -> final_medicine r = Int 0) /\
    (0 <= medicine l -> final_medicine r = Int (medicine l)).
Proof.
  intros H. unfold simulation in H. run_inv H.
  unfold results in H. run_inv H.
  apply read_base_Ok in E1 as [Hb ->]. apply mret_Ok in H as [-> ->].
  exists a, a0, w0, a1. cbn.
  split; [exact E|]. split; [exact E0|]. split; [exact Hb|].
  split; [reflexivity|].
  split; [apply verdict_Collapse|].
  split; [apply verdict_Thriving|].
  split; [apply verdict_Fragile|].
  split; [reflexivity|]. split; [reflexivity|].
  split; [|split; [|split]]; [unfold max; rewrite gt_int_lt ..| |].
  - intros Hlt. rewrite Hlt. split; [reflexivity|].
    apply verdict_Collapse. left. apply lt_le, Hlt.
  - intros ->. reflexivity.
  - intros Hm. rewrite max_int. f_equal. lia.
  - intros Hm. rewrite max_int. f_equal. lia.
Qed.

Lemma verdict_after_loop_witness :
  exists (r : Results) (w' : World),
    simulation "Prison" 5 (initial_world quiet_draws) = Ok (r, w') /\
    exists (l0 l : Locals) (w0 : World) (base : Base.t),
      seed "Prison" (initial_world quiet_draws) = Ok (l0, w0) /\
      day_loop "Prison" 0 5 l0 w0 = Ok (l, w') /\
      bases w' !! "Prison" = Some base /\
      outcome r = verdict (food l) (morale l) (Base.defense base) /\
      (outcome r = Collapse <->
         le (food l) (Int 0) = true \/ lt (morale l) (Int 3) = true \/
         Base.defense base < 3) /\
      (outcome r = Thriving <->
         ~ (le (food l) (Int 0) = true \/ lt (morale l) (Int 3) = true \/
            Base.defense base < 3) /\
         gt (morale l) (Int 7) = true /\ gt (food l) (Int 30) = true) /\
      (outcome r = Fragile <->
         ~ (le (food l) (Int 0) = true \/ lt (morale l) (Int 3) = true \/
            Base.defense base < 3) /\
         ~ (gt (morale l) (Int 7) = true /\ gt (food l) (Int 30) = true)) /\
      final_food r = max (food l) (Int 0) /\
      final_medicine r = max (Int (medicine l)) (Int 0) /\
      (lt (food l) (Int 0) = true ->
         final_food r = Int 0 /\ outcome r = Collapse) /\
      (lt (food l) (Int 0) = false -> final_food r = food l) /\
      (medicine l < 0 -> final_medicine r = Int 0) /\
      (0 <= medicine l -> final_medicine r = Int (medicine l)).
Proof.
  destruct (simulation "Prison" 5 (initial_world quiet_draws))
    as [[r w']|e] eqn:E.
  - exists r, w'. split; [reflexivity|].
    exact (verdict_after_loop "Prison" 5 _ w' r E).
  - vm_compute in E. discriminate.
Defined.

(** The end-to-end scenario of the specification: Prison, five quiet days.
    Food ends at 70 - 5 * 24 = -50, is shown as 0, and the verdict is
    Collapse. *)
Example quiet_week_collapses :
  exists (r : Results) (w' : World),
    simulation "Prison" 5 (initial_world quiet_draws) = Ok (r, w') /\
    final_food r = Int 0 /\ outcome r = Collapse /\
    event_log r = ["Day 1: Quiet day"; "Day 2: Quiet day"; "Day 3: Quiet day";
                   "Day 4: Quiet day"; "Day 5: Quiet day"].
Proof.
  destruct (simulation "Prison" 5 (initial_world quiet_draws))
    as [[r w']|e] eqn:E; vm_compute in E; [|discriminate].
  injection E as <- <-. eexists _, _.
  split; [reflexivity|]. repeat split.
Qed.

(** ** Small ints always convert to float *)

Lemma Zrange_forallb (P : Z -> bool) (lo : Z) (len : nat) :
  forallb P (Zrange lo len) = true ->
  forall z, lo <= z < lo + Z.of_nat len -> P z = true.
Proof.
  intros H z Hz. rewrite forallb_forall in H. apply H.
  unfold Zrange. apply in_map_iff. exists (Z.to_nat (z - lo)).
  split; [lia|]. apply in_seq. lia.
Qed.

Lemma float_of_int_small (n : Z) :
  -32 <= n <= 32 -> exists x, float_of_int n = Ok x.
Proof.
  intros Hn.
  pose proof (Zrange_forallb
    (fun n => match float_of_int n with Ok _ => true | Raise _ => false end)
    (-32) 65 ltac:(vm_compute; reflexivity) n ltac:(lia)) as H.
  cbv beta in H. destruct (float_of_int n) as [x|e]; [eauto|discriminate].
Qed.

Lemma add_small_total (a : num) (n : Z) :
  -32 <= n <= 32 -> exists b, add a (Int n) = Ok b.
Proof.
  intros Hn. destruct a as [m|x]; cbn; [eauto|].
  destruct (float_of_int_small n Hn) as [y ->]. cbn. eauto.
Qed.

Lemma sub_small_total (a : num) (n : Z) :
  -32 <= n <= 32 -> exists b, sub a (Int n) = Ok b.
Proof.
  intros Hn. destruct a as [m|x]; cbn; [eauto|].
  destruct (float_of_int_small n Hn) as [y ->]. cbn. eauto.
Qed.

(** Arithmetic with a float operand yields a float. *)
Lemma sub_float_r (a : num) (y : spec_float) (b : num) :
  sub a (Float y) = Ok b -> exists z, b = Float z.
Proof.
  destruct a as [m|x]; cbn.
  - destruct (float_of_int m); cbn; [|discriminate]. intros [= <-]. eauto.
  - intros [= <-]. eauto.
Qed.

Lemma daily_food_consumption_float (p : Z) (c : num) :
  daily_food_consumption p = Ok c -> exists y, c = Float y.
Proof.
  unfold daily_food_consumption. cbn.
  destruct (float_of_int p); cbn; [|discriminate]. intros [= <-]. eauto.
Qed.

(** ** The morale rule *)

Lemma morale_change_Ok (base : Base.t) (roster : list Survivor.t) (avg : num) :
  average_morale roster = Ok avg ->
  morale_change base roster
  = Ok (if Base.food base <? 20 then -2
        else if gt avg (Int 8) then 1 else 0).
Proof.
  intros E. unfold morale_change. rewrite E. cbn.
  destruct (Base.food base <? 20); [reflexivity|].
  destruct (gt avg (Int 8)); reflexivity.
Qed.

Lemma morale_change_inv (base : Base.t) (roster : list Survivor.t) (delta : Z) :
  morale_change base roster = Ok delta ->
  exists avg, average_morale roster = Ok avg /\
              (delta = -2 \/ delta = 1 \/ delta = 0).
Proof.
  unfold morale_change.
  destruct (average_morale roster) as [avg|e]; cbn; [|discriminate].
  intros H. exists avg. split; [reflexivity|].
  destruct (Base.food base <? 20); [injection H; auto|].
  destruct (gt avg (Int 8)); injection H; auto.
Qed.

(** The rule depends on the base through its food field only. *)
Lemma morale_change_food (b b' : Base.t) (roster : list Survivor.t) :
  Base.food b' = Base.food b ->
  morale_change b' roster = morale_change b roster.
Proof. intros H. unfold morale_change. rewrite H. reflexivity. Qed.

(** ** One day *)

Lemma random_event_Ok (w w1 : World) (event : string) :
  random_event w = Ok (event, w1) ->
  w1 = advance w /\ In event event_names.
Proof.
  unfold random_event. intros H. run_inv H.
  apply randint_Ok in E as [_ ->]; [|lia]. split.
  - repeat match type of H with
    | (if ?c then _ else _) _ = _ => destruct c
    end; apply mret_Ok in H as [_ ->]; reflexivity.
  - repeat match type of H with
    | (if ?c then _ else _) _ = _ => destruct c
    end; apply mret_Ok in H as [-> _]; cbn; auto 6.
Qed.

Lemma random_event_total (w : World) :
  exists event, random_event w = Ok (event, advance w).
Proof.
  destruct (randint_total 1 100 w ltac:(lia)) as (roll & E & Hr).
  unfold random_event. rewrite (bind_step _ _ _ _ _ E).
  repeat match goal with
  | |- exists _, (if ?c then _ else _) _ = _ => destruct c
  end; eexists; reflexivity.
Qed.

Lemma read_base_step (key : string) (w : World) (b : Base.t) :
  bases w !! key = Some b -> read_base key w = Ok (b, w).
Proof. intros H. apply read_base_Ok. auto. Qed.

Lemma write_defense_step (key : string) (v : Z) (w : World) (b : Base.t) :
  bases w !! key = Some b ->
  write_defense key v w = Ok (tt, with_defense key v b w).
Proof. intros H. unfold write_defense. rewrite H. reflexivity. Qed.

(** Run the next bind of the goal with the equation [H] of its first
    computation. *)
Ltac step_by H := rewrite (bind_step _ _ _ _ _ H).
Ltac step_lift H := rewrite (bind_step _ _ _ _ _ (lift_step _ _ _ H)).

(** Decide the comparisons of a known event name with the names the loop
    tests. *)
Ltac decide_event :=
  repeat match goal with
  | |- context [String.eqb ?a ?b] =>
      let v := eval vm_compute in (String.eqb a b) in
      change (String.eqb a b) with v
  end; cbv iota.

Section Day.
Variable choice : string.
Variable d : nat.
Variable l : Locals.
Variables w w1 : World.
Variable base : Base.t.
Variables eaten food1 morale1 : num.
Variable delta : Z.
Variable event : string.

Hypothesis Hevent : random_event w = Ok (event, w1).
Hypothesis Hbase : bases w !! choice = Some base.
Hypothesis Heaten : daily_food_consumption (Base.population base) = Ok eaten.
Hypothesis Hfood : sub (food l) eaten = Ok food1.
Hypothesis Hdelta : morale_change base (survivors w) = Ok delta.
Hypothesis Hmorale : add (morale l) (Int delta) = Ok morale1.

Lemma event_world : w1 = advance w.
Proof. apply (random_event_Ok _ _ _ Hevent). Qed.

(** Run the part of the day that is common to all events. *)
Ltac day_common :=
  unfold day; step_by Hevent; rewrite event_world;
  step_by (read_base_step choice (advance w) base Hbase);
  step_lift Heaten; step_lift Hfood;
  rewrite (bind_step _ (gets survivors) (advance w) (advance w)
             (survivors w) eq_refl);
  step_lift Hdelta; step_lift Hmorale.

Lemma day_walker_attack (hit : Z) (w2 : World) (morale2 : num) :
  event = "Walker attack" ->
  randint 0 2 w1 = Ok (hit, w2) ->
  sub morale1 (Int 1) = Ok morale2 ->
  day choice d l w
  = Ok (mkLocals food1 (medicine l) morale2 (log l ++ [log_line d event]),
        with_defense choice (Base.defense base - hit) base w2).
Proof.
  intros He Hhit Hm2. rewrite event_world in Hhit.
  destruct (randint_Ok 0 2 _ _ _ ltac:(lia) Hhit) as [_ ->].
  day_common. rewrite He. decide_event.
  rewrite (bind_step _ (randint 0 2 ≫= _) (advance w)
             (with_defense choice (Base.defense base - hit) base
                (advance (advance w)))
             (mkLocals food1 (medicine l) morale2 (log l))).
  - reflexivity.
  - step_by Hhit.
    step_by (write_defense_step choice (Base.defense base - hit)
               (advance (advance w)) base Hbase).
    step_lift Hm2. reflexivity.
Qed.

Lemma day_illness_outbreak (used : Z) (w2 : World) (morale2 : num) :
  event = "Illness outbreak" ->
  randint 2 6 w1 = Ok (used, w2) ->
  sub morale1 (Int 2) = Ok morale2 ->
  day choice d l w
  = Ok (mkLocals food1 (medicine l - used) morale2
          (log l ++ [log_line d event]),
        w2).
Proof.
  intros He Hused Hm2. rewrite event_world in Hused.
  day_common. rewrite He. decide_event.
  rewrite (bind_step _ (randint 2 6 ≫= _) (advance w) w2
             (mkLocals food1 (medicine l - used) morale2 (log l))).
  - reflexivity.
  - step_by Hused. step_lift Hm2. reflexivity.
Qed.

Lemma day_successful_scavenging (found : Z) (w2 : World)
    (food2 morale2 : num) :
  event = "Successful scavenging" ->
  randint 10 25 w1 = Ok (found, w2) ->
  add food1 (Int found) = Ok food2 ->
  add morale1 (Int 2) = Ok morale2 ->
  day choice d l w
  = Ok (mkLocals food2 (medicine l) morale2 (log l ++ [log_line d event]),
        w2).
Proof.
  intros He Hfound Hf2 Hm2. rewrite event_world in Hfound.
  day_common. rewrite He. decide_event.
  rewrite (bind_step _ (randint 10 25 ≫= _) (advance w) w2
             (mkLocals food2 (medicine l) morale2 (log l))).
  - reflexivity.
  - step_by Hfound. step_lift Hf2. step_lift Hm2. reflexivity.
Qed.

Lemma day_no_effect :
  event = "Internal conflict" \/ event = "Quiet day" ->
  day choice d l w
  = Ok (mkLocals food1 (medicine l) morale1 (log l ++ [log_line d event]),
        w1).
Proof.
  intros [He | He]; rewrite event_world; day_common; rewrite He;
    decide_event; reflexivity.
Qed.
End Day.

(** What a completed day did, by cases on its event. *)
Lemma day_inv (choice : string) (d : nat) (l l' : Locals) (w w' : World) :
  day choice d l w = Ok (l', w') ->
  exists (event : string) (base : Base.t) (eaten food1 morale1 : num)
         (delta : Z),
    random_event w = Ok (event, advance w) /\
    bases w !! choice = Some base /\
    daily_food_consumption (Base.population base) = Ok eaten /\
    sub (food l) eaten = Ok food1 /\
    morale_change base (survivors w) = Ok delta /\
    add (morale l) (Int delta) = Ok morale1 /\
    log l' = (log l ++ [log_line d event])%list /\
    ((event = "Walker attack" /\
      exists hit,
        randint 0 2 (advance w) = Ok (hit, advance (advance w)) /\
        0 <= hit <= 2 /\
        w' = with_defense choice (Base.defense base - hit) base
               (advance (advance w)) /\
        medicine l' = medicine l /\ food l' = food1 /\
        sub morale1 (Int 1) = Ok (morale l')) \/
     (event = "Illness outbreak" /\
      exists used,
        randint 2 6 (advance w) = Ok (used, advance (advance w)) /\
        2 <= used <= 6 /\
        w' = advance (advance w) /\
        medicine l' = medicine l - used /\ food l' = food1 /\
        sub morale1 (Int 2) = Ok (morale l')) \/
     (event = "Successful scavenging" /\
      exists found,
        randint 10 25 (advance w) = Ok (found, advance (advance w)) /\
        10 <= found <= 25 /\
        w' = advance (advance w) /\
        medicine l' = medicine l /\
        add food1 (Int found) = Ok (food l') /\
        add morale1 (Int 2) = Ok (morale l')) \/
     ((event = "Internal conflict" \/ event = "Quiet day") /\
      w' = advance w /\
      medicine l' = medicine l /\ food l' = food1 /\ morale l' = morale1)).
Proof.
  intros Hday. pose proof Hday as H. unfold day in H.
  apply bind_Ok in H as (event & w1 & Hev & H).
  destruct (random_event_Ok _ _ _ Hev) as [-> Hin].
  apply bind_Ok in H as (base & w2 & Hb & H).
  apply read_base_Ok in Hb as [Hb ->]. cbn in Hb.
  apply bind_Ok in H as (eaten & w2 & Heat & H).
  apply lift_Ok in Heat as [Heat ->].
  apply bind_Ok in H as (food1 & w2 & Hfood & H).
  apply lift_Ok in Hfood as [Hfood ->].
  apply bind_Ok in H as (roster & w2 & Hros & H).
  injection Hros as <- <-. cbn in H.
  apply bind_Ok in H as (delta & w2 & Hdelta & H).
  apply lift_Ok in Hdelta as [Hdelta ->].
  apply bind_Ok in H as (morale1 & w2 & Hm & _).
  apply lift_Ok in Hm as [Hm _].
  exists event, base, eaten, food1, morale1, delta.
  repeat (split; [assumption|]).
  destruct Hin as [He|[He|[He|[He|[He|[]]]]]]; symmetry in He.
  - destruct (randint_total 0 2 (advance w) ltac:(lia)) as (hit & Hhit & Hr).
    destruct (sub_small_total morale1 1 ltac:(lia)) as [morale2 Hm2].
    rewrite (day_walker_attack choice d l w _ base eaten food1 morale1 delta
               event Hev Hb Heat Hfood Hdelta Hm hit _ morale2 He Hhit Hm2)
      in Hday.
    injection Hday as <- <-. cbn. split; [reflexivity|].
    left. split; [exact He|]. exists hit. split; [exact Hhit|]. auto.
  - destruct (randint_total 2 6 (advance w) ltac:(lia)) as (used & Hused & Hr).
    destruct (sub_small_total morale1 2 ltac:(lia)) as [morale2 Hm2].
    rewrite (day_illness_outbreak choice d l w _ base eaten food1 morale1
               delta event Hev Hb Heat Hfood Hdelta Hm used _ morale2 He
               Hused Hm2) in Hday.
    injection Hday as <- <-. cbn. split; [reflexivity|].
    right; left. split; [exact He|]. exists used. split; [exact Hused|]. auto.
  - rewrite (day_no_effect choice d l w _ base eaten food1 morale1 delta
               event Hev Hb Heat Hfood Hdelta Hm (or_introl He)) in Hday.
    injection Hday as <- <-. cbn. split; [reflexivity|].
    do 3 right. auto.
  - destruct (randint_total 10 25 (advance w) ltac:(lia))
      as (found & Hfound & Hr).
    destruct (add_small_total food1 found ltac:(lia)) as [food2 Hf2].
    destruct (add_small_total morale1 2 ltac:(lia)) as [morale2 Hm2].
    rewrite (day_successful_scavenging choice d l w _ base eaten food1
               morale1 delta event Hev Hb Heat Hfood Hdelta Hm found _ food2
               morale2 He Hfound Hf2 Hm2) in Hday.
    injection Hday as <- <-. cbn. split; [reflexivity|].
    do 2 right; left. split; [exact He|]. exists found. split; [exact Hfound|]. auto.
  - rewrite (day_no_effect choice d l w _ base eaten food1 morale1 delta
               event Hev Hb Heat Hfood Hdelta Hm (or_intror He)) in Hday.
    injection Hday as <- <-. cbn. split; [reflexivity|].
    do 3 right. auto.
Qed.

(** A day completes whenever its base exists, the consumption and the
    morale rule evaluate and the food can be decreased. *)
Lemma day_total (choice : string) (d : nat) (l : Locals) (w : World)
    (base : Base.t) (eaten food1 : num) (delta : Z) :
  bases w !! choice = Some base ->
  daily_food_consumption (Base.population base) = Ok eaten ->
  sub (food l) eaten = Ok food1 ->
  morale_change base (survivors w) = Ok delta ->
  exists l' w', day choice d l w = Ok (l', w').
Proof.
  intros Hb Heat Hfood Hdelta.
  destruct (random_event_total w) as [event Hev].
  destruct (morale_change_inv _ _ _ Hdelta) as (avg & _ & Hd).
  destruct (add_small_total (morale l) delta ltac:(lia)) as [morale1 Hm].
  destruct (random_event_Ok _ _ _ Hev) as [_ Hin].
  destruct Hin as [He|[He|[He|[He|[He|[]]]]]]; symmetry in He.
  - destruct (randint_total 0 2 (advance w) ltac:(lia)) as (hit & Hhit & Hr).
    destruct (sub_small_total morale1 1 ltac:(lia)) as [morale2 Hm2].
    eexists _, _.
    exact (day_walker_attack choice d l w _ base eaten food1 morale1 delta
             event Hev Hb Heat Hfood Hdelta Hm hit _ morale2 He Hhit Hm2).
  - destruct (randint_total 2 6 (advance w) ltac:(lia)) as (used & Hused & Hr).
    destruct (sub_small_total morale1 2 ltac:(lia)) as [morale2 Hm2].
    eexists _, _.
    exact (day_illness_outbreak choice d l w _ base eaten food1 morale1
             delta event Hev Hb Heat Hfood Hdelta Hm used _ morale2 He
             Hused Hm2).
  - eexists _, _.
    exact (day_no_effect choice d l w _ base eaten food1 morale1 delta
             event Hev Hb Heat Hfood Hdelta Hm (or_introl He)).
  - destruct (randint_total 10 25 (advance w) ltac:(lia))
      as (found & Hfound & Hr).
    destruct (add_small_total food1 found ltac:(lia)) as [food2 Hf2].
    destruct (add_small_total morale1 2 ltac:(lia)) as [morale2 Hm2].
    eexists _, _.
    exact (day_successful_scavenging choice d l w _ base eaten food1
             morale1 delta event Hev Hb Heat Hfood Hdelta Hm found _ food2
             morale2 He Hfound Hf2 Hm2).
  - eexists _, _.
    exact (day_no_effect choice d l w _ base eaten food1 morale1 delta
             event Hev Hb Heat Hfood Hdelta Hm (or_intror He)).
Qed.

(** ** The day loop *)

Lemma bind_ext {A B : Type} (f g : A -> M B) (m : M A) (w : World) :
  (forall a w1, f a w1 = g a w1) -> (m ≫= f) w = (m ≫= g) w.
Proof.
  intros H. unfold mbind, M_bind. destruct (m w) as [[a w1]|e]; auto.
Qed.

Lemma bind_assoc {A B C : Type} (f : A -> M B) (g : B -> M C) (m : M A)
    (w : World) :
  ((m ≫= f) ≫= g) w = (m ≫= (fun a => f a ≫= g)) w.
Proof.
  unfold mbind, M_bind. destruct (m w) as [[a w1]|e]; reflexivity.
Qed.

Lemma bind_mret_r {A : Type} (m : M A) (w : World) :
  (m ≫= mret) w = m w.
Proof.
  unfold mbind, M_bind, mret, M_ret.
  destruct (m w) as [[a w1]|e]; reflexivity.
Qed.

(** The loop over [days + 1] days is the loop over [days] days followed by
    one more day. *)
Lemma day_loop_snoc (choice : string) (days start : nat) (l : Locals)
    (w : World) :
  day_loop choice start (S days) l w
  = (day_loop choice start days l ≫=
       fun l1 => day choice (start + days) l1) w.
Proof.
  revert start l w. induction days as [|days IH]; intros start l w.
  - cbn [day_loop]. rewrite bind_mret_r.
    unfold mbind at 1, M_bind at 1. cbn. rewrite Nat.add_0_r. reflexivity.
  - change (day_loop choice start (S (S days)) l w)
      with ((day choice start l ≫=
               fun l' => day_loop choice (S start) (S days) l') w).
    rewrite (bind_ext _
      (fun l' => day_loop choice (S start) days l' ≫=
                   fun l1 => day choice (S start + days) l1));
      [|intros; apply IH].
    cbn [day_loop]. rewrite bind_assoc.
    apply bind_ext. intros a w1. apply bind_ext. intros a1 w2.
    replace (start + S days)%nat with (S start + days)%nat by lia.
    reflexivity.
Qed.

(** A completed loop completed each of its prefixes. *)
Lemma day_loop_prefix (choice : string) (days start : nat) (l l' : Locals)
    (w w' : World) (k : nat) :
  day_loop choice start days l w = Ok (l', w') ->
  (k <= days)%nat ->
  exists lk wk, day_loop choice start k l w = Ok (lk, wk).
Proof.
  revert l' w'. induction days as [|days IH]; intros l' w' H Hk.
  - assert (k = 0%nat) as -> by lia. eauto.
  - destruct (Nat.eq_dec k (S days)) as [->|Hne]; [eauto|].
    rewrite day_loop_snoc in H. apply bind_Ok in H as (l1 & w1 & H & _).
    apply (IH l1 w1 H). lia.
Qed.

(** *** What the loop leaves alone *)

Lemma lookup_with_defense (key k : string) (v : Z) (b : Base.t) (w : World) :
  bases (with_defense key v b w) !! k
  = if decide (key = k) then Some (Base.set_defense v b) else bases w !! k.
Proof. unfold with_defense. cbn. apply lookup_insert. Qed.

Lemma day_frame (choice : string) (d : nat) (l l' : Locals) (w w' : World) :
  day choice d l w = Ok (l', w') ->
  survivors w' = survivors w /\
  (forall k, k <> choice -> bases w' !! k = bases w !! k) /\
  exists b b' hit,
    bases w !! choice = Some b /\ bases w' !! choice = Some b' /\
    0 <= hit <= 2 /\ b' = Base.set_defense (Base.defense b - hit) b.
Proof.
  intros H.
  destruct (day_inv _ _ _ _ _ _ H)
    as (event & base & eaten & food1 & morale1 & delta & _ & Hb & _ & _ & _
        & _ & _ & Hcase).
  assert (Hid : base = Base.set_defense (Base.defense base - 0) base).
  { destruct base. unfold Base.set_defense. cbn. f_equal. lia. }
  destruct Hcase as [(_ & hit & _ & Hhit & -> & _)
                    |[(_ & used & _ & _ & -> & _)
                    |[(_ & found & _ & _ & -> & _)
                    |(_ & -> & _)]]].
  - split; [reflexivity|]. split.
    + intros k Hk. rewrite lookup_with_defense.
      destruct (decide (choice = k)); [congruence|reflexivity].
    + exists base, (Base.set_defense (Base.defense base - hit) base), hit.
      rewrite lookup_with_defense.
      destruct (decide (choice = choice)); [auto|congruence].
  - split; [reflexivity|]. split; [reflexivity|].
    exists base, base, 0. repeat split; auto; lia.
  - split; [reflexivity|]. split; [reflexivity|].
    exists base, base, 0. repeat split; auto; lia.
  - split; [reflexivity|]. split; [reflexivity|].
    exists base, base, 0. repeat split; auto; lia.
Qed.

(** What a completed loop did to the world: the selected base lost
    [hits] points of defense, nothing else changed. *)
Lemma day_loop_base (choice : string) (days start : nat) (l l' : Locals)
    (w w' : World) :
  day_loop choice start days l w = Ok (l', w') ->
  survivors w' = survivors w /\
  (forall k, k <> choice -> bases w' !! k = bases w !! k) /\
  (forall b, bases w !! choice = Some b ->
     exists hits, 0 <= hits <= 2 * Z.of_nat days /\
       bases w' !! choice
       = Some (Base.set_defense (Base.defense b - hits) b)) /\
  (bases w !! choice = None -> bases w' !! choice = None).
Proof.
  revert start l w. induction days as [|days IH]; intros start l w H.
  - apply mret_Ok in H as [-> ->].
    split; [reflexivity|]. split; [reflexivity|]. split; [|auto].
    intros b Hb. exists 0. split; [lia|]. rewrite Hb. f_equal.
    destruct b. unfold Base.set_defense. cbn. f_equal. lia.
  - cbn [day_loop] in H. apply bind_Ok in H as (l1 & w1 & Hday & H).
    destruct (day_frame _ _ _ _ _ _ Hday)
      as (Hs1 & Ho1 & b0 & b1 & hit & Hb0 & Hb1 & Hhit & ->).
    destruct (IH _ _ _ H) as (Hs & Ho & Hsel & _).
    split; [congruence|]. split; [|split].
    + intros k Hk. rewrite (Ho k Hk). apply Ho1, Hk.
    + intros b Hb. assert (b = b0) as -> by congruence.
      destruct (Hsel _ Hb1) as (hits & Hhits & Hb').
      exists (hit + hits). split; [lia|]. rewrite Hb'. f_equal.
      unfold Base.set_defense. cbn. f_equal. lia.
    + intros Hnone. congruence.
Qed.

(** C8. A completed loop of any length leaves the survivor list and every
    other base as they were, and changes the selected base in its defense
    field at most: its name, food, medicine and population fields still
    hold the values from before the run, whatever the local food, medicine
    and morale have become. *)
Theorem loop_mutates_defense_only (choice : string) (start days : nat)
    (l l' : Locals) (w w' : World) :
  day_loop choice start days l w = Ok (l', w') ->
  survivors w' = survivors w /\
  (forall k, k <> choice -> bases w' !! k = bases w !! k) /\
  (forall b, bases w !! choice = Some b ->
     exists b', bases w' !! choice = Some b' /\
       Base.name b' = Base.name b /\
       Base.food b' = Base.food b /\
       Base.medicine b' = Base.medicine b /\
       Base.population b' = Base.population b) /\
  (bases w !! choice = None -> bases w' !! choice = None).
Proof.
  intros H.
  destruct (day_loop_base _ _ _ _ _ _ _ H) as (Hs & Ho & Hsel & Hnone).
  split; [exact Hs|]. split; [exact Ho|]. split; [|exact Hnone].
  intros b Hb. destruct (Hsel b Hb) as (hits & _ & Hb').
  eexists. split; [exact Hb'|]. cbn. auto.
Qed.

Lemma loop_mutates_defense_only_witness :
  exists (l' : Locals) (w' : World),
    day_loop "Prison" 0 3 prison_start eventful_world = Ok (l', w') /\
    survivors w' = SURVIVORS /\
    bases w' !! "Hilltop" = Some Hilltop /\
    bases w' !! "Alexandria" = Some Alexandria /\
    (exists b', bases w' !! "Prison" = Some b' /\
       Base.name b' = "Prison" /\ Base.food b' = 70 /\
       Base.medicine b' = 50 /\ Base.population b' = 30) /\
    medicine l' = 44.
Proof.
  destruct (day_loop "Prison" 0 3 prison_start eventful_world)
    as [[l' w']|e] eqn:E; [|vm_compute in E; discriminate].
  exists l', w'. split; [reflexivity|].
  destruct (loop_mutates_defense_only "Prison" 0 3 prison_start l'
              eventful_world w' E) as (Hs & Ho & Hsel & _).
  split; [exact Hs|].
  split; [rewrite Ho by discriminate; reflexivity|].
  split; [rewrite Ho by discriminate; reflexivity|].
  split; [exact (Hsel Prison eq_refl)|].
  vm_compute in E. injection E as <- _. reflexivity.
Defined.

(** The decrease of defense and medicine over one day. *)
Lemma day_decrease (choice : string) (d : nat) (l l' : Locals) (w w' : World)
    (b : Base.t) :
  day choice d l w = Ok (l', w') ->
  bases w !! choice = Some b ->
  exists b', bases w' !! choice = Some b' /\
    Base.defense b - 2 <= Base.defense b' <= Base.defense b /\
    medicine l - 6 <= medicine l' <= medicine l.
Proof.
  intros H Hb.
  destruct (day_frame _ _ _ _ _ _ H)
    as (_ & _ & b0 & b' & hit & Hb0 & Hb' & Hhit & ->).
  assert (b0 = b) as -> by congruence.
  exists (Base.set_defense (Base.defense b - hit) b).
  split; [exact Hb'|]. split; [cbn; lia|].
  destruct (day_inv _ _ _ _ _ _ H)
    as (event & base & eaten & food1 & morale1 & delta & _ & _ & _ & _ & _
        & _ & _ & Hcase).
  destruct Hcase as [(_ & ? & _ & _ & _ & -> & _)
                    |[(_ & used & _ & Hused & _ & -> & _)
                    |[(_ & ? & _ & _ & _ & -> & _)
                    |(_ & _ & -> & _)]]]; lia.
Qed.

(** C9. Over a completed stretch of days the defense of the selected base
    and the local medicine never go up: each day subtracts a draw in
    [[0,2]] from defense (Walker attack) or a draw in [[2,6]] from medicine
    (Illness outbreak) or leaves them, so after [days] days each has lost
    between 0 and 2 (resp. 6) per day. *)
Theorem defense_medicine_non_increasing (choice : string) (start days : nat)
    (l l' : Locals) (w w' : World) (b : Base.t) :
  day_loop choice start days l w = Ok (l', w') ->
  bases w !! choice = Some b ->
  exists b', bases w' !! choice = Some b' /\
    Base.defense b - 2 * Z.of_nat days <= Base.defense b' <= Base.defense b /\
    medicine l - 6 * Z.of_nat days <= medicine l' <= medicine l.
Proof.
  revert start l w b. induction days as [|days IH]; intros start l w b H Hb.
  - apply mret_Ok in H as [-> ->]. exists b. split; [exact Hb|]. lia.
  - cbn [day_loop] in H. apply bind_Ok in H as (l1 & w1 & Hday & H).
    destruct (day_decrease _ _ _ _ _ _ _ Hday Hb) as (b1 & Hb1 & Hd1 & Hm1).
    destruct (IH _ _ _ _ H Hb1) as (b' & Hb' & Hd & Hm).
    exists b'. split; [exact Hb'|]. lia.
Qed.

Lemma defense_medicine_non_increasing_witness :
  exists (l' : Locals) (w' : World) (b' : Base.t),
    day_loop "Prison" 0 3 prison_start eventful_world = Ok (l', w') /\
    bases w' !! "Prison" = Some b' /\
    9 - 2 * 3 <= Base.defense b' <= 9 /\
    50 - 6 * 3 <= medicine l' <= 50.
Proof.
  destruct (day_loop "Prison" 0 3 prison_start eventful_world)
    as [[l' w']|e] eqn:E; [|vm_compute in E; discriminate].
  destruct (defense_medicine_non_increasing "Prison" 0 3 prison_start l'
              eventful_world w' Prison E eq_refl) as (b' & Hb' & Hd & Hm).
  exists l', w', b'. auto.
Defined.

(** *** The loop completes *)

Lemma add_float_result (x : spec_float) (b c : num) :
  add (Float x) b = Ok c -> exists z, c = Float z.
Proof.
  cbn. destruct (to_float b); cbn; [|discriminate]. intros [= <-]. eauto.
Qed.

Lemma sub_to_float (a : num) (x y : spec_float) :
  to_float a = Ok x -> sub a (Float y) = Ok (Float (fsub x y)).
Proof.
  destruct a as [m|x']; cbn; intros H.
  - rewrite H. reflexivity.
  - injection H as ->. reflexivity.
Qed.

(** After a completed day the local food is a float. *)
Lemma day_food_float (choice : string) (d : nat) (l l' : Locals)
    (w w' : World) :
  day choice d l w = Ok (l', w') -> exists z, food l' = Float z.
Proof.
  intros H.
  destruct (day_inv _ _ _ _ _ _ H)
    as (event & base & eaten & food1 & morale1 & delta & _ & _ & Heat & Hfood
        & _ & _ & _ & Hcase).
  destruct (daily_food_consumption_float _ _ Heat) as [y ->].
  destruct (sub_float_r _ _ _ Hfood) as [z ->].
  destruct Hcase as [(_ & ? & _ & _ & _ & _ & -> & _)
                    |[(_ & ? & _ & _ & _ & _ & -> & _)
                    |[(_ & found & _ & _ & _ & _ & Hadd & _)
                    |(_ & _ & _ & -> & _)]]]; eauto.
  apply add_float_result in Hadd. exact Hadd.
Qed.

Lemma day_loop_total (choice : string) (days start : nat) (l : Locals)
    (w : World) (base : Base.t) (eaten : num) (delta : Z) (x : spec_float) :
  bases w !! choice = Some base ->
  daily_food_consumption (Base.population base) = Ok eaten ->
  morale_change base (survivors w) = Ok delta ->
  to_float (food l) = Ok x ->
  exists l' w', day_loop choice start days l w = Ok (l', w').
Proof.
  revert start l w base x.
  induction days as [|days IH]; intros start l w base x Hb Heat Hdelta Hx.
  - eexists _, _. reflexivity.
  - destruct (daily_food_consumption_float _ _ Heat) as [y Hy].
    assert (Hfood : sub (food l) eaten = Ok (Float (fsub x y)))
      by (rewrite Hy; apply sub_to_float, Hx).
    destruct (day_total choice start l w base eaten _ delta Hb Heat Hfood
                Hdelta) as (l1 & w1 & Hday).
    destruct (day_frame _ _ _ _ _ _ Hday)
      as (Hs1 & _ & b0 & b1 & hit & Hb0 & Hb1 & _ & ->).
    assert (b0 = base) as -> by congruence.
    destruct (day_food_float _ _ _ _ _ _ Hday) as [z Hz].
    destruct (IH (S start) l1 w1
                (Base.set_defense (Base.defense base - hit) base) z)
      as (l' & w' & Hloop).
    + exact Hb1.
    + exact Heat.
    + rewrite Hs1. exact Hdelta.
    + rewrite Hz. reflexivity.
    + exists l', w'. cbn [day_loop]. step_by Hday. exact Hloop.
Qed.

(** The log of a completed loop: one line per day, in order. *)
Lemma day_loop_log (choice : string) (days : nat) (l l' : Locals)
    (w w' : World) :
  day_loop choice 0 days l w = Ok (l', w') ->
  length (log l') = (length (log l) + days)%nat /\
  forall d, (d < days)%nat ->
    exists (ld : Locals) (wd : World) (event : string),
      day_loop choice 0 d l w = Ok (ld, wd) /\
      random_event wd = Ok (event, advance wd) /\
      log l' !! (length (log l) + d)%nat = Some (log_line d event).
Proof.
  revert l' w'. induction days as [|days IH]; intros l' w' H.
  - apply mret_Ok in H as [-> ->]. split; [lia|]. intros d Hd. lia.
  - rewrite day_loop_snoc in H. apply bind_Ok in H as (l1 & w1 & Hloop & Hday).
    cbn [Nat.add] in Hday.
    destruct (IH _ _ Hloop) as (Hlen & Hlines).
    destruct (day_inv _ _ _ _ _ _ Hday)
      as (event & base & eaten & food1 & morale1 & delta & Hev & _ & _ & _
          & _ & _ & Hlog & _).
    rewrite Hlog. split; [rewrite length_app; cbn; lia|].
    intros d Hd. destruct (Nat.eq_dec d days) as [->|Hne].
    + exists l1, w1, event. split; [exact Hloop|]. split; [exact Hev|].
      rewrite <- Hlen. apply list_lookup_middle. reflexivity.
    + destruct (Hlines d ltac:(lia)) as (ld & wd & ev & Hd1 & Hd2 & Hd3).
      exists ld, wd, ev. split; [exact Hd1|]. split; [exact Hd2|].
      rewrite lookup_app_l by lia. exact Hd3.
Qed.

Lemma seed_Ok (choice : string) (w : World) (base : Base.t) (avg : num) :
  bases w !! choice = Some base ->
  average_morale (survivors w) = Ok avg ->
  seed choice w
  = Ok (mkLocals (Int (Base.food base)) (Base.medicine base) avg [], w).
Proof.
  intros Hb Havg. unfold seed.
  step_by (read_base_step choice w base Hb).
  rewrite (bind_step _ (gets survivors) w w (survivors w) eq_refl).
  step_lift Havg. reflexivity.
Qed.

(** ** Medicine does not flow into the log or the verdict *)

Lemma forget_world_inv (w1 w2 : World) :
  forget_world w1 = forget_world w2 ->
  survivors w1 = survivors w2 /\ rng w1 = rng w2 /\
  forall k, forget_base <$> bases w1 !! k = forget_base <$> bases w2 !! k.
Proof.
  intros H. injection H as Hb Hs Hr. split; [exact Hs|]. split; [exact Hr|].
  intros k. rewrite <- !lookup_fmap, Hb. reflexivity.
Qed.

Lemma forget_world_advance (w1 w2 : World) :
  forget_world w1 = forget_world w2 ->
  forget_world (advance w1) = forget_world (advance w2).
Proof.
  intros H. injection H as Hb Hs Hr.
  unfold forget_world, advance. cbn. rewrite Hb, Hs, Hr. reflexivity.
Qed.

Lemma forget_world_with_defense (key : string) (v : Z) (b1 b2 : Base.t)
    (w1 w2 : World) :
  forget_world w1 = forget_world w2 ->
  forget_base b1 = forget_base b2 ->
  forget_world (with_defense key v b1 w1)
  = forget_world (with_defense key v b2 w2).
Proof.
  intros H Hb. injection H as Hbs Hs Hr. injection Hb as Hn Hd Hf Hp.
  unfold forget_world, with_defense. cbn. rewrite !fmap_insert, Hbs, Hs, Hr.
  unfold forget_base, Base.set_defense. cbn. rewrite Hn, Hf, Hp. reflexivity.
Qed.

Lemma forget_lookup (w1 w2 : World) (key : string) (b1 : Base.t) :
  forget_world w1 = forget_world w2 ->
  bases w1 !! key = Some b1 ->
  exists b2, bases w2 !! key = Some b2 /\ forget_base b1 = forget_base b2.
Proof.
  intros H Hb1. destruct (forget_world_inv _ _ H) as (_ & _ & Hk).
  specialize (Hk key). rewrite Hb1 in Hk.
  destruct (bases w2 !! key) as [b2|]; [|discriminate].
  cbn in Hk. exists b2. split; [reflexivity|]. congruence.
Qed.

(** The draws depend on the generator only. *)
Lemma randint_rng (a b r : Z) (w1 w1' w2 : World) :
  rng w1 = rng w2 ->
  randint a b w1 = Ok (r, w1') ->
  randint a b w2 = Ok (r, advance w2).
Proof.
  unfold randint, advance. intros Hr.
  destruct (b <? a); [discriminate|]. cbn. rewrite Hr.
  intros [= <- _]. reflexivity.
Qed.

Lemma random_event_rng (event : string) (w1 w1' w2 : World) :
  rng w1 = rng w2 ->
  random_event w1 = Ok (event, w1') ->
  random_event w2 = Ok (event, advance w2).
Proof.
  intros Hr H. unfold random_event in *.
  apply bind_Ok in H as (roll & w & Hroll & H).
  step_by (randint_rng _ _ _ _ _ _ Hr Hroll).
  repeat match type of H with
  | (if ?c then _ else _) _ = _ => destruct c
  end; apply mret_Ok in H as [-> _]; reflexivity.
Qed.

Lemma rng_advance (w1 w2 : World) :
  rng w1 = rng w2 -> rng (advance w1) = rng (advance w2).
Proof. unfold advance. cbn. intros ->. reflexivity. Qed.

(** A day that completes from one state completes from every state that
    differs in medicine only, with results that differ in medicine only. *)
Lemma day_forget (choice : string) (d : nat) (l1 l1' l2 : Locals)
    (w1 w1' w2 : World) :
  forget_locals l1 = forget_locals l2 ->
  forget_world w1 = forget_world w2 ->
  day choice d l1 w1 = Ok (l1', w1') ->
  exists l2' w2',
    day choice d l2 w2 = Ok (l2', w2') /\
    forget_locals l1' = forget_locals l2' /\
    forget_world w1' = forget_world w2'.
Proof.
  intros Hl Hw H.
  destruct (forget_world_inv _ _ Hw) as (Hs & Hr & _).
  injection Hl as Hfood Hmorale Hlog.
  destruct (day_inv _ _ _ _ _ _ H)
    as (event & base & eaten & food1 & morale1 & delta & Hev & Hb & Heat
        & Hf1 & Hdelta & Hm1 & Hlog' & Hcase).
  destruct (forget_lookup _ _ _ _ Hw Hb) as (base2 & Hb2 & Hbb).
  pose proof Hbb as Hbb'. injection Hbb' as Hn Hd Hf Hp.
  pose proof (random_event_rng _ _ _ _ Hr Hev) as Hev2.
  rewrite Hp in Heat. rewrite Hfood in Hf1. rewrite Hmorale in Hm1.
  rewrite (morale_change_food base2 base) in Hdelta by congruence.
  rewrite Hs in Hdelta.
  pose proof (rng_advance _ _ Hr) as Hr1.
  pose proof (forget_world_advance _ _ Hw) as Hw1.
  pose proof (forget_world_advance _ _ Hw1) as Hw2.
  destruct Hcase as [(He & hit & Hh & Hhit & -> & Hmed & Hfd & Hm2)
                    |[(He & used & Hh & Hused & -> & Hmed & Hfd & Hm2)
                    |[(He & found & Hh & Hfound & -> & Hmed & Hfd & Hm2)
                    |(He & -> & Hmed & Hfd & Hm2)]]];
    try pose proof (randint_rng _ _ _ _ _ _ Hr1 Hh) as Hh2.
  - eexists _, _. split; [|split].
    + exact (day_walker_attack choice d l2 w2 _ base2 eaten food1 morale1
               delta event Hev2 Hb2 Heat Hf1 Hdelta Hm1 hit _ _ He Hh2 Hm2).
    + unfold forget_locals. cbn. congruence.
    + rewrite Hd. apply forget_world_with_defense; assumption.
  - eexists _, _. split; [|split].
    + exact (day_illness_outbreak choice d l2 w2 _ base2 eaten food1 morale1
               delta event Hev2 Hb2 Heat Hf1 Hdelta Hm1 used _ _ He Hh2 Hm2).
    + unfold forget_locals. cbn. congruence.
    + exact Hw2.
  - eexists _, _. split; [|split].
    + exact (day_successful_scavenging choice d l2 w2 _ base2 eaten food1
               morale1 delta event Hev2 Hb2 Heat Hf1 Hdelta Hm1 found _ _ _
               He Hh2 Hfd Hm2).
    + unfold forget_locals. cbn. congruence.
    + exact Hw2.
  - eexists _, _. split; [|split].
    + exact (day_no_effect choice d l2 w2 _ base2 eaten food1 morale1 delta
               event Hev2 Hb2 Heat Hf1 Hdelta Hm1 He).
    + unfold forget_locals. cbn. congruence.
    + exact Hw1.
Qed.

Lemma day_loop_forget (choice : string) (days start : nat)
    (l1 l1' l2 : Locals) (w1 w1' w2 : World) :
  forget_locals l1 = forget_locals l2 ->
  forget_world w1 = forget_world w2 ->
  day_loop choice start days l1 w1 = Ok (l1', w1') ->
  exists l2' w2',
    day_loop choice start days l2 w2 = Ok (l2', w2') /\
    forget_locals l1' = forget_locals l2' /\
    forget_world w1' = forget_world w2'.
Proof.
  revert start l1 l2 w1 w2.
  induction days as [|days IH]; intros start l1 l2 w1 w2 Hl Hw H.
  - apply mret_Ok in H as [-> ->]. exists l2, w2. auto.
  - cbn [day_loop] in H. apply bind_Ok in H as (la & wa & Hday & H).
    destruct (day_forget _ _ _ _ _ _ _ _ Hl Hw Hday)
      as (lb & wb & Hday2 & Hlb & Hwb).
    destruct (IH _ _ _ _ _ Hlb Hwb H) as (l2' & w2' & Hloop & Hl' & Hw').
    exists l2', w2'. split; [|auto].
    cbn [day_loop]. step_by Hday2. exact Hloop.
Qed.

Lemma seed_forget (choice : string) (l1 : Locals) (w1 w1' w2 : World) :
  forget_world w1 = forget_world w2 ->
  seed choice w1 = Ok (l1, w1') ->
  exists l2,
    seed choice w2 = Ok (l2, w2) /\ w1' = w1 /\
    forget_locals l1 = forget_locals l2.
Proof.
  intros Hw H. unfold seed in H.
  apply bind_Ok in H as (base & wa & Hb & H).
  apply read_base_Ok in Hb as [Hb ->].
  apply bind_Ok in H as (roster & wa & Hros & H). injection Hros as <- <-.
  apply bind_Ok in H as (avg & wa & Havg & H).
  apply lift_Ok in Havg as [Havg ->]. apply mret_Ok in H as [-> ->].
  destruct (forget_world_inv _ _ Hw) as (Hs & _ & _).
  destruct (forget_lookup _ _ _ _ Hw Hb) as (base2 & Hb2 & Hbb).
  injection Hbb as Hn Hd Hf Hp. rewrite Hs in Havg.
  eexists. split; [exact (seed_Ok choice w2 base2 avg Hb2 Havg)|].
  split; [reflexivity|]. unfold forget_locals. cbn. congruence.
Qed.

Lemma results_forget (choice : string) (l1 l2 : Locals) (w1 w1' w2 : World)
    (r1 : Results) :
  forget_locals l1 = forget_locals l2 ->
  forget_world w1 = forget_world w2 ->
  results choice l1 w1 = Ok (r1, w1') ->
  exists r2,
    results choice l2 w2 = Ok (r2, w2) /\ w1' = w1 /\
    event_log r1 = event_log r2 /\ outcome r1 = outcome r2 /\
    final_food r1 = final_food r2 /\ avg_morale r1 = avg_morale r2.
Proof.
  intros Hl Hw H. unfold results in H.
  apply bind_Ok in H as (base & wa & Hb & H).
  apply read_base_Ok in Hb as [Hb ->]. apply mret_Ok in H as [-> ->].
  destruct (forget_lookup _ _ _ _ Hw Hb) as (base2 & Hb2 & Hbb).
  injection Hbb as Hn Hd Hf Hp. injection Hl as Hfood Hmorale Hlog.
  eexists. split.
  - unfold results. step_by (read_base_step choice w2 base2 Hb2). reflexivity.
  - cbn. rewrite Hfood, Hmorale, Hlog, Hd. auto.
Qed.

Lemma simulation_forget (choice : string) (days : nat) (w1 w1' w2 : World)
    (r1 : Results) :
  forget_world w1 = forget_world w2 ->
  simulation choice days w1 = Ok (r1, w1') ->
  exists r2 w2',
    simulation choice days w2 = Ok (r2, w2') /\
    event_log r1 = event_log r2 /\ outcome r1 = outcome r2 /\
    final_food r1 = final_food r2 /\ avg_morale r1 = avg_morale r2 /\
    forget_world w1' = forget_world w2'.
Proof.
  intros Hw H. unfold simulation in H.
  apply bind_Ok in H as (l0 & wa & Hseed & H).
  apply bind_Ok in H as (l & wb & Hloop & H).
  destruct (seed_forget _ _ _ _ _ Hw Hseed) as (l0' & Hseed2 & -> & Hl0).
  destruct (day_loop_forget _ _ _ _ _ _ _ _ _ Hl0 Hw Hloop)
    as (l' & wb' & Hloop2 & Hl & Hwb).
  destruct (results_forget _ _ _ _ _ _ _ Hl Hwb H)
    as (r2 & Hres2 & -> & Hlog & Hout & Hfood & Hmor).
  exists r2, wb'. split; [|auto 6].
  unfold simulation. step_by Hseed2. step_by Hloop2. exact Hres2.
Qed.

(** C10. Two runs of the script with the same base selection, day count
    and random source, from worlds that differ in medicine values only,
    both complete or both fail; when they complete, their event logs and
    verdicts (and shown food and morale) are the same, and the final worlds
    again differ in medicine only. *)
Theorem medicine_independence (choice : string) (days : nat)
    (w1 w2 : World) :
  forget_world w1 = forget_world w2 ->
  match simulation choice days w1, simulation choice days w2 with
  | Ok (r1, w1'), Ok (r2, w2') =>
      event_log r1 = event_log r2 /\ outcome r1 = outcome r2 /\
      final_food r1 = final_food r2 /\ avg_morale r1 = avg_morale r2 /\
      forget_world w1' = forget_world w2'
  | Raise _, Raise _ => True
  | _, _ => False
  end.
Proof.
  intros Hw.
  destruct (simulation choice days w1) as [[r1 w1']|e1] eqn:E1.
  - destruct (simulation_forget _ _ _ _ _ _ Hw E1) as (r2 & w2' & -> & H).
    exact H.
  - destruct (simulation choice days w2) as [[r2 w2']|e2] eqn:E2; [|exact I].
    destruct (simulation_forget _ _ _ _ _ _ (eq_sym Hw) E2)
      as (r & w' & E & _).
    congruence.
Qed.

Lemma medicine_independence_witness :
  exists (r1 r2 : Results) (w1' w2' : World),
    simulation "Prison" 3 eventful_world = Ok (r1, w1') /\
    simulation "Prison" 3 scarce_world = Ok (r2, w2') /\
    event_log r1 = event_log r2 /\ outcome r1 = outcome r2 /\
    final_medicine r1 = Int 44 /\ final_medicine r2 = Int 0.
Proof.
  pose proof (medicine_independence "Prison" 3 eventful_world scarce_world
                ltac:(vm_compute; reflexivity)) as H.
  destruct (simulation "Prison" 3 eventful_world) as [[r1 w1']|e1] eqn:E1;
    [|vm_compute in E1; discriminate].
  destruct (simulation "Prison" 3 scarce_world) as [[r2 w2']|e2] eqn:E2;
    [|vm_compute in E2; discriminate].
  destruct H as (Hlog & Hout & _).
  exists r1, r2, w1', w2'.
  split; [reflexivity|]. split; [reflexivity|].
  split; [exact Hlog|]. split; [exact Hout|].
  vm_compute in E1. injection E1 as <- _.
  vm_compute in E2. injection E2 as <- _.
  split; reflexivity.
Defined.

(** ** The derived metrics *)

Lemma agrees_Ok (r : res num) (exact : Z * Z) :
  agrees r exact = true ->
  exists x, r = Ok (Float x) /\
            float_eq x (ratio (fst exact) (snd exact)) = true.
Proof.
  unfold agrees. destruct r as [[n|x]|e]; try discriminate. eauto.
Qed.

Lemma all2_Zrange (P : Z -> Z -> bool) (lo : Z) (len : nat) :
  all2 P (Zrange lo len) = true ->
  forall a b,
    lo <= a < lo + Z.of_nat len -> lo <= b < lo + Z.of_nat len ->
    P a b = true.
Proof.
  intros H a b Ha Hb. unfold all2 in H.
  pose proof (Zrange_forallb _ _ _ H a Ha) as H1. cbv beta in H1.
  exact (Zrange_forallb _ _ _ H1 b Hb).
Qed.

Lemma all3_Zrange (P : Z -> Z -> Z -> bool) (lo : Z) (len : nat) :
  all3 P (Zrange lo len) = true ->
  forall a b c,
    lo <= a < lo + Z.of_nat len -> lo <= b < lo + Z.of_nat len ->
    lo <= c < lo + Z.of_nat len ->
    P a b c = true.
Proof.
  intros H a b c Ha Hb Hc. unfold all3 in H.
  pose proof (Zrange_forallb _ _ _ H a Ha) as H1. cbv beta in H1.
  pose proof (Zrange_forallb _ _ _ H1 b Hb) as H2. cbv beta in H2.
  exact (Zrange_forallb _ _ _ H2 c Hc).
Qed.

Lemma combat_power_box : all3 combat_power_ok (Zrange (-10) 31) = true.
Proof. vm_compute. reflexivity. Qed.

Lemma combat_power_agrees (s : Survivor.t) :
  -10 <= Survivor.strength s <= 20 ->
  -10 <= Survivor.stamina s <= 20 ->
  -10 <= Survivor.morale s <= 20 ->
  agrees (Survivor.combat_power s) (exact_combat_power s) = true.
Proof.
  intros Ha Hc Hd.
  exact (all3_Zrange combat_power_ok (-10) 31 combat_power_box
           (Survivor.strength s) (Survivor.stamina s) (Survivor.morale s)
           ltac:(lia) ltac:(lia) ltac:(lia)).
Qed.

Lemma efficiency_box : all2 efficiency_ok (Zrange (-10) 31) = true.
Proof. vm_compute. reflexivity. Qed.

Lemma safety_score_box : all2 safety_score_ok (Zrange (-10) 71) = true.
Proof. vm_compute. reflexivity. Qed.

Lemma risk_box : all2 risk_ok (Zrange (-10) 31) = true.
Proof. vm_compute. reflexivity. Qed.

Lemma efficiency_agrees (s : Survivor.t) :
  -10 <= Survivor.intelligence s <= 20 ->
  -10 <= Survivor.stamina s <= 20 ->
  agrees (Survivor.efficiency s) (exact_efficiency s) = true.
Proof.
  intros Hb Hc.
  exact (all2_Zrange efficiency_ok (-10) 31 efficiency_box
           (Survivor.intelligence s) (Survivor.stamina s)
           ltac:(lia) ltac:(lia)).
Qed.

Lemma safety_score_agrees (b : Base.t) :
  -10 <= Base.defense b <= 60 ->
  -10 <= Base.population b <= 60 ->
  agrees (Base.safety_score b) (exact_safety_score b) = true.
Proof.
  intros Hd Hp.
  exact (all2_Zrange safety_score_ok (-10) 71 safety_score_box
           (Base.defense b) (Base.population b) ltac:(lia) ltac:(lia)).
Qed.

Lemma risk_agrees (t : Transport.t) :
  -10 <= Transport.noise t <= 20 ->
  -10 <= Transport.speed t <= 20 ->
  agrees (Transport.risk t) (exact_risk t) = true.
Proof.
  intros Hn Hs.
  exact (all2_Zrange risk_ok (-10) 31 risk_box
           (Transport.noise t) (Transport.speed t) ltac:(lia) ltac:(lia)).
Qed.

(** The sum in binary64 is 8.700000000000001; rounding to two decimals
    gives the float written 8.7. *)
Example combat_power_rick :
  Survivor.combat_power (Survivor.init "Rick" 9 7 8 9 "Leader")
  = Ok (Float (ratio 87 10)).
Proof. vm_compute. reflexivity. Qed.

(** ** The two conditions in practice

    The overlap of the Collapse and Thriving conditions needs defense < 3
    together with food > 30.  In runs of the three predefined bases over at
    most 30 days (the range of the day slider) it is never reached: the
    walker attacks that bring defense below 3 cost more food than the
    remaining days can find. *)

Lemma same_float_eq (x y : spec_float) : same_float x y = true -> x = y.
Proof.
  destruct x as [a|a| |a m e], y as [b|b| |b n f]; cbn; try discriminate.
  - intros H. apply Bool.eqb_prop in H. congruence.
  - intros H. apply Bool.eqb_prop in H. congruence.
  - rewrite !andb_true_iff. intros [[Hs Hm] He].
    apply Bool.eqb_prop in Hs. apply Pos.eqb_eq in Hm. apply Z.eqb_eq in He.
    congruence.
Qed.

Lemma converts_box : forallb converts_ok food_range = true.
Proof. vm_compute. reflexivity. Qed.

Lemma consumption_box : forallb consumption_ok food_range = true.
Proof. vm_compute. reflexivity. Qed.

Lemma find_box : forallb (fun z => forallb (find_ok z) (Zrange 10 16))
                         food_range = true.
Proof. vm_compute. reflexivity. Qed.

Lemma above_30_box : forallb above_30_ok food_range = true.
Proof. vm_compute. reflexivity. Qed.

Lemma float_of_int_exact (z : Z) :
  -1300 <= z < 200 -> float_of_int z = Ok (nearest_int z).
Proof.
  intros Hz.
  pose proof (Zrange_forallb converts_ok (-1300) 1500 converts_box z
                ltac:(lia)) as H.
  unfold converts_ok in H.
  destruct (float_of_int z) as [x|e]; [|discriminate].
  apply same_float_eq in H. congruence.
Qed.

Lemma consumption_exact (z c : Z) :
  -1300 <= z < 200 -> c = 24 \/ c = 36 \/ c = 40 ->
  fsub (nearest_int z) (nearest_int c) = nearest_int (z - c).
Proof.
  intros Hz Hc.
  pose proof (Zrange_forallb consumption_ok (-1300) 1500 consumption_box z
                ltac:(lia)) as H.
  unfold consumption_ok in H. rewrite forallb_forall in H.
  apply same_float_eq, H. cbn. intuition.
Qed.

Lemma find_exact (z f : Z) :
  -1300 <= z < 200 -> 10 <= f <= 25 ->
  fadd (nearest_int z) (nearest_int f) = nearest_int (z + f).
Proof.
  intros Hz Hf.
  pose proof (Zrange_forallb _ (-1300) 1500 find_box z ltac:(lia)) as H.
  cbv beta in H.
  apply same_float_eq.
  exact (Zrange_forallb (find_ok z) 10 16 H f ltac:(lia)).
Qed.

Lemma above_30_exact (z : Z) :
  -1300 <= z < 200 ->
  gt (Float (nearest_int z)) (Int 30) = true -> 30 < z.
Proof.
  intros Hz Hgt.
  pose proof (Zrange_forallb above_30_ok (-1300) 1500 above_30_box z
                ltac:(lia)) as H.
  unfold above_30_ok in H. rewrite Hgt in H.
  apply Bool.eqb_prop in H. symmetry in H. apply Z.ltb_lt in H. exact H.
Qed.

Section InPractice.
Variable choice : string.
Variables F0 D0 P0 c : Z.
Hypothesis HF0 : 0 <= F0 <= 100.
Hypothesis Hc : c = 24 \/ c = 36 \/ c = 40.
Hypothesis Heaten : daily_food_consumption P0 = Ok (Float (nearest_int c)).

Lemma food_invariant_day (k d : nat) (l l' : Locals) (w w' : World) :
  (k < 30)%nat ->
  food_invariant choice F0 D0 P0 c k l w ->
  day choice d l w = Ok (l', w') ->
  food_invariant choice F0 D0 P0 c (S k) l' w'.
Proof.
  intros Hk (z & b & Hz & Hb & Hp & Hzr & Hd & Hj) H.
  destruct (day_inv _ _ _ _ _ _ H)
    as (event & base & eaten & food1 & morale1 & delta & _ & Hb' & Heat
        & Hfood & _ & _ & _ & Hcase).
  assert (base = b) as -> by congruence.
  rewrite Hp, Heaten in Heat. injection Heat as <-.
  assert (Hin : -1300 <= z < 200) by lia.
  assert (Hf1 : food1 = Float (nearest_int (z - c))).
  { assert (Hto : to_float (food l) = Ok (nearest_int z)).
    { destruct Hz as [-> | ->]; [apply float_of_int_exact, Hin|reflexivity]. }
    rewrite (sub_to_float _ _ _ Hto) in Hfood. injection Hfood as <-.
    rewrite consumption_exact by assumption. reflexivity. }
  destruct Hcase as [(_ & hit & _ & Hhit & -> & _ & Hfd & _)
                    |[(_ & used & _ & _ & -> & _ & Hfd & _)
                    |[(_ & found & _ & Hfound & -> & _ & Hfd & _)
                    |(_ & -> & _ & Hfd & _)]]].
  - exists (z - c), (Base.set_defense (Base.defense b - hit) b).
    split; [right; congruence|].
    split; [rewrite lookup_with_defense;
            destruct (decide (choice = choice)); [reflexivity|congruence]|].
    cbn. split; [exact Hp|]. lia.
  - exists (z - c), b. split; [right; congruence|].
    split; [exact Hb|]. split; [exact Hp|]. lia.
  - exists (z - c + found), b. split.
    + right. rewrite Hf1 in Hfd. cbn in Hfd.
      rewrite (float_of_int_exact found) in Hfd by lia. cbn in Hfd.
      injection Hfd as <-. rewrite find_exact by lia. reflexivity.
    + split; [exact Hb|]. split; [exact Hp|]. lia.
  - exists (z - c), b. split; [right; congruence|].
    split; [exact Hb|]. split; [exact Hp|]. lia.
Qed.

Lemma food_invariant_loop (days k start : nat) (l l' : Locals)
    (w w' : World) :
  (k + days <= 30)%nat ->
  food_invariant choice F0 D0 P0 c k l w ->
  day_loop choice start days l w = Ok (l', w') ->
  food_invariant choice F0 D0 P0 c (k + days) l' w'.
Proof.
  revert k start l w.
  induction days as [|days IH]; intros k start l w Hk Hinv H.
  - apply mret_Ok in H as [-> ->]. rewrite Nat.add_0_r. exact Hinv.
  - cbn [day_loop] in H. apply bind_Ok in H as (l1 & w1 & Hday & H).
    replace (k + S days)%nat with (S k + days)%nat by lia.
    apply (IH (S k) (S start) l1 w1); [lia| |exact H].
    apply (food_invariant_day k start l l1 w w1); [lia|exact Hinv|exact Hday].
Qed.

(** With the invariant after at most 30 days, food > 30 forces the food
    integer above 30. *)
Lemma food_invariant_above_30 (k : nat) (l : Locals) (w : World) :
  (k <= 30)%nat ->
  food_invariant choice F0 D0 P0 c k l w ->
  gt (food l) (Int 30) = true ->
  exists b,
    bases w !! choice = Some b /\
    D0 - 2 * Z.of_nat k <= Base.defense b /\
    62 + 25 * (D0 - Base.defense b) <= 2 * F0 + 2 * (25 - c) * Z.of_nat k.
Proof.
  intros Hk (z & b & Hz & Hb & Hp & Hzr & Hd & Hj) Hgt.
  exists b. split; [exact Hb|]. split; [exact Hd|].
  assert (30 < z); [|lia].
  destruct Hz as [Hz|Hz]; rewrite Hz in Hgt.
  - unfold gt, cmp in Hgt. destruct (Z.compare_spec z 30); try discriminate.
    lia.
  - apply above_30_exact; [lia|exact Hgt].
Qed.
End InPractice.

Lemma BASES_lookup (choice : string) (b : Base.t) :
  BASES !! choice = Some b ->
  (choice = "Prison" /\ b = Prison) \/
  (choice = "Alexandria" /\ b = Alexandria) \/
  (choice = "Hilltop" /\ b = Hilltop).
Proof.
  unfold BASES. rewrite !lookup_insert, lookup_empty.
  repeat case_decide; intros Hlook; try discriminate;
    injection Hlook as <-; subst; auto.
Qed.

(** Both conditions at once need low defense and food above 30. *)
Lemma overlap_needs (f m : num) (d : Z) :
  collapse_condition f m d = true -> thriving_condition f m = true ->
  d < 3 /\ gt f (Int 30) = true.
Proof.
  rewrite collapse_condition_true, thriving_condition_true.
  intros [Hc|[Hc|Hc]] [H7 H30].
  - rewrite (le_not_gt f 0 30) in H30 by (lia || exact Hc). discriminate.
  - rewrite (lt_not_gt m 3 7) in H7 by (lia || exact Hc). discriminate.
  - auto.
Qed.

(** For each of the three predefined bases and every random source, the
    state after a completed loop of at most 30 days does not satisfy both
    conditions. *)
Lemma overlap_out_of_reach (choice : string) (days : nat) (g : Rng.t)
    (l0 l : Locals) (w0 w' : World) (b : Base.t) :
  (days <= 30)%nat ->
  seed choice (initial_world g) = Ok (l0, w0) ->
  day_loop choice 0 days l0 w0 = Ok (l, w') ->
  bases w' !! choice = Some b ->
  ~ (collapse_condition (food l) (morale l) (Base.defense b) = true /\
     thriving_condition (food l) (morale l) = true).
Proof.
  intros Hdays Hseed Hloop Hb [Hcol Hthr].
  destruct (overlap_needs _ _ _ Hcol Hthr) as [Hd Hgt].
  unfold seed in Hseed. apply bind_Ok in Hseed as (b0 & wa & Hb0 & Hseed).
  apply read_base_Ok in Hb0 as [Hb0 ->].
  apply bind_Ok in Hseed as (roster & wa & Hros & Hseed).
  injection Hros as <- <-.
  apply bind_Ok in Hseed as (avg & wa & Havg & Hseed).
  apply lift_Ok in Havg as [Havg ->]. apply mret_Ok in Hseed as [-> ->].
  assert (Hinv0 : forall c,
            food_invariant choice (Base.food b0) (Base.defense b0)
              (Base.population b0) c 0
              (mkLocals (Int (Base.food b0)) (Base.medicine b0) avg [])
              (initial_world g)).
  { intros c. exists (Base.food b0), b0. cbn.
    split; [auto|]. split; [exact Hb0|]. split; [reflexivity|]. lia. }
  destruct (BASES_lookup _ _ Hb0) as [[-> ->]|[[-> ->]|[-> ->]]].
  - pose proof (food_invariant_loop "Prison" 70 9 30 24 ltac:(lia)
                  ltac:(auto) eq_refl days 0 0 _ _ _ _ ltac:(lia)
                  (Hinv0 24) Hloop) as Hinv.
    destruct (food_invariant_above_30 "Prison" 70 9 30 24 ltac:(lia)
                ltac:(auto) (0 + days)%nat l w' ltac:(lia) Hinv Hgt)
      as (b' & Hb' & Hlo & Hj).
    assert (b' = b) as -> by congruence. cbn in *. lia.
  - pose proof (food_invariant_loop "Alexandria" 80 7 45 36 ltac:(lia)
                  ltac:(auto) eq_refl days 0 0 _ _ _ _ ltac:(lia)
                  (Hinv0 36) Hloop) as Hinv.
    destruct (food_invariant_above_30 "Alexandria" 80 7 45 36 ltac:(lia)
                ltac:(auto) (0 + days)%nat l w' ltac:(lia) Hinv Hgt)
      as (b' & Hb' & Hlo & Hj).
    assert (b' = b) as -> by congruence. cbn in *. lia.
  - pose proof (food_invariant_loop "Hilltop" 90 6 50 40 ltac:(lia)
                  ltac:(auto) eq_refl days 0 0 _ _ _ _ ltac:(lia)
                  (Hinv0 40) Hloop) as Hinv.
    destruct (food_invariant_above_30 "Hilltop" 90 6 50 40 ltac:(lia)
                ltac:(auto) (0 + days)%nat l w' ltac:(lia) Hinv Hgt)
      as (b' & Hb' & Hlo & Hj).
    assert (b' = b) as -> by congruence. cbn in *. lia.
Qed.

(** C7. The Collapse and the Thriving conditions are mutually exclusive
    in practice: for each of the three predefined bases, every random
    source and every day count up to 30 (the range of the day slider), the
    state left by a completed loop does not satisfy both; there the
    verdict would be the same with Thriving tested first.  The thresholds
    alone exclude an overlap whenever defense is at least 3. *)
Theorem conditions_exclusive_in_practice (choice : string) (days : nat)
    (g : Rng.t) (l0 l : Locals) (w0 w' : World) (b : Base.t) :
  (days <= 30)%nat ->
  seed choice (initial_world g) = Ok (l0, w0) ->
  day_loop choice 0 days l0 w0 = Ok (l, w') ->
  bases w' !! choice = Some b ->
  ~ (collapse_condition (food l) (morale l) (Base.defense b) = true /\
     thriving_condition (food l) (morale l) = true) /\
  verdict (food l) (morale l) (Base.defense b)
  = (if thriving_condition (food l) (morale l) then Thriving
     else if collapse_condition (food l) (morale l) (Base.defense b)
          then Collapse
     else Fragile) /\
  (forall (f m : num) (d : Z),
     3 <= d ->
     ~ (collapse_condition f m d = true /\ thriving_condition f m = true)).
Proof.
  intros Hdays Hseed Hloop Hb.
  pose proof (overlap_out_of_reach choice days g l0 l w0 w' b Hdays Hseed
                Hloop Hb) as Hno.
  split; [exact Hno|]. split.
  - unfold verdict.
    destruct (collapse_condition (food l) (morale l) (Base.defense b)) eqn:Hc,
             (thriving_condition (food l) (morale l)) eqn:Ht;
      try reflexivity.
    exfalso. apply Hno. auto.
  - intros f m d Hd [Hc Ht].
    destruct (overlap_needs _ _ _ Hc Ht) as [Hd' _]. lia.
Qed.

Lemma conditions_exclusive_in_practice_witness :
  exists (l : Locals) (w' : World) (b : Base.t),
    day_loop "Prison" 0 3 prison_start eventful_world = Ok (l, w') /\
    bases w' !! "Prison" = Some b /\
    ~ (collapse_condition (food l) (morale l) (Base.defense b) = true /\
       thriving_condition (food l) (morale l) = true).
Proof.
  assert (Hseed : seed "Prison" (initial_world eventful_draws)
                  = Ok (prison_start, eventful_world))
    by (vm_compute; reflexivity).
  destruct (day_loop "Prison" 0 3 prison_start eventful_world)
    as [[l w']|e] eqn:E; [|vm_compute in E; discriminate].
  destruct (day_loop_base _ _ _ _ _ _ _ E) as (_ & _ & Hsel & _).
  destruct (Hsel Prison eq_refl) as (hits & _ & Hb).
  exists l, w', (Base.set_defense (Base.defense Prison - hits) Prison).
  split; [reflexivity|]. split; [exact Hb|].
  exact (proj1 (conditions_exclusive_in_practice "Prison" 3 eventful_draws
                  prison_start l eventful_world w'
                  (Base.set_defense (Base.defense Prison - hits) Prison)
                  ltac:(lia) Hseed E Hb)).
Defined.

(** Outside such runs the two conditions can hold together, at
    food = 35.0, morale = 8.0, defense = 2; the verdict is then Collapse,
    which is tested first. *)
Example overlap_at_low_defense :
  collapse_condition (Float (ratio 35 1)) (Float (ratio 8 1)) 2 = true /\
  thriving_condition (Float (ratio 35 1)) (Float (ratio 8 1)) = true /\
  verdict (Float (ratio 35 1)) (Float (ratio 8 1)) 2 = Collapse.
Proof. repeat split; vm_compute; reflexivity. Qed.

(** ** Rounding to two decimals *)

Lemma div_half_even_spec (n d : Z) :
  0 <= n -> 0 < d ->
  0 <= div_half_even n d /\
  2 * Z.abs (n - div_half_even n d * d) <= d /\
  (2 * Z.abs (n - div_half_even n d * d) = d ->
   Z.even (div_half_even n d) = true).
Proof.
  intros Hn Hd. unfold div_half_even.
  pose proof (Z_div_mod n d ltac:(lia)) as H.
  destruct (Z.div_eucl n d) as [k r]. destruct H as [Hq Hr].
  assert (Hk : 0 <= k) by nia.
  destruct (Z.compare_spec (2 * r) d) as [E|L|G].
  - destruct (Z.even k) eqn:Ev.
    + split; [lia|]. split; [lia|auto].
    + split; [lia|]. split; [lia|]. intros _.
      rewrite Z.even_add, Ev. reflexivity.
  - split; [lia|]. split; lia.
  - split; [lia|]. split; lia.
Qed.

Lemma float_round_hundredth (s : bool) (m : positive) (e : Z) :
  exists k,
    0 <= k /\ nearest_hundredth m e k /\
    float_round (S754_finite s m e) 2
    = if k =? 0 then S754_zero s else ratio (if s then - k else k) 100.
Proof.
  unfold float_round, nearest_hundredth.
  change (NDIGITS_MAX <? Z.of_nat 2) with false.
  change (10 ^ Z.of_nat 2) with 100. cbv iota zeta.
  destruct (0 <=? e) eqn:He.
  - apply Z.leb_le in He. exists (Z.pos m * 100 * 2 ^ e).
    assert (Hp : 0 < Z.pos m * 100 * 2 ^ e)
      by (pose proof (Z.pow_pos_nonneg 2 e ltac:(lia) He); nia).
    split; [lia|]. split; [lia|].
    destruct (Z.pos m * 100 * 2 ^ e) as [|p|p]; try lia.
    destruct s; reflexivity.
  - apply Z.leb_gt in He.
    assert (Hd : 0 < 2 ^ (- e)) by (apply Z.pow_pos_nonneg; lia).
    destruct (div_half_even_spec (Z.pos m * 100) (2 ^ (- e)) ltac:(lia) Hd)
      as (Hk & Hnear & Htie).
    exists (div_half_even (Z.pos m * 100) (2 ^ (- e))).
    split; [exact Hk|]. split.
    + replace (100 * Z.pos m) with (Z.pos m * 100) by lia. auto.
    + destruct (div_half_even (Z.pos m * 100) (2 ^ (- e))) as [|p|p];
        try lia; destruct s; reflexivity.
Qed.

(** ** The average morale of a roster *)

Lemma fold_left_add_bounds (l : list Z) (a lo hi : Z) :
  Forall (fun x => lo <= x <= hi) l ->
  a + lo * Z.of_nat (length l) <= fold_left Z.add l a
  <= a + hi * Z.of_nat (length l).
Proof.
  revert a. induction l as [|x l IH]; intros a H.
  - cbn. lia.
  - inversion H as [|? ? Hx Hl]; subst. cbn [fold_left length].
    specialize (IH (a + x) Hl). lia.
Qed.

Lemma morale_sum_bounds (roster : list Survivor.t) (lo hi : Z) :
  Forall (fun s => lo <= Survivor.morale s <= hi) roster ->
  lo * Z.of_nat (length roster) <= morale_sum roster
  <= hi * Z.of_nat (length roster).
Proof.
  intros H. unfold morale_sum.
  pose proof (fold_left_add_bounds (map Survivor.morale roster) 0 lo hi) as B.
  rewrite length_map in B. apply B. apply Forall_map. exact H.
Qed.

Lemma average_morale_sum (roster : list Survivor.t) (q : spec_float) :
  int_truediv (morale_sum roster) (Z.of_nat (length roster)) = Ok q ->
  average_morale roster = Ok (Float q).
Proof.
  intros H. unfold average_morale, truediv. fold (morale_sum roster).
  rewrite H. reflexivity.
Qed.

Lemma average_box :
  forallb (fun n => forallb (average_ok n) (Zrange (-160) 481)) (Zrange 1 16)
  = true.
Proof. vm_compute. reflexivity. Qed.

Lemma average_exact (count total : Z) (q : spec_float) :
  1 <= count <= 16 -> -160 <= total <= 320 ->
  int_truediv total count = Ok q ->
  is_average q total count = true /\
  gt (Float q) (Int 8) = (8 * count <? total).
Proof.
  intros Hc Ht Hq.
  pose proof (Zrange_forallb _ 1 16 average_box count ltac:(lia)) as H.
  cbv beta in H.
  pose proof (Zrange_forallb (average_ok count) (-160) 481 H total
                ltac:(lia)) as H1.
  unfold average_ok in H1. rewrite Hq in H1.
  apply andb_prop in H1 as [Ha Hg]. split; [exact Ha|].
  apply Bool.eqb_prop, Hg.
Qed.

(** On a roster of at most 16 survivors with morale between -10 and 20 the
    quotient is the exact average rounded once, and it is above 8 exactly
    when the exact average is. *)
Lemma average_morale_exact (roster : list Survivor.t) (q : spec_float) :
  (length roster <= 16)%nat ->
  Forall (fun s => -10 <= Survivor.morale s <= 20) roster ->
  int_truediv (morale_sum roster) (Z.of_nat (length roster)) = Ok q ->
  is_average q (morale_sum roster) (Z.of_nat (length roster)) = true /\
  gt (Float q) (Int 8)
  = (8 * Z.of_nat (length roster) <? morale_sum roster).
Proof.
  intros Hlen Hall Hq.
  pose proof (morale_sum_bounds roster (-10) 20 Hall) as B.
  apply average_exact; [|lia|exact Hq].
  destruct roster as [|s roster]; [discriminate Hq|].
  cbn [length] in *. lia.
Qed.

Lemma morale_change_sum (base : Base.t) (roster : list Survivor.t)
    (q : spec_float) :
  int_truediv (morale_sum roster) (Z.of_nat (length roster)) = Ok q ->
  morale_change base roster
  = Ok (if Base.food base <? 20 then -2
        else if gt (Float q) (Int 8) then 1 else 0).
Proof. intros H. apply morale_change_Ok, average_morale_sum, H. Qed.

(** ** The daily consumption *)

Lemma daily_food_consumption_pop (p : Z) (pop : spec_float) :
  float_of_int p = Ok pop ->
  daily_food_consumption p = Ok (Float (fmul pop lit_0_8)).
Proof.
  intros H. unfold daily_food_consumption. cbn. rewrite H. reflexivity.
Qed.

Lemma eaten_box : forallb eaten_ok (Zrange 0 201) = true.
Proof. vm_compute. reflexivity. Qed.

Lemma eaten_exact (k : Z) (pop : spec_float) :
  0 <= k <= 200 ->
  float_of_int (5 * k) = Ok pop ->
  fmul pop lit_0_8 = nearest_int (4 * k).
Proof.
  intros Hk Hpop.
  pose proof (Zrange_forallb eaten_ok 0 201 eaten_box k ltac:(lia)) as H.
  unfold eaten_ok in H.
  rewrite (daily_food_consumption_pop _ _ Hpop) in H.
  apply same_float_eq, H.
Qed.

(** ** The daily update *)

(** C3. One simulated day, once its event is sampled.  The local food is
    decreased by [population * 0.8] of the selected base (for a population
    of 5 k up to 1000 this is exactly 4 k), then the morale delta of the
    base and the roster is added to the local morale, then the event
    applies.  Walker attack: a draw in [[0,2]] is subtracted from the
    defense field of the selected base, whose other fields stay, and 1
    from morale.  Illness outbreak: a draw in [[2,6]] is subtracted from
    medicine and 2 from morale.  Successful scavenging: a draw in
    [[10,25]] is added to food and 2 to morale.  Internal conflict and
    Quiet day change nothing else.  The day appends its log line. *)
Theorem daily_update_rule (choice : string) (d : nat) (l : Locals)
    (w w1 : World) (base : Base.t) (event : string) (pop f q : spec_float) :
  random_event w = Ok (event, w1) ->
  bases w !! choice = Some base ->
  float_of_int (Base.population base) = Ok pop ->
  to_float (food l) = Ok f ->
  int_truediv (morale_sum (survivors w)) (Z.of_nat (length (survivors w)))
  = Ok q ->
  exists (food1 morale1 : num) (delta : Z),
    food1 = Float (fsub f (fmul pop lit_0_8)) /\
    (forall k, 0 <= k <= 200 -> Base.population base = 5 * k ->
       food1 = Float (fsub f (nearest_int (4 * k)))) /\
    delta = (if Base.food base <? 20 then -2
             else if gt (Float q) (Int 8) then 1 else 0) /\
    add (morale l) (Int delta) = Ok morale1 /\
    (event = "Walker attack" ->
       exists (hit : Z) (morale2 : num),
         randint 0 2 w1 = Ok (hit, advance w1) /\ 0 <= hit <= 2 /\
         sub morale1 (Int 1) = Ok morale2 /\
         day choice d l w
         = Ok (mkLocals food1 (medicine l) morale2
                 (log l ++ [log_line d event]),
               mkWorld
                 (<[choice := Base.mk (Base.name base)
                                (Base.defense base - hit) (Base.food base)
                                (Base.medicine base) (Base.population base)]>
                    (bases w))
                 (survivors w) (rng (advance w1)))) /\
    (event = "Illness outbreak" ->
       exists (used : Z) (morale2 : num),
         randint 2 6 w1 = Ok (used, advance w1) /\ 2 <= used <= 6 /\
         sub morale1 (Int 2) = Ok morale2 /\
         day choice d l w
         = Ok (mkLocals food1 (medicine l - used) morale2
                 (log l ++ [log_line d event]),
               advance w1)) /\
    (event = "Successful scavenging" ->
       exists (found : Z) (food2 morale2 : num),
         randint 10 25 w1 = Ok (found, advance w1) /\ 10 <= found <= 25 /\
         add food1 (Int found) = Ok food2 /\
         add morale1 (Int 2) = Ok morale2 /\
         day choice d l w
         = Ok (mkLocals food2 (medicine l) morale2
                 (log l ++ [log_line d event]),
               advance w1)) /\
    (event = "Internal conflict" \/ event = "Quiet day" ->
       day choice d l w
       = Ok (mkLocals food1 (medicine l) morale1
               (log l ++ [log_line d event]),
             w1)).
Proof.
  intros Hev Hb Hpop Hf Hq.
  pose proof (daily_food_consumption_pop _ _ Hpop) as Heat.
  pose proof (sub_to_float _ _ (fmul pop lit_0_8) Hf) as Hfood.
  pose proof (morale_change_sum base _ _ Hq) as Hdelta.
  set (delta := if Base.food base <? 20 then -2
                else if gt (Float q) (Int 8) then 1 else 0) in *.
  assert (Hd : -32 <= delta <= 32).
  { unfold delta. destruct (Base.food base <? 20); [lia|].
    destruct (gt (Float q) (Int 8)); lia. }
  destruct (add_small_total (morale l) delta Hd) as [morale1 Hm].
  exists (Float (fsub f (fmul pop lit_0_8))), morale1, delta.
  split; [reflexivity|]. split.
  { intros k Hk Hp. rewrite Hp in Hpop.
    rewrite (eaten_exact k pop Hk Hpop). reflexivity. }
  split; [reflexivity|]. split; [exact Hm|].
  split; [|split; [|split]].
  - intros He.
    destruct (randint_total 0 2 w1 ltac:(lia)) as (hit & Hhit & Hr).
    destruct (sub_small_total morale1 1 ltac:(lia)) as [morale2 Hm2].
    exists hit, morale2. repeat (split; [first [exact Hhit|lia|exact Hm2]|]).
    rewrite (day_walker_attack choice d l w w1 base _ _ morale1 delta
               event Hev Hb Heat Hfood Hdelta Hm hit _ morale2 He Hhit Hm2).
    rewrite (event_world w w1 event Hev). reflexivity.
  - intros He.
    destruct (randint_total 2 6 w1 ltac:(lia)) as (used & Hused & Hr).
    destruct (sub_small_total morale1 2 ltac:(lia)) as [morale2 Hm2].
    exists used, morale2. repeat (split; [first [exact Hused|lia|exact Hm2]|]).
    exact (day_illness_outbreak choice d l w w1 base _ _ morale1
             delta event Hev Hb Heat Hfood Hdelta Hm used _ morale2 He Hused
             Hm2).
  - intros He.
    destruct (randint_total 10 25 w1 ltac:(lia)) as (found & Hfound & Hr).
    destruct (add_small_total (Float (fsub f (fmul pop lit_0_8))) found
                ltac:(lia)) as [food2 Hf2].
    destruct (add_small_total morale1 2 ltac:(lia)) as [morale2 Hm2].
    exists found, food2, morale2.
    repeat (split; [first [exact Hfound|lia|exact Hf2|exact Hm2]|]).
    exact (day_successful_scavenging choice d l w w1 base _ _
             morale1 delta event Hev Hb Heat Hfood Hdelta Hm found _ food2
             morale2 He Hfound Hf2 Hm2).
  - intros He.
    exact (day_no_effect choice d l w w1 base _ _ morale1 delta
             event Hev Hb Heat Hfood Hdelta Hm He).
Qed.

Lemma daily_update_rule_witness :
  day "Prison" 0 prison_start eventful_world
  = Ok (mkLocals (Float (ratio 46 1)) 50 (Float (ratio 42 5))
          ["Day 1: Walker attack"],
        mkWorld (<["Prison" := Base.mk "Prison" 7 70 50 30]> BASES) SURVIVORS
          (Rng.mk (Rng.tape eventful_draws) 2)).
Proof.
  destruct (daily_update_rule "Prison" 0 prison_start eventful_world
              (advance eventful_world) Prison "Walker attack"
              (ratio 30 1) (ratio 70 1) (ratio 42 5))
    as (food1 & morale1 & delta & -> & Hfive & -> & Hm & Hwalker & _);
    [vm_compute; reflexivity ..|].
  destruct (Hwalker eq_refl) as (hit & morale2 & Hhit & _ & Hm2 & Hday).
  rewrite Hday.
  assert (hit = 2) as -> by (vm_compute in Hhit; congruence).
  assert (morale1 = Float (ratio 47 5)) as ->
    by (vm_compute in Hm; vm_compute; congruence).
  assert (morale2 = Float (ratio 42 5)) as ->
    by (vm_compute in Hm2; vm_compute; congruence).
  vm_compute. reflexivity.
Defined.

(** ** The seeding and the log *)

Lemma seed_sum (choice : string) (w : World) (base : Base.t)
    (q : spec_float) :
  bases w !! choice = Some base ->
  int_truediv (morale_sum (survivors w)) (Z.of_nat (length (survivors w)))
  = Ok q ->
  seed choice w
  = Ok (mkLocals (Int (Base.food base)) (Base.medicine base) (Float q) [],
        w).
Proof. intros Hb Hq. apply seed_Ok; [exact Hb|apply average_morale_sum, Hq]. Qed.

(** C5. For a base that exists, a roster whose morale sum divided by its
    length gives the float [q], and a population and food that convert to
    float, the script seeds the locals with (base.food, base.medicine, q)
    and an empty log; on a roster of at most 16 survivors with morale
    between -10 and 20, [q] is the exact average rounded once.  The loop
    over [days] days then completes, for every random source, with exactly
    [days] log lines; line [d] (counting from 1) is "Day d: event" for the
    event sampled on that day.  For 0 days the locals are the seeded ones
    and the world is untouched. *)
Theorem loop_log_entries (choice : string) (days : nat) (w : World)
    (base : Base.t) (q pop x : spec_float) :
  bases w !! choice = Some base ->
  int_truediv (morale_sum (survivors w)) (Z.of_nat (length (survivors w)))
  = Ok q ->
  float_of_int (Base.population base) = Ok pop ->
  float_of_int (Base.food base) = Ok x ->
  exists (l0 l : Locals) (w' : World),
    seed choice w = Ok (l0, w) /\
    l0 = mkLocals (Int (Base.food base)) (Base.medicine base) (Float q) [] /\
    ((length (survivors w) <= 16)%nat ->
     Forall (fun s => -10 <= Survivor.morale s <= 20) (survivors w) ->
     is_average q (morale_sum (survivors w))
       (Z.of_nat (length (survivors w))) = true) /\
    day_loop choice 0 days l0 w = Ok (l, w') /\
    length (log l) = days /\
    (forall d, (d < days)%nat ->
       exists (ld : Locals) (wd : World) (event : string),
         day_loop choice 0 d l0 w = Ok (ld, wd) /\
         random_event wd = Ok (event, advance wd) /\
         log l !! d
         = Some ("Day " +:+ str_of_nat (d + 1) +:+ ": " +:+ event)) /\
    (days = 0%nat -> l = l0 /\ w' = w).
Proof.
  intros Hb Hq Hpop Hx.
  set (l0 := mkLocals (Int (Base.food base)) (Base.medicine base) (Float q)
               []).
  pose proof (daily_food_consumption_pop _ _ Hpop) as Heat.
  pose proof (morale_change_sum base _ _ Hq) as Hdelta.
  destruct (day_loop_total choice days 0 l0 w base _ _ x Hb Heat
              Hdelta Hx) as (l & w' & Hloop).
  destruct (day_loop_log _ _ _ _ _ _ Hloop) as (Hlen & Hlines).
  exists l0, l, w'.
  split; [apply seed_sum; assumption|]. split; [reflexivity|].
  split; [intros Hn Hall; apply (average_morale_exact _ _ Hn Hall Hq)|].
  split; [exact Hloop|]. split; [exact Hlen|]. split; [exact Hlines|].
  intros ->. apply mret_Ok in Hloop as [-> ->]. auto.
Qed.

Lemma loop_log_entries_witness :
  exists (l : Locals) (w' : World),
    seed "Prison" eventful_world
    = Ok (mkLocals (Int 70) 50 (Float (ratio 42 5)) [], eventful_world) /\
    day_loop "Prison" 0 3 prison_start eventful_world = Ok (l, w') /\
    log l = ["Day 1: Walker attack"; "Day 2: Illness outbreak";
             "Day 3: Successful scavenging"].
Proof.
  destruct (loop_log_entries "Prison" 3 eventful_world Prison
              (ratio 42 5) (ratio 30 1) (ratio 70 1))
    as (l0 & l & w' & Hseed & -> & _ & Hloop & _);
    [vm_compute; reflexivity ..|].
  exists l, w'. split; [exact Hseed|]. split; [exact Hloop|].
  vm_compute in Hloop. injection Hloop as <- _. reflexivity.
Defined.

(** ** The morale delta *)

(** A completed loop ran each of its days. *)
Lemma day_loop_day (choice : string) (days start : nat) (l l' : Locals)
    (w w' : World) (k : nat) :
  day_loop choice start days l w = Ok (l', w') ->
  (k < days)%nat ->
  exists (lk lk1 : Locals) (wk wk1 : World),
    day_loop choice start k l w = Ok (lk, wk) /\
    day choice (start + k) lk wk = Ok (lk1, wk1).
Proof.
  intros H Hk.
  destruct (day_loop_prefix _ _ _ _ _ _ _ (S k) H ltac:(lia))
    as (lk1 & wk1 & H1).
  rewrite day_loop_snoc in H1. apply bind_Ok in H1 as (lk & wk & Hloop & Hday).
  exists lk, lk1, wk, wk1. auto.
Qed.

(** C4. The morale delta is -2 when the food field of the selected base is
    below 20, else +1 when the quotient of the morale sum of the roster by
    its length is above 8 (on a roster of at most 16 survivors with morale
    between -10 and 20: exactly when the sum exceeds 8 times the length),
    else 0.  It is computed from the base and the roster, not from the
    locals: in the state reached after any number of days of a completed
    run the rule gives this same value, and it is the value each day of
    the run adds to the local morale before the event applies. *)
Theorem morale_delta_constant (choice : string) (start days : nat)
    (l l' : Locals) (w w' : World) (base : Base.t) (q : spec_float) :
  bases w !! choice = Some base ->
  int_truediv (morale_sum (survivors w)) (Z.of_nat (length (survivors w)))
  = Ok q ->
  day_loop choice start days l w = Ok (l', w') ->
  exists delta : Z,
    delta = (if Base.food base <? 20 then -2
             else if gt (Float q) (Int 8) then 1 else 0) /\
    ((length (survivors w) <= 16)%nat ->
     Forall (fun s => -10 <= Survivor.morale s <= 20) (survivors w) ->
     delta = (if Base.food base <? 20 then -2
              else if 8 * Z.of_nat (length (survivors w))
                      <? morale_sum (survivors w) then 1
              else 0)) /\
    morale_change base (survivors w) = Ok delta /\
    (forall k, (k <= days)%nat ->
       exists (lk : Locals) (wk : World) (bk : Base.t),
         day_loop choice start k l w = Ok (lk, wk) /\
         bases wk !! choice = Some bk /\
         Base.food bk = Base.food base /\
         survivors wk = survivors w /\
         morale_change bk (survivors wk) = Ok delta) /\
    (forall k, (k < days)%nat ->
       exists (lk lk1 : Locals) (wk wk1 : World) (morale1 : num),
         day_loop choice start k l w = Ok (lk, wk) /\
         day choice (start + k) lk wk = Ok (lk1, wk1) /\
         add (morale lk) (Int delta) = Ok morale1 /\
         (morale lk1 = morale1 \/
          sub morale1 (Int 1) = Ok (morale lk1) \/
          sub morale1 (Int 2) = Ok (morale lk1) \/
          add morale1 (Int 2) = Ok (morale lk1))).
Proof.
  intros Hb Hq H.
  pose proof (morale_change_sum base _ _ Hq) as Hdelta.
  assert (Hat : forall k lk wk,
            day_loop choice start k l w = Ok (lk, wk) ->
            exists bk, bases wk !! choice = Some bk /\
                       Base.food bk = Base.food base /\
                       survivors wk = survivors w /\
                       morale_change bk (survivors wk)
                       = morale_change base (survivors w)).
  { intros k lk wk Hloop.
    destruct (day_loop_base _ _ _ _ _ _ _ Hloop) as (Hs & _ & Hsel & _).
    destruct (Hsel base Hb) as (hits & _ & Hbk).
    eexists. split; [exact Hbk|]. split; [reflexivity|].
    split; [exact Hs|]. rewrite Hs. apply morale_change_food. reflexivity. }
  eexists. split; [reflexivity|]. split.
  { intros Hn Hall.
    destruct (average_morale_exact _ _ Hn Hall Hq) as [_ ->]. reflexivity. }
  split; [exact Hdelta|]. split.
  - intros k Hk.
    destruct (day_loop_prefix _ _ _ _ _ _ _ k H Hk) as (lk & wk & Hloop).
    destruct (Hat k lk wk Hloop) as (bk & Hbk & Hfood & Hs & Hmc).
    exists lk, wk, bk. rewrite Hmc. auto.
  - intros k Hk.
    destruct (day_loop_day _ _ _ _ _ _ _ k H Hk)
      as (lk & lk1 & wk & wk1 & Hloop & Hday).
    destruct (Hat k lk wk Hloop) as (bk & Hbk & _ & _ & Hmc).
    destruct (day_inv _ _ _ _ _ _ Hday)
      as (event & b & eaten & food1 & morale1 & delta & _ & Hb' & _ & _
          & Hd & Hm & _ & Hcase).
    assert (b = bk) as -> by congruence.
    rewrite Hmc, Hdelta in Hd. injection Hd as <-.
    exists lk, lk1, wk, wk1, morale1.
    split; [exact Hloop|]. split; [exact Hday|]. split; [exact Hm|].
    destruct Hcase as [(_ & ? & _ & _ & _ & _ & _ & Hm2)
                      |[(_ & ? & _ & _ & _ & _ & _ & Hm2)
                      |[(_ & ? & _ & _ & _ & _ & _ & Hm2)
                      |(_ & _ & _ & _ & Hm2)]]]; auto.
Qed.

Lemma morale_delta_constant_witness :
  exists (l' : Locals) (w' : World) (b' : Base.t),
    day_loop "Prison" 0 3 prison_start eventful_world = Ok (l', w') /\
    bases w' !! "Prison" = Some b' /\
    morale_change Prison SURVIVORS = Ok 1 /\
    morale_change b' (survivors w') = Ok 1.
Proof.
  destruct (day_loop "Prison" 0 3 prison_start eventful_world)
    as [[l' w']|e] eqn:E; [|vm_compute in E; discriminate].
  destruct (morale_delta_constant "Prison" 0 3 prison_start l'
              eventful_world w' Prison (ratio 42 5) eq_refl eq_refl E)
    as (delta & _ & Hexact & H0 & Hall & _).
  assert (delta = 1) as ->.
  { rewrite Hexact; [reflexivity|cbn; lia|].
    repeat constructor; cbn; lia. }
  destruct (Hall 3%nat ltac:(lia)) as (lk & wk & bk & Hk & Hbk & _ & _ & Hmc).
  rewrite E in Hk. injection Hk as <- <-.
  exists l', w', bk. auto.
Defined.

(** ** The derived metrics on all attribute values *)

(** *** The formulas for all attribute values *)

Lemma mul_float_r (a : num) (x y : spec_float) :
  to_float a = Ok x -> mul a (Float y) = Ok (Float (fmul x y)).
Proof.
  destruct a as [n|x']; cbn; intros H.
  - rewrite H. reflexivity.
  - injection H as ->. reflexivity.
Qed.

Lemma add_float (a b : num) (x y : spec_float) :
  is_int a && is_int b = false ->
  to_float a = Ok x -> to_float b = Ok y ->
  add a b = Ok (Float (fadd x y)).
Proof.
  destruct a as [m|x'], b as [n|y']; cbn; intros Hk Hx Hy;
    try discriminate Hk; rewrite ?Hx, ?Hy; cbn;
    repeat match goal with H : Ok _ = Ok _ |- _ => injection H as -> end;
    reflexivity.
Qed.

Lemma combat_power_at_formula (a c m : num) (x y z : spec_float) :
  to_float a = Ok x -> to_float c = Ok y -> to_float m = Ok z ->
  combat_power_at a c m
  = Ok (Float (float_round
                 (fadd (fadd (fmul x lit_0_5) (fmul y lit_0_3))
                       (fmul z lit_0_2)) 2)).
Proof.
  intros Hx Hy Hz. unfold combat_power_at.
  rewrite (mul_float_r _ _ _ Hx), (mul_float_r _ _ _ Hy),
    (mul_float_r _ _ _ Hz).
  reflexivity.
Qed.

Lemma halved_int_formula (i c : Z) (q : spec_float) :
  int_truediv (i + c) 2 = Ok q ->
  efficiency_at (Int i) (Int c) = Ok (Float (float_round q 2)) /\
  safety_score_at (Int i) (Int c) = Ok (Float (float_round q 2)).
Proof.
  intros Hq.
  unfold efficiency_at, safety_score_at, add, truediv, mbind, res_mbind,
    res_bind.
  cbv beta iota. rewrite Hq. auto.
Qed.

Lemma halved_float_formula (a c : num) (x y : spec_float) :
  is_int a && is_int c = false ->
  to_float a = Ok x -> to_float c = Ok y ->
  efficiency_at a c
  = Ok (Float (float_round (fdiv (fadd x y) (nearest_int 2)) 2)) /\
  safety_score_at a c
  = Ok (Float (float_round (fdiv (fadd x y) (nearest_int 2)) 2)).
Proof.
  intros Hk Hx Hy. unfold efficiency_at, safety_score_at.
  rewrite (add_float _ _ _ _ Hk Hx Hy). split; reflexivity.
Qed.

Lemma risk_at_int_formula (a : num) (speed : Z) (x y : spec_float) :
  to_float a = Ok x -> float_of_int (10 - speed) = Ok y ->
  risk_at a (Int speed)
  = Ok (Float (float_round (fadd (fmul x lit_0_6) (fmul y lit_0_4)) 2)).
Proof.
  intros Hx Hy. unfold risk_at. rewrite (mul_float_r _ _ _ Hx).
  cbn. rewrite Hy. reflexivity.
Qed.

Lemma risk_at_float_formula (a : num) (v x : spec_float) :
  to_float a = Ok x ->
  risk_at a (Float v)
  = Ok (Float (float_round
                 (fadd (fmul x lit_0_6)
                       (fmul (fsub (nearest_int 10) v) lit_0_4)) 2)).
Proof.
  intros Hx. unfold risk_at. rewrite (mul_float_r _ _ _ Hx). reflexivity.
Qed.

(** *** Exact values on halves *)

Lemma combat_power_half_box :
  all3 combat_power_half_ok (Zrange 10 11) = true.
Proof. vm_compute. reflexivity. Qed.

Lemma efficiency_half_box : all2 efficiency_half_ok (Zrange (-10) 41) = true.
Proof. vm_compute. reflexivity. Qed.

Lemma safety_score_half_box :
  all2 safety_score_half_ok (Zrange (-10) 41) = true.
Proof. vm_compute. reflexivity. Qed.

Lemma risk_half_box : all2 risk_half_ok (Zrange (-10) 41) = true.
Proof. vm_compute. reflexivity. Qed.

Lemma combat_power_half_agrees (strength stamina morale : Z) :
  10 <= strength <= 20 -> 10 <= stamina <= 20 -> 10 <= morale <= 20 ->
  agrees (combat_power_at (half strength) (half stamina) (half morale))
         (5 * strength + 3 * stamina + 2 * morale, 20) = true.
Proof.
  intros Ha Hc Hm.
  exact (all3_Zrange combat_power_half_ok 10 11 combat_power_half_box
           strength stamina morale ltac:(lia) ltac:(lia) ltac:(lia)).
Qed.

Lemma efficiency_half_agrees (intelligence stamina : Z) :
  -10 <= intelligence <= 30 -> -10 <= stamina <= 30 ->
  agrees (efficiency_at (half intelligence) (half stamina))
         (intelligence + stamina, 4) = true.
Proof.
  intros Hi Hc.
  exact (all2_Zrange efficiency_half_ok (-10) 41 efficiency_half_box
           intelligence stamina ltac:(lia) ltac:(lia)).
Qed.

Lemma safety_score_half_agrees (defense population : Z) :
  -10 <= defense <= 30 -> -10 <= population <= 30 ->
  agrees (safety_score_at (half defense) (half population))
         (defense + population, 4) = true.
Proof.
  intros Hd Hp.
  exact (all2_Zrange safety_score_half_ok (-10) 41 safety_score_half_box
           defense population ltac:(lia) ltac:(lia)).
Qed.

Lemma risk_half_agrees (noise speed : Z) :
  -10 <= noise <= 30 -> -10 <= speed <= 30 ->
  agrees (risk_at (half noise) (half speed))
         (6 * noise + 4 * (20 - speed), 20) = true.
Proof.
  intros Hn Hs.
  exact (all2_Zrange risk_half_ok (-10) 41 risk_half_box
           noise speed ltac:(lia) ltac:(lia)).
Qed.

(** C6. The four derived metrics are the stated formulas, rounded to two
    decimals, with no clamping.

    The methods evaluate the formulas at the attributes of their object.
    For all attribute values, ints or floats, the result is the formula
    evaluated in binary64 arithmetic and passed through [round(., 2)]; a
    finite float [m * 2^e] is rounded to the float nearest to [k / 100],
    where [k / 100] is the multiple of 1/100 nearest to it and ties go to
    the even [k].

    For int attributes between -10 and 20 (defense and population: up to
    60), and for attributes that are halves between -5 and 15 (combat
    power: between 5 and 10), the result equals the float nearest to the
    exact value of the formula:
    strength * 0.5 + stamina * 0.3 + morale * 0.2,
    (intelligence + stamina) / 2, (defense + population) / 2 and
    noise * 0.6 + (10 - speed) * 0.4. *)
Theorem derived_metrics (s : Survivor.t) (b : Base.t) (t : Transport.t) :
  (Survivor.combat_power s
   = combat_power_at (Int (Survivor.strength s)) (Int (Survivor.stamina s))
       (Int (Survivor.morale s)) /\
   Survivor.efficiency s
   = efficiency_at (Int (Survivor.intelligence s))
       (Int (Survivor.stamina s)) /\
   Base.safety_score b
   = safety_score_at (Int (Base.defense b)) (Int (Base.population b)) /\
   Transport.risk t
   = risk_at (Int (Transport.noise t)) (Int (Transport.speed t))) /\
  (forall (a c m : num) (x y z : spec_float),
     to_float a = Ok x -> to_float c = Ok y -> to_float m = Ok z ->
     combat_power_at a c m
     = Ok (Float (float_round
                    (fadd (fadd (fmul x lit_0_5) (fmul y lit_0_3))
                          (fmul z lit_0_2)) 2))) /\
  (forall (i c : Z) (q : spec_float),
     int_truediv (i + c) 2 = Ok q ->
     efficiency_at (Int i) (Int c) = Ok (Float (float_round q 2)) /\
     safety_score_at (Int i) (Int c) = Ok (Float (float_round q 2))) /\
  (forall (a c : num) (x y : spec_float),
     is_int a && is_int c = false ->
     to_float a = Ok x -> to_float c = Ok y ->
     efficiency_at a c
     = Ok (Float (float_round (fdiv (fadd x y) (nearest_int 2)) 2)) /\
     safety_score_at a c
     = Ok (Float (float_round (fdiv (fadd x y) (nearest_int 2)) 2))) /\
  (forall (a : num) (speed : Z) (x y : spec_float),
     to_float a = Ok x -> float_of_int (10 - speed) = Ok y ->
     risk_at a (Int speed)
     = Ok (Float (float_round (fadd (fmul x lit_0_6) (fmul y lit_0_4)) 2))) /\
  (forall (a : num) (v x : spec_float),
     to_float a = Ok x ->
     risk_at a (Float v)
     = Ok (Float (float_round
                    (fadd (fmul x lit_0_6)
                          (fmul (fsub (nearest_int 10) v) lit_0_4)) 2))) /\
  (forall (sign : bool) (m : positive) (e : Z),
     exists k : Z,
       0 <= k /\ nearest_hundredth m e k /\
       float_round (S754_finite sign m e) 2
       = if k =? 0 then S754_zero sign
         else ratio (if sign then - k else k) 100) /\
  (-10 <= Survivor.strength s <= 20 ->
   -10 <= Survivor.stamina s <= 20 ->
   -10 <= Survivor.morale s <= 20 ->
   exists v,
     Survivor.combat_power s = Ok (Float v) /\
     float_eq v (ratio (5 * Survivor.strength s + 3 * Survivor.stamina s
                        + 2 * Survivor.morale s) 10) = true) /\
  (-10 <= Survivor.intelligence s <= 20 ->
   -10 <= Survivor.stamina s <= 20 ->
   exists v,
     Survivor.efficiency s = Ok (Float v) /\
     float_eq v (ratio (Survivor.intelligence s + Survivor.stamina s) 2)
     = true) /\
  (-10 <= Base.defense b <= 60 ->
   -10 <= Base.population b <= 60 ->
   exists v,
     Base.safety_score b = Ok (Float v) /\
     float_eq v (ratio (Base.defense b + Base.population b) 2) = true) /\
  (-10 <= Transport.noise t <= 20 ->
   -10 <= Transport.speed t <= 20 ->
   exists v,
     Transport.risk t = Ok (Float v) /\
     float_eq v (ratio (6 * Transport.noise t
                        + 4 * (10 - Transport.speed t)) 10) = true) /\
  (forall strength stamina morale : Z,
     10 <= strength <= 20 -> 10 <= stamina <= 20 ->
     10 <= morale <= 20 ->
     exists v,
       combat_power_at (half strength) (half stamina) (half morale)
       = Ok (Float v) /\
       float_eq v (ratio (5 * strength + 3 * stamina + 2 * morale) 20)
       = true) /\
  (forall intelligence stamina : Z,
     -10 <= intelligence <= 30 -> -10 <= stamina <= 30 ->
     exists v,
       efficiency_at (half intelligence) (half stamina) = Ok (Float v) /\
       float_eq v (ratio (intelligence + stamina) 4) = true) /\
  (forall defense population : Z,
     -10 <= defense <= 30 -> -10 <= population <= 30 ->
     exists v,
       safety_score_at (half defense) (half population) = Ok (Float v) /\
       float_eq v (ratio (defense + population) 4) = true) /\
  (forall noise speed : Z,
     -10 <= noise <= 30 -> -10 <= speed <= 30 ->
     exists v,
       risk_at (half noise) (half speed) = Ok (Float v) /\
       float_eq v (ratio (6 * noise + 4 * (20 - speed)) 20) = true).
Proof.
  split; [repeat split|].
  split; [exact combat_power_at_formula|].
  split; [exact halved_int_formula|].
  split; [exact halved_float_formula|].
  split; [exact risk_at_int_formula|].
  split; [exact risk_at_float_formula|].
  split; [exact float_round_hundredth|].
  split; [intros Ha Hc Hd;
          exact (agrees_Ok _ _ (combat_power_agrees s Ha Hc Hd))|].
  split; [intros Hb Hc; exact (agrees_Ok _ _ (efficiency_agrees s Hb Hc))|].
  split; [intros Hd Hp; exact (agrees_Ok _ _ (safety_score_agrees b Hd Hp))|].
  split; [intros Hn Hs; exact (agrees_Ok _ _ (risk_agrees t Hn Hs))|].
  split; [intros a c m Ha Hc Hm;
          exact (agrees_Ok _ _ (combat_power_half_agrees a c m Ha Hc Hm))|].
  split; [intros i c Hi Hc;
          exact (agrees_Ok _ _ (efficiency_half_agrees i c Hi Hc))|].
  split; [intros d p Hd Hp;
          exact (agrees_Ok _ _ (safety_score_half_agrees d p Hd Hp))|].
  intros n sp Hn Hs. exact (agrees_Ok _ _ (risk_half_agrees n sp Hn Hs)).
Qed.

(** The example of the specification: strength 9, stamina 8, morale 9
    gives 8.7.  With strength 0.25 alone the sum is exactly 0.125, halfway
    between 0.12 and 0.13: the result is 0.12. *)
Lemma derived_metrics_witness :
  (exists v,
     Survivor.combat_power (Survivor.init "Rick" 9 7 8 9 "Leader")
     = Ok (Float v) /\
     float_eq v (ratio 87 10) = true) /\
  combat_power_at (Float (ratio 1 4)) (Int 0) (Int 0)
  = Ok (Float (ratio 12 100)).
Proof.
  destruct (derived_metrics (Survivor.init "Rick" 9 7 8 9 "Leader") Prison
              Transport.Car) as (_ & Hall & _ & _ & _ & _ & _ & H & _).
  split; [apply H; cbn; lia|].
  rewrite (Hall (Float (ratio 1 4)) (Int 0) (Int 0) (ratio 1 4)
             (nearest_int 0) (nearest_int 0) eq_refl eq_refl eq_refl).
  vm_compute. reflexivity.
Defined.

(** * Further properties of the engine *)

(** ** Which exceptions the script can raise *)

Lemma bind_Raise {A B : Type} (f : A -> M B) (m : M A) (w : World) (e : exn) :
  (m ≫= f) w = Raise e <->
  m w = Raise e \/ exists a w1, m w = Ok (a, w1) /\ f a w1 = Raise e.
Proof.
  unfold mbind, M_bind. destruct (m w) as [[a w1]|e1]; split.
  - intros H. right. exists a, w1. auto.
  - intros [H|(a' & w1' & [= <- <-] & H)]; [discriminate|exact H].
  - intros H. left. congruence.
  - intros [H|(a' & w1' & H & _)]; [congruence|discriminate].
Qed.

Lemma lift_Raise {A : Type} (r : res A) (w : World) (e : exn) :
  lift r w = Raise e <-> r = Raise e.
Proof.
  unfold lift. destruct r as [a|e1]; split; intros H;
    try discriminate; congruence.
Qed.

Lemma float_of_int_Raise (n : Z) (e : exn) :
  float_of_int n = Raise e -> e = OverflowError.
Proof.
  unfold float_of_int. destruct (is_infinite (nearest_int n)); congruence.
Qed.

Lemma to_float_Raise (a : num) (e : exn) :
  to_float a = Raise e -> e = OverflowError.
Proof. destruct a; cbn; [apply float_of_int_Raise|discriminate]. Qed.

(** Addition, subtraction and multiplication raise OverflowError only. *)
Lemma arith_Raise (op : spec_float -> spec_float -> spec_float) (a b : num)
    (e : exn) :
  (x ← to_float a; y ← to_float b; Ok (Float (op x y))) = Raise e ->
  e = OverflowError.
Proof.
  destruct (to_float a) as [x|e1] eqn:Ea; cbn.
  - destruct (to_float b) as [y|e2] eqn:Eb; cbn; [discriminate|].
    intros [= <-]. exact (to_float_Raise _ _ Eb).
  - intros [= <-]. exact (to_float_Raise _ _ Ea).
Qed.

Lemma add_Raise (a b : num) (e : exn) : add a b = Raise e -> e = OverflowError.
Proof.
  destruct a as [m|x], b as [n|y]; try apply (arith_Raise fadd).
  discriminate.
Qed.

Lemma sub_Raise (a b : num) (e : exn) : sub a b = Raise e -> e = OverflowError.
Proof.
  destruct a as [m|x], b as [n|y]; try apply (arith_Raise fsub).
  discriminate.
Qed.

Lemma mul_Raise (a b : num) (e : exn) : mul a b = Raise e -> e = OverflowError.
Proof.
  destruct a as [m|x], b as [n|y]; try apply (arith_Raise fmul).
  discriminate.
Qed.

(** The average raises ZeroDivisionError on the empty roster, and on a
    non-empty one it can raise OverflowError only. *)
Lemma average_morale_empty : average_morale [] = Raise ZeroDivisionError.
Proof. reflexivity. Qed.

Lemma average_morale_Raise (roster : list Survivor.t) (e : exn) :
  average_morale roster = Raise e ->
  (e = ZeroDivisionError /\ roster = []) \/
  (e = OverflowError /\ roster <> []).
Proof.
  destruct roster as [|s roster]; [cbn; intros [= <-]; auto|].
  unfold average_morale, truediv, int_truediv.
  destruct (Z.eqb_spec (Z.of_nat (length (s :: roster))) 0) as [H0|_];
    [cbn in H0; lia|].
  intros H. right. split; [|discriminate].
  destruct (fold_left Z.add (map Survivor.morale (s :: roster)) 0);
    cbn in H; try discriminate;
    match type of H with
    | context [is_infinite ?x] => destruct (is_infinite x)
    end; cbn in H; congruence.
Qed.

Lemma morale_change_Raise (base : Base.t) (roster : list Survivor.t)
    (e : exn) :
  morale_change base roster = Raise e <-> average_morale roster = Raise e.
Proof.
  unfold morale_change. destruct (average_morale roster) as [avg|e1]; cbn.
  - destruct (Base.food base <? 20); [|destruct (gt avg (Int 8))];
      split; discriminate.
  - split; congruence.
Qed.

Lemma bind_raise_step {A B : Type} (f : A -> M B) (m : M A) (w : World)
    (e : exn) :
  m w = Raise e -> (m ≫= f) w = Raise e.
Proof. intros H. apply bind_Raise. left. exact H. Qed.

Lemma lift_raise_step {A : Type} (r : res A) (w : World) (e : exn) :
  r = Raise e -> lift r w = Raise e.
Proof. intros ->. reflexivity. Qed.

(** A day on an existing base fails with OverflowError, or with
    ZeroDivisionError when the roster is empty. *)
Lemma day_Raise (choice : string) (d : nat) (l : Locals) (w : World)
    (b : Base.t) (e : exn) :
  bases w !! choice = Some b ->
  day choice d l w = Raise e ->
  e = OverflowError \/ (e = ZeroDivisionError /\ survivors w = []).
Proof.
  intros Hb H.
  destruct (random_event_total w) as [event Hev].
  assert (Hb1 : read_base choice (advance w) = Ok (b, advance w))
    by (apply read_base_step; exact Hb).
  destruct (daily_food_consumption (Base.population b)) as [eaten|e1]
    eqn:Heat.
  2:{ unfold day in H. rewrite (bind_step _ _ _ _ _ Hev) in H.
      rewrite (bind_step _ _ _ _ _ Hb1) in H.
      rewrite (bind_raise_step _ _ _ _ (lift_raise_step _ _ _ Heat)) in H.
      injection H as <-. left. exact (mul_Raise _ _ _ Heat). }
  destruct (sub (food l) eaten) as [food1|e1] eqn:Hfood.
  2:{ unfold day in H. rewrite (bind_step _ _ _ _ _ Hev) in H.
      rewrite (bind_step _ _ _ _ _ Hb1) in H.
      rewrite (bind_step _ _ _ _ _ (lift_step _ _ _ Heat)) in H.
      rewrite (bind_raise_step _ _ _ _ (lift_raise_step _ _ _ Hfood)) in H.
      injection H as <-. left. exact (sub_Raise _ _ _ Hfood). }
  destruct (morale_change b (survivors w)) as [delta|e1] eqn:Hdelta.
  - destruct (day_total choice d l w b eaten food1 delta Hb Heat Hfood Hdelta)
      as (l' & w' & Hday).
    congruence.
  - unfold day in H. rewrite (bind_step _ _ _ _ _ Hev) in H.
    rewrite (bind_step _ _ _ _ _ Hb1) in H.
    rewrite (bind_step _ _ _ _ _ (lift_step _ _ _ Heat)) in H.
    rewrite (bind_step _ _ _ _ _ (lift_step _ _ _ Hfood)) in H.
    rewrite (bind_step _ (gets survivors) (advance w) (advance w)
               (survivors w) eq_refl) in H.
    rewrite (bind_raise_step _ _ _ _ (lift_raise_step _ _ _ Hdelta)) in H.
    injection H as <-.
    apply morale_change_Raise, average_morale_Raise in Hdelta.
    destruct Hdelta as [[-> ->]|[-> _]]; auto.
Qed.

Lemma day_loop_Raise (choice : string) (days start : nat) (l : Locals)
    (w : World) (b : Base.t) (e : exn) :
  bases w !! choice = Some b ->
  day_loop choice start days l w = Raise e ->
  e = OverflowError \/ (e = ZeroDivisionError /\ survivors w = []).
Proof.
  revert start l w b. induction days as [|days IH]; intros start l w b Hb H.
  - discriminate.
  - cbn [day_loop] in H. apply bind_Raise in H as [H|(l1 & w1 & Hday & H)].
    + exact (day_Raise _ _ _ _ _ _ Hb H).
    + destruct (day_frame _ _ _ _ _ _ Hday)
        as (Hs & _ & b0 & b1 & hit & _ & Hb1 & _).
      rewrite <- Hs. exact (IH _ _ _ _ Hb1 H).
Qed.

Lemma simulation_missing_key (choice : string) (days : nat) (w : World) :
  bases w !! choice = None -> simulation choice days w = Raise KeyError.
Proof.
  intros Hnone. unfold simulation, seed.
  apply bind_raise_step, bind_raise_step. unfold read_base.
  rewrite Hnone. reflexivity.
Qed.

(** X1. The exceptions of the script, for any world: a missing base key
    gives KeyError; an existing key with an empty roster gives
    ZeroDivisionError; with a non-empty roster the only exception left is
    OverflowError (ints too large for a float).  KeyError and
    ZeroDivisionError arise in no other way, and ValueError never. *)
Theorem simulation_exceptions (choice : string) (days : nat) (w : World) :
  (bases w !! choice = None ->
   simulation choice days w = Raise KeyError) /\
  (is_Some (bases w !! choice) -> survivors w = [] ->
   simulation choice days w = Raise ZeroDivisionError) /\
  (is_Some (bases w !! choice) -> survivors w <> [] ->
   forall e, simulation choice days w = Raise e -> e = OverflowError).
Proof.
  split; [|split].
  - apply simulation_missing_key.
  - intros [b Hb] Hs. unfold simulation, seed.
    apply bind_raise_step.
    step_by (read_base_step choice w b Hb).
    rewrite (bind_step _ (gets survivors) w w (survivors w) eq_refl).
    apply bind_raise_step, lift_raise_step. rewrite Hs. reflexivity.
  - intros [b Hb] Hs e H. unfold simulation in H.
    apply bind_Raise in H as [H|(l0 & w0 & Hseed & H)].
    + unfold seed in H. rewrite (bind_step _ _ _ _ _
        (read_base_step choice w b Hb)) in H.
      rewrite (bind_step _ (gets survivors) w w (survivors w) eq_refl) in H.
      apply bind_Raise in H as [H|(a & w1 & _ & H)]; [|discriminate].
      apply lift_Raise, average_morale_Raise in H.
      destruct H as [[_ H]|[H _]]; [contradiction|exact H].
    + assert (w0 = w) as ->.
      { unfold seed in Hseed. run_inv Hseed.
        apply read_base_Ok in E as [_ ->]. injection E0 as _ <-.
        apply lift_Ok in E1 as [_ ->]. apply mret_Ok in Hseed as [_ ->].
        reflexivity. }
      apply bind_Raise in H as [H|(l1 & w1 & Hloop & H)].
      * destruct (day_loop_Raise _ _ _ _ _ _ _ Hb H) as [He|[_ He]];
          [exact He|contradiction].
      * destruct (day_loop_base _ _ _ _ _ _ _ Hloop) as (_ & _ & Hsel & _).
        destruct (Hsel b Hb) as (hits & _ & Hb').
        unfold results in H.
        rewrite (bind_step _ _ _ _ _ (read_base_step choice w1 _ Hb')) in H.
        discriminate.
Qed.

Lemma simulation_exceptions_witness :
  simulation "Woodbury" 3 eventful_world = Raise KeyError /\
  simulation "Prison" 3 deserted_world = Raise ZeroDivisionError /\
  forall e, simulation "Prison" 3 eventful_world = Raise e ->
            e = OverflowError.
Proof.
  split; [|split].
  - apply (simulation_exceptions "Woodbury" 3 eventful_world). reflexivity.
  - apply (simulation_exceptions "Prison" 3 deserted_world);
      [exists Prison|]; reflexivity.
  - apply (simulation_exceptions "Prison" 3 eventful_world);
      [exists Prison; reflexivity|discriminate].
Defined.

(** ** Completed runs *)

Lemma simulation_completes (choice : string) (days : nat) (w : World)
    (base : Base.t) (avg eaten : num) (x : spec_float) :
  bases w !! choice = Some base ->
  average_morale (survivors w) = Ok avg ->
  daily_food_consumption (Base.population base) = Ok eaten ->
  float_of_int (Base.food base) = Ok x ->
  exists r w',
    simulation choice days w = Ok (r, w') /\
    length (event_log r) = days.
Proof.
  intros Hb Havg Heat Hx.
  set (l0 := mkLocals (Int (Base.food base)) (Base.medicine base) avg []).
  assert (Hdelta : exists delta, morale_change base (survivors w) = Ok delta)
    by (eexists; apply morale_change_Ok, Havg).
  destruct Hdelta as [delta Hdelta].
  destruct (day_loop_total choice days 0 l0 w base eaten delta x Hb Heat
              Hdelta Hx) as (l & w' & Hloop).
  destruct (day_loop_log _ _ _ _ _ _ Hloop) as (Hlen & _).
  destruct (day_loop_base _ _ _ _ _ _ _ Hloop) as (_ & _ & Hsel & _).
  destruct (Hsel base Hb) as (hits & _ & Hb').
  eexists _, w'. split.
  - unfold simulation. step_by (seed_Ok choice w base avg Hb Havg).
    step_by Hloop. unfold results.
    step_by (read_base_step choice w' _ Hb'). reflexivity.
  - exact Hlen.
Qed.

(** ** Random draws consumed *)

Lemma day_draws (choice : string) (d : nat) (l l' : Locals) (w w' : World) :
  day choice d l w = Ok (l', w') ->
  exists event,
    random_event w = Ok (event, advance w) /\
    Rng.tape (rng w') = Rng.tape (rng w) /\
    Rng.pos (rng w')
    = (if String.eqb event "Internal conflict" || String.eqb event "Quiet day"
       then Rng.pos (rng w) + 1 else Rng.pos (rng w) + 2)%nat.
Proof.
  intros H.
  destruct (day_inv _ _ _ _ _ _ H)
    as (event & base & eaten & food1 & morale1 & delta & Hev & _ & _ & _ & _
        & _ & _ & Hcase).
  exists event. split; [exact Hev|].
  destruct Hcase as [(-> & hit & _ & _ & -> & _)
                    |[(-> & used & _ & _ & -> & _)
                    |[(-> & found & _ & _ & -> & _)
                    |([-> | ->] & -> & _)]]];
    cbn; split; try reflexivity; lia.
Qed.

(** X3. A completed day consumes one random draw when its event is
    Internal conflict or Quiet day and two otherwise, so a completed loop
    of [days] days moves the cursor of the generator by between [days] and
    [2 * days] draws; the sequence of the generator itself is not
    changed. *)
Theorem draws_consumed (choice : string) (start days : nat) (l l' : Locals)
    (w w' : World) :
  day_loop choice start days l w = Ok (l', w') ->
  Rng.tape (rng w') = Rng.tape (rng w) /\
  (Rng.pos (rng w) + days <= Rng.pos (rng w') <= Rng.pos (rng w) + 2 * days)%nat
  /\
  (days = 1%nat ->
   exists event,
     random_event w = Ok (event, advance w) /\
     Rng.pos (rng w')
     = (if String.eqb event "Internal conflict"
           || String.eqb event "Quiet day"
        then Rng.pos (rng w) + 1 else Rng.pos (rng w) + 2)%nat).
Proof.
  intros H. split; [|split].
  - revert start l w H. induction days as [|days IH]; intros start l w H.
    + apply mret_Ok in H as [_ ->]. reflexivity.
    + cbn [day_loop] in H. apply bind_Ok in H as (l1 & w1 & Hday & H).
      destruct (day_draws _ _ _ _ _ _ Hday) as (ev & _ & Ht & _).
      rewrite (IH _ _ _ H). exact Ht.
  - revert start l w H. induction days as [|days IH]; intros start l w H.
    + apply mret_Ok in H as [_ ->]. lia.
    + cbn [day_loop] in H. apply bind_Ok in H as (l1 & w1 & Hday & H).
      destruct (day_draws _ _ _ _ _ _ Hday) as (ev & _ & _ & Hp).
      specialize (IH _ _ _ H).
      destruct (String.eqb ev "Internal conflict" || String.eqb ev "Quiet day");
        lia.
  - intros ->. cbn [day_loop] in H. apply bind_Ok in H as (l1 & w1 & Hday & H).
    apply mret_Ok in H as [_ ->].
    destruct (day_draws _ _ _ _ _ _ Hday) as (ev & Hev & _ & Hp). eauto.
Qed.

Lemma draws_consumed_witness :
  exists l' w',
    day_loop "Prison" 0 3 prison_start eventful_world = Ok (l', w') /\
    (0 + 3 <= Rng.pos (rng w') <= 0 + 2 * 3)%nat.
Proof.
  destruct (day_loop "Prison" 0 3 prison_start eventful_world)
    as [[l' w']|e] eqn:E; [|vm_compute in E; discriminate].
  exists l', w'. split; [reflexivity|].
  exact (proj1 (proj2 (draws_consumed "Prison" 0 3 prison_start l'
                         eventful_world w' E))).
Defined.

(** ** Famine

    Alexandria and Hilltop eat more per day (36 and 40) than the best day
    of scavenging finds (25), so their food goes down every day whatever
    happens. *)

Lemma at_most_0_box : forallb at_most_0_ok food_range = true.
Proof. vm_compute. reflexivity. Qed.

Lemma at_most_0_exact (z : Z) :
  -1300 <= z < 200 -> z <= 0 -> le (Float (nearest_int z)) (Int 0) = true.
Proof.
  intros Hz H0.
  pose proof (Zrange_forallb at_most_0_ok (-1300) 1500 at_most_0_box z
                ltac:(lia)) as H.
  unfold at_most_0_ok in H. apply Bool.eqb_prop in H. rewrite H.
  apply Z.leb_le, H0.
Qed.

Lemma simulation_inv (choice : string) (days : nat) (w w' : World)
    (r : Results) :
  simulation choice days w = Ok (r, w') ->
  exists (l0 l : Locals) (b : Base.t),
    seed choice w = Ok (l0, w) /\
    day_loop choice 0 days l0 w = Ok (l, w') /\
    bases w' !! choice = Some b /\
    outcome r = verdict (food l) (morale l) (Base.defense b).
Proof.
  intros H. unfold simulation in H. run_inv H.
  assert (w0 = w) as ->.
  { unfold seed in E. run_inv E.
    apply read_base_Ok in E1 as [_ ->]. injection E2 as _ <-.
    apply lift_Ok in E3 as [_ ->]. apply mret_Ok in E as [_ ->].
    reflexivity. }
  unfold results in H. run_inv H.
  apply read_base_Ok in E1 as [Hb ->]. apply mret_Ok in H as [-> ->].
  exists a, a0, a1. auto.
Qed.

(** The food after [days] days of one of the predefined bases, whose
    daily consumption [c] is the integer [population * 4 / 5]: an integer
    between [F0 - c days] and [F0 + (25 - c) days]. *)
Lemma food_after (choice : string) (days : nat) (g : Rng.t) (l0 l : Locals)
    (w' : World) (b0 : Base.t) :
  (days <= 30)%nat ->
  BASES !! choice = Some b0 ->
  seed choice (initial_world g) = Ok (l0, initial_world g) ->
  day_loop choice 0 days l0 (initial_world g) = Ok (l, w') ->
  exists z,
    (food l = Int z \/ food l = Float (nearest_int z)) /\
    -1300 <= z < 200 /\
    Base.food b0 - Base.population b0 * 4 / 5 * Z.of_nat days <= z
    <= Base.food b0 + (25 - Base.population b0 * 4 / 5) * Z.of_nat days.
Proof.
  intros Hdays Hb0 Hseed Hloop.
  assert (Hl0 : food l0 = Int (Base.food b0)).
  { unfold seed in Hseed. run_inv Hseed.
    apply read_base_Ok in E as [Hb _]. cbn in Hb.
    apply mret_Ok in Hseed as [-> _]. cbn. congruence. }
  assert (Hinv0 : forall c,
            food_invariant choice (Base.food b0) (Base.defense b0)
              (Base.population b0) c 0 l0 (initial_world g)).
  { intros c. exists (Base.food b0), b0. split; [auto|]. split; [exact Hb0|].
    split; [reflexivity|]. lia. }
  destruct (day_loop_base _ _ _ _ _ _ _ Hloop) as (_ & _ & Hsel & _).
  destruct (Hsel b0 Hb0) as (hits & Hhits & Hb').
  assert (Hend : forall c,
            0 <= Base.food b0 <= 100 -> 24 <= c <= 40 ->
            food_invariant choice (Base.food b0) (Base.defense b0)
              (Base.population b0) c (0 + days) l w' ->
            exists z,
              (food l = Int z \/ food l = Float (nearest_int z)) /\
              -1300 <= z < 200 /\
              Base.food b0 - c * Z.of_nat days <= z
              <= Base.food b0 + (25 - c) * Z.of_nat days).
  { intros c HF Hc (z & b & Hz & Hb & _ & Hzr & _ & Hj).
    rewrite Hb' in Hb. injection Hb as <-. cbn in Hj.
    exists z. split; [exact Hz|]. cbn [Nat.add] in *.
    assert (0 <= c * Z.of_nat days <= 40 * 30) by nia.
    lia. }
  destruct (BASES_lookup _ _ Hb0) as [[-> ->]|[[-> ->]|[-> ->]]].
  - apply (Hend 24); [cbn; lia|lia|].
    exact (food_invariant_loop "Prison" 70 9 30 24 ltac:(lia) ltac:(auto)
             eq_refl days 0 0 _ _ _ _ ltac:(lia) (Hinv0 24) Hloop).
  - apply (Hend 36); [cbn; lia|lia|].
    exact (food_invariant_loop "Alexandria" 80 7 45 36 ltac:(lia) ltac:(auto)
             eq_refl days 0 0 _ _ _ _ ltac:(lia) (Hinv0 36) Hloop).
  - apply (Hend 40); [cbn; lia|lia|].
    exact (food_invariant_loop "Hilltop" 90 6 50 40 ltac:(lia) ltac:(auto)
             eq_refl days 0 0 _ _ _ _ ltac:(lia) (Hinv0 40) Hloop).
Qed.

Lemma outcome_by_food (choice : string) (b0 : Base.t) (days : nat)
    (g : Rng.t) :
  BASES !! choice = Some b0 ->
  (days <= 30)%nat ->
  exists r w' z,
    simulation choice days (initial_world g) = Ok (r, w') /\
    Base.food b0 - Base.population b0 * 4 / 5 * Z.of_nat days <= z
    <= Base.food b0 + (25 - Base.population b0 * 4 / 5) * Z.of_nat days /\
    (z <= 0 -> outcome r = Collapse) /\
    (z <= 30 -> outcome r <> Thriving).
Proof.
  intros Hb0 Hdays.
  assert (Hok : exists r w',
            simulation choice days (initial_world g) = Ok (r, w') /\
            length (event_log r) = days).
  { destruct (BASES_lookup _ _ Hb0) as [[-> ->]|[[-> ->]|[-> ->]]].
    - apply (simulation_completes "Prison" days (initial_world g) Prison
               (Float (ratio 42 5)) (Float (ratio 24 1)) (ratio 70 1));
        vm_compute; reflexivity.
    - apply (simulation_completes "Alexandria" days (initial_world g)
               Alexandria (Float (ratio 42 5)) (Float (ratio 36 1))
               (ratio 80 1)); vm_compute; reflexivity.
    - apply (simulation_completes "Hilltop" days (initial_world g) Hilltop
               (Float (ratio 42 5)) (Float (ratio 40 1)) (ratio 90 1));
        vm_compute; reflexivity. }
  destruct Hok as (r & w' & Hsim & _).
  destruct (simulation_inv _ _ _ _ _ Hsim) as (l0 & l & b & Hseed & Hloop & Hb
                                                & Hout).
  destruct (food_after _ _ _ _ _ _ _ Hdays Hb0 Hseed Hloop)
    as (z & Hz & Hrange & Hbounds).
  exists r, w', z. split; [exact Hsim|]. split; [exact Hbounds|].
  rewrite Hout. split.
  - intros H0. apply verdict_Collapse. left.
    destruct Hz as [-> | ->]; [|apply at_most_0_exact; assumption].
    unfold le, cmp. destruct (Z.compare_spec z 0); try reflexivity. lia.
  - intros H30 Hthr. apply verdict_Thriving in Hthr as (_ & _ & Hgt).
    assert (30 < z); [|lia].
    destruct Hz as [Hz|Hz]; rewrite Hz in Hgt.
    + unfold gt, cmp in Hgt.
      destruct (Z.compare_spec z 30); try discriminate. lia.
    + apply above_30_exact; assumption.
Qed.

(** X4. Famine. For every random source, a run of Hilltop over 6 to 30
    days and a run of Alexandria over 8 to 30 days end in Collapse, and
    from 4 days (Hilltop) or 5 days (Alexandria) on the verdict is never
    Thriving: these bases eat 40 and 36 food a day, more than the 25 a day
    of scavenging can find.  The day counts are the least possible: with
    25 food found every day Hilltop is not in Collapse after 5 days and is
    Thriving after 3, Alexandria is not in Collapse after 7 days and is
    Thriving after 4. *)
Theorem famine (days : nat) (g : Rng.t) :
  (days <= 30)%nat ->
  (6 <= days ->
   exists r w', simulation "Hilltop" days (initial_world g) = Ok (r, w') /\
                outcome r = Collapse)%nat /\
  (8 <= days ->
   exists r w', simulation "Alexandria" days (initial_world g) = Ok (r, w') /\
                outcome r = Collapse)%nat /\
  (4 <= days ->
   exists r w', simulation "Hilltop" days (initial_world g) = Ok (r, w') /\
                outcome r <> Thriving)%nat /\
  (5 <= days ->
   exists r w', simulation "Alexandria" days (initial_world g) = Ok (r, w') /\
                outcome r <> Thriving)%nat /\
  (exists r w', simulation "Hilltop" 5 (initial_world lucky_draws) = Ok (r, w')
                /\ outcome r = Fragile) /\
  (exists r w', simulation "Hilltop" 3 (initial_world lucky_draws) = Ok (r, w')
                /\ outcome r = Thriving) /\
  (exists r w',
     simulation "Alexandria" 7 (initial_world lucky_draws) = Ok (r, w')
     /\ outcome r = Fragile) /\
  (exists r w',
     simulation "Alexandria" 4 (initial_world lucky_draws) = Ok (r, w')
     /\ outcome r = Thriving).
Proof.
  intros Hdays.
  destruct (outcome_by_food "Hilltop" Hilltop days g eq_refl Hdays)
    as (rh & wh & zh & Hh & Hzh & Hh0 & Hh30).
  destruct (outcome_by_food "Alexandria" Alexandria days g eq_refl Hdays)
    as (ra & wa & za & Ha & Hza & Ha0 & Ha30).
  change (Base.food Hilltop) with 90 in Hzh.
  change (Base.population Hilltop * 4 / 5) with 40 in Hzh.
  change (Base.food Alexandria) with 80 in Hza.
  change (Base.population Alexandria * 4 / 5) with 36 in Hza.
  split; [intros Hd; exists rh, wh; split; [exact Hh|apply Hh0; lia]|].
  split; [intros Hd; exists ra, wa; split; [exact Ha|apply Ha0; lia]|].
  split; [intros Hd; exists rh, wh; split; [exact Hh|apply Hh30; lia]|].
  split; [intros Hd; exists ra, wa; split; [exact Ha|apply Ha30; lia]|].
  repeat split;
    match goal with
    | |- exists r w', ?sim = _ /\ _ =>
        destruct sim as [[r w']|e] eqn:E; vm_compute in E; [|discriminate];
        injection E as <- <-; eexists _, _; split; reflexivity
    end.
Qed.

Lemma famine_witness :
  exists r w', simulation "Hilltop" 7 (initial_world eventful_draws)
               = Ok (r, w') /\
               outcome r = Collapse.
Proof.
  destruct (famine 7 eventful_draws ltac:(lia)) as (H & _).
  apply H. lia.
Defined.

(** ** The metrics as weighted means *)

Lemma combat_power_within_box :
  all3 combat_power_within (Zrange (-10) 31) = true.
Proof. vm_compute. reflexivity. Qed.

Lemma efficiency_within_box : all2 efficiency_within (Zrange (-10) 31) = true.
Proof. vm_compute. reflexivity. Qed.

Lemma safety_score_within_box :
  all2 safety_score_within (Zrange (-10) 71) = true.
Proof. vm_compute. reflexivity. Qed.

Lemma risk_within_box : all2 risk_within (Zrange (-10) 31) = true.
Proof. vm_compute. reflexivity. Qed.

Lemma risk_steps_box : all2 risk_steps (Zrange (-10) 31) = true.
Proof. vm_compute. reflexivity. Qed.

Lemma within_Ok (r : res num) (lo hi : Z) :
  within r lo hi = true ->
  exists v, r = Ok v /\ le (Int lo) v = true /\ le v (Int hi) = true.
Proof.
  unfold within. destruct r as [v|e]; [|discriminate].
  rewrite andb_true_iff. eauto.
Qed.

(** X5. Each metric is a weighted mean of its inputs and so lies between
    the least and the greatest of them (attributes between -10 and 20,
    defense and population up to 60): combat power between strength,
    stamina and morale; efficiency between intelligence and stamina; the
    safety score between defense and population; the risk between noise
    and [10 - speed].  In particular equal inputs give that value back. *)
Theorem metrics_within_inputs (s : Survivor.t) (b : Base.t) (t : Transport.t) :
  (-10 <= Survivor.strength s <= 20 ->
   -10 <= Survivor.stamina s <= 20 ->
   -10 <= Survivor.morale s <= 20 ->
   exists v,
     Survivor.combat_power s = Ok v /\
     le (Int (Z.min (Survivor.strength s)
                (Z.min (Survivor.stamina s) (Survivor.morale s)))) v = true /\
     le v (Int (Z.max (Survivor.strength s)
                  (Z.max (Survivor.stamina s) (Survivor.morale s)))) = true) /\
  (-10 <= Survivor.intelligence s <= 20 ->
   -10 <= Survivor.stamina s <= 20 ->
   exists v,
     Survivor.efficiency s = Ok v /\
     le (Int (Z.min (Survivor.intelligence s) (Survivor.stamina s))) v = true
     /\ le v (Int (Z.max (Survivor.intelligence s) (Survivor.stamina s)))
        = true) /\
  (-10 <= Base.defense b <= 60 ->
   -10 <= Base.population b <= 60 ->
   exists v,
     Base.safety_score b = Ok v /\
     le (Int (Z.min (Base.defense b) (Base.population b))) v = true /\
     le v (Int (Z.max (Base.defense b) (Base.population b))) = true) /\
  (-10 <= Transport.noise t <= 20 ->
   -10 <= Transport.speed t <= 20 ->
   exists v,
     Transport.risk t = Ok v /\
     le (Int (Z.min (Transport.noise t) (10 - Transport.speed t))) v = true /\
     le v (Int (Z.max (Transport.noise t) (10 - Transport.speed t))) = true).
Proof.
  split; [|split; [|split]].
  - intros Ha Hc Hd. apply within_Ok.
    exact (all3_Zrange combat_power_within (-10) 31 combat_power_within_box
             (Survivor.strength s) (Survivor.stamina s) (Survivor.morale s)
             ltac:(lia) ltac:(lia) ltac:(lia)).
  - intros Hb Hc. apply within_Ok.
    exact (all2_Zrange efficiency_within (-10) 31 efficiency_within_box
             (Survivor.intelligence s) (Survivor.stamina s)
             ltac:(lia) ltac:(lia)).
  - intros Hd Hp. apply within_Ok.
    exact (all2_Zrange safety_score_within (-10) 71 safety_score_within_box
             (Base.defense b) (Base.population b) ltac:(lia) ltac:(lia)).
  - intros Hn Hs. apply within_Ok.
    exact (all2_Zrange risk_within (-10) 31 risk_within_box
             (Transport.noise t) (Transport.speed t) ltac:(lia) ltac:(lia)).
Qed.

Lemma metrics_within_inputs_witness :
  exists v,
    Survivor.combat_power (Survivor.init "Daryl" 10 6 9 8 "Hunter") = Ok v /\
    le (Int 8) v = true /\ le v (Int 10) = true.
Proof.
  destruct (metrics_within_inputs (Survivor.init "Daryl" 10 6 9 8 "Hunter")
              Prison Transport.Car) as (H & _).
  apply H; cbn; lia.
Defined.

(** X6. Risk grows with noise and falls with speed: for noise and speed
    between -10 and 20, one more point of noise gives a strictly greater
    risk and one more point of speed a strictly smaller one. *)
Theorem risk_monotone (name : string) (noise capacity speed : Z) :
  -10 <= noise <= 20 ->
  -10 <= speed <= 20 ->
  exists r louder faster,
    Transport.risk (Transport.mk name noise capacity speed) = Ok r /\
    Transport.risk (Transport.mk name (noise + 1) capacity speed)
    = Ok louder /\
    Transport.risk (Transport.mk name noise capacity (speed + 1))
    = Ok faster /\
    lt r louder = true /\ lt faster r = true.
Proof.
  intros Hn Hs.
  pose proof (all2_Zrange risk_steps (-10) 31 risk_steps_box noise speed
                ltac:(lia) ltac:(lia)) as H.
  unfold risk_steps, below in H.
  change (Transport.risk (Transport.mk "" noise 0 speed))
    with (Transport.risk (Transport.mk name noise capacity speed)) in H.
  change (Transport.risk (Transport.mk "" (noise + 1) 0 speed))
    with (Transport.risk (Transport.mk name (noise + 1) capacity speed)) in H.
  change (Transport.risk (Transport.mk "" noise 0 (speed + 1)))
    with (Transport.risk (Transport.mk name noise capacity (speed + 1))) in H.
  destruct (Transport.risk (Transport.mk name noise capacity speed))
    as [r|]; [|discriminate].
  destruct (Transport.risk (Transport.mk name (noise + 1) capacity speed))
    as [louder|]; [|discriminate].
  destruct (Transport.risk (Transport.mk name noise capacity (speed + 1)))
    as [faster|]; [|rewrite andb_false_r in H; discriminate].
  apply andb_true_iff in H as [H1 H2].
  exists r, louder, faster. auto.
Qed.

Lemma risk_monotone_witness :
  exists r louder faster,
    Transport.risk Transport.Horse = Ok r /\
    Transport.risk (Transport.mk "🐎 Horse" (3 + 1) 2 6) = Ok louder /\
    Transport.risk (Transport.mk "🐎 Horse" 3 2 (6 + 1)) = Ok faster /\
    lt r louder = true /\ lt faster r = true.
Proof.
  apply (risk_monotone "🐎 Horse" 3 2 6); lia.
Defined.

(** ** The roster in three columns *)

(** The number of indices below [i] that fall into column [j] is
    [(i + 2 - j) / 3]. *)
Lemma div3_unique (a q r : nat) :
  a = (3 * q + r)%nat -> (r < 3)%nat -> (a / 3)%nat = q.
Proof. intros Ha Hr. symmetry. exact (Nat.div_unique a 3 q r Hr Ha). Qed.

Lemma column_count (i j : nat) :
  (j < 3)%nat ->
  ((i + 2 - j) / 3)%nat
  = (i / 3 + if (j <? i mod 3)%nat then 1 else 0)%nat.
Proof.
  intros Hj. pose proof (Nat.div_mod_eq i 3).
  pose proof (Nat.mod_upper_bound i 3 ltac:(lia)).
  destruct (Nat.ltb_spec j (i mod 3)).
  - apply (div3_unique _ _ (i mod 3 - j - 1)); lia.
  - apply (div3_unique _ _ (i mod 3 + 2 - j)); lia.
Qed.

Lemma column_count_S (i j : nat) :
  (j < 3)%nat ->
  ((S i + 2 - j) / 3)%nat
  = (i / 3 + if (j <=? i mod 3)%nat then 1 else 0)%nat.
Proof.
  intros Hj. pose proof (Nat.div_mod_eq i 3).
  pose proof (Nat.mod_upper_bound i 3 ltac:(lia)).
  destruct (Nat.leb_spec j (i mod 3)).
  - apply (div3_unique _ _ (i mod 3 - j)); lia.
  - apply (div3_unique _ _ (i mod 3 + 3 - j)); lia.
Qed.

Lemma roster_cards_spec (roster : list Survivor.t) (i : nat)
    (cols cols' : list (list Card)) :
  length cols = 3%nat ->
  (forall j col, cols !! j = Some col ->
     length col = ((i + 2 - j) / 3)%nat) ->
  roster_cards i roster cols = Ok cols' ->
  length cols' = 3%nat /\
  (forall j col, cols !! j = Some col ->
     exists col', cols' !! j = Some col' /\
       length col' = ((i + length roster + 2 - j) / 3)%nat /\
       forall k, (k < length col)%nat -> col' !! k = col !! k) /\
  (forall k s, roster !! k = Some s ->
     exists power col',
       Survivor.combat_power s = Ok power /\
       cols' !! ((i + k) mod 3)%nat = Some col' /\
       col' !! ((i + k) / 3)%nat = Some (s, power)).
Proof.
  revert i cols. induction roster as [|s rest IH]; intros i cols Hlen Hcols H.
  - injection H as <-. split; [exact Hlen|]. split.
    + intros j col Hj. exists col. split; [exact Hj|].
      split; [|auto]. rewrite (Hcols j col Hj). cbn [length].
      f_equal. lia.
    + intros k s Hk. discriminate.
  - cbn [roster_cards] in H.
    apply res_bind_Ok in H as (power & Hpower & H).
    set (cols1 := alter (fun col : list Card => (col ++ [(s, power)])%list)
                       (i mod 3)%nat cols)
      in H.
    assert (Hlen1 : length cols1 = 3%nat)
      by (unfold cols1; rewrite length_alter; exact Hlen).
    assert (Hcols1 : forall j col, cols1 !! j = Some col ->
              length col = ((S i + 2 - j) / 3)%nat).
    { intros j col Hj. unfold cols1 in Hj.
      assert (Hj3 : (j < 3)%nat).
      { apply lookup_lt_Some in Hj. rewrite length_alter in Hj. lia. }
      destruct (decide (j = (i mod 3)%nat)) as [->|Hne].
      - rewrite list_lookup_alter_eq in Hj.
        destruct (cols !! (i mod 3)%nat) as [col0|] eqn:E; [|discriminate].
        injection Hj as <-. rewrite length_app, (Hcols _ _ E). cbn [length].
        rewrite column_count, column_count_S by exact Hj3.
        rewrite Nat.ltb_irrefl, Nat.leb_refl. lia.
      - rewrite list_lookup_alter_ne in Hj by congruence.
        rewrite (Hcols _ _ Hj).
        rewrite column_count, column_count_S by exact Hj3.
        destruct (Nat.ltb_spec j (i mod 3)), (Nat.leb_spec j (i mod 3)); lia. }
    destruct (IH (S i) cols1 Hlen1 Hcols1 H) as (Hlen' & Hkeep & Hput).
    split; [exact Hlen'|]. split.
    + intros j col Hj.
      assert (Hj1 : exists col1, cols1 !! j = Some col1 /\
                (forall k, (k < length col)%nat -> col1 !! k = col !! k) /\
                (length col <= length col1)%nat).
      { unfold cols1. destruct (decide (j = (i mod 3)%nat)) as [->|Hne].
        - rewrite list_lookup_alter_eq, Hj. cbn. eexists. split; [reflexivity|].
          split; [intros k Hk; apply lookup_app_l; exact Hk|].
          rewrite length_app. lia.
        - rewrite list_lookup_alter_ne by congruence. eauto. }
      destruct Hj1 as (col1 & Hc1 & Hpre & Hle).
      destruct (Hkeep j col1 Hc1) as (col' & Hc' & Hl' & Hpre').
      exists col'. split; [exact Hc'|]. split.
      * rewrite Hl'. cbn [length]. f_equal. lia.
      * intros k Hk. rewrite Hpre' by lia. apply Hpre, Hk.
    + intros k s0 Hk. destruct k as [|k].
      * injection Hk as <-. rewrite Nat.add_0_r.
        assert (Hi3 : (i mod 3 < 3)%nat) by (apply Nat.mod_upper_bound; lia).
        destruct (lookup_lt_is_Some_2 cols (i mod 3)%nat ltac:(lia))
          as [col0 Hcol0].
        assert (Hc1 : cols1 !! (i mod 3)%nat
                      = Some (col0 ++ [(s, power)])%list).
        { unfold cols1. rewrite list_lookup_alter_eq, Hcol0. reflexivity. }
        destruct (Hkeep _ _ Hc1) as (col' & Hc' & _ & Hpre').
        exists power, col'. split; [exact Hpower|]. split; [exact Hc'|].
        assert (Hpos : length col0 = (i / 3)%nat).
        { rewrite (Hcols _ _ Hcol0), column_count by exact Hi3.
          rewrite Nat.ltb_irrefl. lia. }
        rewrite Hpre' by (rewrite length_app; cbn [length]; lia).
        rewrite <- Hpos. apply list_lookup_middle. reflexivity.
      * cbn in Hk. destruct (Hput k s0 Hk) as (p & col' & Hp & Hc' & Hrow).
        exists p, col'. replace (i + S k)%nat with (S i + k)%nat by lia. auto.
Qed.

(** X7. The roster loop deals the cards round-robin into the three
    columns: the card of the survivor at index [i] (with the combat power
    computed for it) is in column [i mod 3] at row [i / 3], there are
    always three columns, and column [j] receives
    [(length roster + 2 - j) / 3] cards, so the column sizes differ by at
    most one. *)
Theorem roster_in_three_columns (roster : list Survivor.t)
    (cols : list (list Card)) :
  roster_cards 0 roster columns3 = Ok cols ->
  length cols = 3%nat /\
  (forall i s, roster !! i = Some s ->
     exists power col,
       Survivor.combat_power s = Ok power /\
       cols !! (i mod 3)%nat = Some col /\
       col !! (i / 3)%nat = Some (s, power)) /\
  (forall j col, cols !! j = Some col ->
     length col = ((length roster + 2 - j) / 3)%nat).
Proof.
  intros H.
  assert (Hcols0 : forall j col, columns3 !! j = Some col ->
            length col = ((0 + 2 - j) / 3)%nat).
  { intros j col Hj. destruct j as [|[|[|j]]]; try discriminate;
      injection Hj as <-; reflexivity. }
  destruct (roster_cards_spec roster 0 columns3 cols eq_refl Hcols0 H)
    as (Hlen & Hkeep & Hput).
  split; [exact Hlen|]. split; [exact Hput|].
  intros j col Hj.
  assert (Hj3 : (j < 3)%nat) by (apply lookup_lt_Some in Hj; lia).
  destruct (lookup_lt_is_Some_2 columns3 j Hj3) as [col0 Hcol0].
  destruct (Hkeep j col0 Hcol0) as (col' & Hc' & Hl' & _).
  assert (col' = col) as -> by congruence. exact Hl'.
Qed.

Lemma roster_in_three_columns_witness :
  exists cols power col,
    roster_cards 0 SURVIVORS columns3 = Ok cols /\
    Survivor.combat_power (Survivor.init "Glenn" 6 8 8 8 "Scout") = Ok power /\
    cols !! 1%nat = Some col /\
    col !! 1%nat = Some (Survivor.init "Glenn" 6 8 8 8 "Scout", power).
Proof.
  destruct (roster_cards 0 SURVIVORS columns3) as [cols|e] eqn:E;
    [|vm_compute in E; discriminate].
  destruct (roster_in_three_columns SURVIVORS cols E) as (_ & Hput & _).
  destruct (Hput 4%nat (Survivor.init "Glenn" 6 8 8 8 "Scout") eq_refl)
    as (power & col & Hp & Hc & Hrow).
  exists cols, power, col. auto.
Defined.

(** ** The morale rule on an empty roster *)

(** X9. [morale_change] raises ZeroDivisionError exactly when the roster is
    empty, whatever the base: the average is computed before the food
    test, so even a base with food below 20 does not get its -2.  On a
    non-empty roster it returns -2, 1 or 0, or raises OverflowError. *)
Theorem morale_change_empty_roster (base : Base.t)
    (roster : list Survivor.t) :
  (morale_change base roster = Raise ZeroDivisionError <-> roster = []) /\
  (roster <> [] ->
   morale_change base roster = Raise OverflowError \/
   exists delta, morale_change base roster = Ok delta /\
                 (delta = -2 \/ delta = 1 \/ delta = 0)).
Proof.
  split.
  - split.
    + intros H. apply morale_change_Raise, average_morale_Raise in H.
      destruct H as [[_ H]|[H _]]; [exact H|discriminate].
    + intros ->. apply morale_change_Raise. reflexivity.
  - intros Hne. destruct (morale_change base roster) as [delta|e] eqn:E.
    + right. exists delta. split; [reflexivity|].
      destruct (morale_change_inv _ _ _ E) as (_ & _ & H). exact H.
    + left. apply morale_change_Raise, average_morale_Raise in E.
      destruct E as [[_ H]|[-> _]]; [contradiction|reflexivity].
Qed.

Lemma morale_change_empty_roster_witness :
  morale_change (Base.mk "Camp" 5 10 5 12) [] = Raise ZeroDivisionError /\
  (morale_change Prison SURVIVORS = Raise OverflowError \/
   exists delta, morale_change Prison SURVIVORS = Ok delta /\
                 (delta = -2 \/ delta = 1 \/ delta = 0)).
Proof.
  split.
  - apply (morale_change_empty_roster (Base.mk "Camp" 5 10 5 12) []).
    reflexivity.
  - apply (morale_change_empty_roster Prison SURVIVORS). discriminate.
Defined.

(** ** The event log and the random source *)

Lemma day_log_rng (choice : string) (d : nat) (l l' : Locals) (w w' : World) :
  day choice d l w = Ok (l', w') ->
  exists event,
    random_event w = Ok (event, advance w) /\
    log l' = (log l ++ [log_line d event])%list /\
    rng w'
    = (if String.eqb event "Internal conflict" || String.eqb event "Quiet day"
       then rng (advance w) else rng (advance (advance w))).
Proof.
  intros H.
  destruct (day_inv _ _ _ _ _ _ H)
    as (event & base & eaten & food1 & morale1 & delta & Hev & _ & _ & _ & _
        & _ & Hlog & Hcase).
  exists event. split; [exact Hev|]. split; [exact Hlog|].
  destruct Hcase as [(-> & hit & _ & _ & -> & _)
                    |[(-> & used & _ & _ & -> & _)
                    |[(-> & found & _ & _ & -> & _)
                    |([-> | ->] & -> & _)]]]; reflexivity.
Qed.

(** X10. The event log is decided by the random source and the day count
    alone: two completed loops over the same days with the same generator
    write the same log lines and leave the generator in the same state,
    whichever bases they run on and whatever their food, medicine, morale
    and roster are. *)
Theorem log_decided_by_draws (choice1 choice2 : string) (start days : nat)
    (l1 l1' l2 l2' : Locals) (w1 w1' w2 w2' : World) :
  rng w1 = rng w2 ->
  log l1 = log l2 ->
  day_loop choice1 start days l1 w1 = Ok (l1', w1') ->
  day_loop choice2 start days l2 w2 = Ok (l2', w2') ->
  log l1' = log l2' /\ rng w1' = rng w2'.
Proof.
  revert start l1 l2 w1 w2.
  induction days as [|days IH]; intros start l1 l2 w1 w2 Hr Hl H1 H2.
  - apply mret_Ok in H1 as [-> ->]. apply mret_Ok in H2 as [-> ->]. auto.
  - cbn [day_loop] in H1, H2.
    apply bind_Ok in H1 as (la & wa & Hd1 & H1).
    apply bind_Ok in H2 as (lb & wb & Hd2 & H2).
    destruct (day_log_rng _ _ _ _ _ _ Hd1) as (e1 & He1 & Hl1 & Hr1).
    destruct (day_log_rng _ _ _ _ _ _ Hd2) as (e2 & He2 & Hl2 & Hr2).
    pose proof (random_event_rng _ _ _ _ Hr He1) as He. rewrite He2 in He.
    injection He as ->.
    apply (IH (S start) la lb wa wb); [|congruence|exact H1|exact H2].
    rewrite Hr1, Hr2.
    pose proof (rng_advance _ _ Hr) as Ha.
    pose proof (rng_advance _ _ Ha) as Haa.
    destruct (String.eqb e1 "Internal conflict" || String.eqb e1 "Quiet day");
      assumption.
Qed.

Lemma log_decided_by_draws_witness :
  exists l1' w1' l2' w2',
    day_loop "Prison" 0 3 prison_start eventful_world = Ok (l1', w1') /\
    day_loop "Hilltop" 0 3 hilltop_start eventful_world = Ok (l2', w2') /\
    log l1' = log l2' /\ rng w1' = rng w2'.
Proof.
  destruct (day_loop "Prison" 0 3 prison_start eventful_world)
    as [[l1' w1']|e] eqn:E1; [|vm_compute in E1; discriminate].
  destruct (day_loop "Hilltop" 0 3 hilltop_start eventful_world)
    as [[l2' w2']|e] eqn:E2; [|vm_compute in E2; discriminate].
  exists l1', w1', l2', w2'. split; [reflexivity|]. split; [reflexivity|].
  exact (log_decided_by_draws "Prison" "Hilltop" 0 3 prison_start l1'
           hilltop_start l2' eventful_world w1' eventful_world w2'
           eq_refl eq_refl E1 E2).
Defined.
